(** * Global heart-disease dashboard: the data-preparation pipeline

    A shallow embedding of the parts of [preprocessing_scripts/] and [app.py]
    that carry the data contract: country-code resolution, region
    classification, the imputers, placeholder years and the outer-join merge.

    Conventions.
    - A [DataFrame] is a list of column labels and a list of rows; a row is a
      finite map from column label to cell, as the dictionaries that
      [add_missing_years] builds.
    - A cell is a number, a string, NaN or Python's [None].  Numbers are
      rationals: the floating-point rounding of numpy is not modelled.
    - A Python [str] is held as its UTF-8 encoding; the string methods work
      on its code points, and the Unicode character database of the
      interpreter is a parameter.
    - The numerical solvers of numpy and scikit-learn (least squares, nearest
      neighbours, linear regression) are parameters of the development; what
      is modelled is which cells the code reads and writes around them.
    - Python exceptions are an error type; a function that can raise returns
      [result]. *)

From Stdlib Require Import NArith ZArith QArith List Bool Ascii String Lia Permutation.
From stdpp Require Import base option list gmap strings fin_maps.
From Stdlib Require Import Sorted Lqa.

Local Open Scope string_scope.
Local Open Scope list_scope.

(** ** Exceptions *)

Inductive pyerror : Type :=
| KeyError
| ValueError
| TypeError
| IndexError
| MergeError.

Inductive result (A : Type) : Type :=
| Ok (a : A)
| Raise (e : pyerror).

Arguments Ok {A} a.
Arguments Raise {A} e.

#[global] Instance result_ret : MRet result := fun A a => Ok a.

#[global] Instance result_bind : MBind result := fun A B k m =>
  match m with
  | Ok a => k a
  | Raise e => Raise e
  end.

#[global] Instance result_fmap : FMap result := fun A B f m =>
  match m with
  | Ok a => Ok (f a)
  | Raise e => Raise e
  end.

(** ** Python string methods

    A Python [str] is a sequence of code points; a [string] holds its UTF-8
    encoding.  [str.strip] and [str.title] are CPython's [do_strip] and
    [do_title].  They read the Unicode character database, which is part of
    the interpreter and not of the sources: it is the parameter
    [unicode_data].  Its first 128 entries are those of ASCII, fixed by the
    Unicode standard, and are written out. *)

(** *** The first 128 code points *)

Module AsciiText.

Definition code (c : ascii) : nat := nat_of_ascii c.

Definition is_upper (c : ascii) : bool := (65 <=? code c)%nat && (code c <=? 90)%nat.
Definition is_lower (c : ascii) : bool := (97 <=? code c)%nat && (code c <=? 122)%nat.
Definition is_cased (c : ascii) : bool := is_upper c || is_lower c.

Definition to_lower (c : ascii) : ascii :=
  if is_upper c then ascii_of_nat (code c + 32) else c.
Definition to_upper (c : ascii) : ascii :=
  if is_lower c then ascii_of_nat (code c - 32) else c.

(** [str.isspace] below 128: tab, LF, VT, FF, CR, FS, GS, RS, US, space. *)
Definition is_space (c : ascii) : bool :=
  ((9 <=? code c)%nat && (code c <=? 13)%nat)
  || ((28 <=? code c)%nat && (code c <=? 32)%nat).


(** [strip] and [title] read on ASCII text, character by character. *)

Fixpoint lstrip (l : list ascii) : list ascii :=
  match l with
  | [] => []
  | c :: t => if is_space c then lstrip t else l
  end.

Definition rstrip (l : list ascii) : list ascii := rev (lstrip (rev l)).

Definition strip_chars (l : list ascii) : list ascii := rstrip (lstrip l).

(** CPython's [do_title]: a character that follows a cased one is lowered,
    any other is title-cased. *)
Fixpoint title_from (previous_is_cased : bool) (l : list ascii) : list ascii :=
  match l with
  | [] => []
  | c :: t =>
      (if previous_is_cased then to_lower c else to_upper c)
        :: title_from (is_cased c) t
  end.

Definition title_chars (l : list ascii) : list ascii := title_from false l.

Definition chars (s : string) : list ascii := list_ascii_of_string s.

Definition strip (s : string) : string :=
  string_of_list_ascii (strip_chars (chars s)).

Definition title (s : string) : string :=
  string_of_list_ascii (title_chars (chars s)).





End AsciiText.

Module PyStr.

(** [_PyUnicode_ToLowerFull], [_PyUnicode_ToTitleFull],
    [_PyUnicode_ToUpperFull], [_PyUnicode_IsCased],
    [_PyUnicode_IsCaseIgnorable] and [_PyUnicode_IsWhitespace]. *)
Record unicode_data : Type := UnicodeData {
  ToLowerFull : N -> list N;
  ToTitleFull : N -> list N;
  ToUpperFull : N -> list N;
  IsCased : N -> bool;
  IsCaseIgnorable : N -> bool;
  IsWhitespace : N -> bool
}.

(** *** UTF-8

    A byte that is not part of a well-formed sequence stands for itself, as
    the code point U+DC00 + byte of Python's [surrogateescape]. *)

Definition is_continuation (b : N) : bool := ((128 <=? b) && (b <? 192))%N.

Definition escaped (b : N) : N := (56320 + b)%N.

Fixpoint decode_bytes (l : list N) : list N :=
  match l with
  | [] => []
  | b :: t =>
      if (b <? 128)%N then b :: decode_bytes t
      else
        match t with
        | b1 :: t1 =>
            if ((194 <=? b) && (b <? 224) && is_continuation b1)%N
            then ((b - 192) * 64 + (b1 - 128))%N :: decode_bytes t1
            else
              match t1 with
              | b2 :: t2 =>
                  let c3 := ((b - 224) * 4096 + (b1 - 128) * 64 + (b2 - 128))%N in
                  if ((224 <=? b) && (b <? 240) && is_continuation b1 && is_continuation b2
                      && (2048 <=? c3) && negb ((55296 <=? c3) && (c3 <? 57344)))%N
                  then c3 :: decode_bytes t2
                  else
                    match t2 with
                    | b3 :: t3 =>
                        let c4 := ((b - 240) * 262144 + (b1 - 128) * 4096
                                   + (b2 - 128) * 64 + (b3 - 128))%N in
                        if ((240 <=? b) && (b <? 245) && is_continuation b1
                            && is_continuation b2 && is_continuation b3
                            && (65536 <=? c4) && (c4 <? 1114112))%N
                        then c4 :: decode_bytes t3
                        else escaped b :: decode_bytes t
                    | [] => escaped b :: decode_bytes t
                    end
              | [] => escaped b :: decode_bytes t
              end
        | [] => [escaped b]
        end
  end.

Definition encode_point (c : N) : list N :=
  if (c <? 128)%N then [c]
  else if (c <? 2048)%N then [192 + c / 64; 128 + c mod 64]%N
  else if ((56448 <=? c) && (c <? 56576))%N then [c - 56320]%N
  else if (c <? 65536)%N then [224 + c / 4096; 128 + (c / 64) mod 64; 128 + c mod 64]%N
  else [240 + c / 262144; 128 + (c / 4096) mod 64; 128 + (c / 64) mod 64;
        128 + c mod 64]%N.

(** The code points of a string, and the string of a list of code points. *)
Definition decode (s : string) : list N :=
  decode_bytes (map N_of_ascii (list_ascii_of_string s)).

Definition encode (l : list N) : string :=
  string_of_list_ascii (map ascii_of_N (flat_map encode_point l)).

Section Methods.

Variable unicode : unicode_data.

(** [Py_UNICODE_ISSPACE]. *)
Definition is_space (c : N) : bool :=
  if (c <? 128)%N then AsciiText.is_space (ascii_of_N c) else IsWhitespace unicode c.

Definition is_cased (c : N) : bool :=
  if (c <? 128)%N then AsciiText.is_cased (ascii_of_N c) else IsCased unicode c.

Definition to_lower_full (c : N) : list N :=
  if (c <? 128)%N then [N_of_ascii (AsciiText.to_lower (ascii_of_N c))]
  else ToLowerFull unicode c.

Definition to_title_full (c : N) : list N :=
  if (c <? 128)%N then [N_of_ascii (AsciiText.to_upper (ascii_of_N c))]
  else ToTitleFull unicode c.


(** [str.strip()]: the whitespace at both ends is dropped. *)
Fixpoint lstrip (l : list N) : list N :=
  match l with
  | [] => []
  | c :: t => if is_space c then lstrip t else l
  end.

Definition rstrip (l : list N) : list N := rev (lstrip (rev l)).

Definition strip_points (l : list N) : list N := rstrip (lstrip l).

(** [handle_capital_sigma]: U+03A3 is lowered to the final sigma U+03C2
    when a cased character precedes it, case-ignorable ones apart, and no
    cased character follows it, case-ignorable ones apart.  [before] holds
    the code points before the sigma, the nearest first. *)
Fixpoint skip_ignorable (l : list N) : list N :=
  match l with
  | [] => []
  | c :: t => if IsCaseIgnorable unicode c then skip_ignorable t else l
  end.

Definition handle_capital_sigma (before after : list N) : N :=
  let final_sigma :=
    match skip_ignorable before with
    | c :: _ =>
        is_cased c && match skip_ignorable after with
                      | c' :: _ => negb (is_cased c')
                      | [] => true
                      end
    | [] => false
    end in
  if final_sigma then 962%N else 963%N.

(** [lower_ucs4]. *)
Definition lower_ucs4 (before : list N) (c : N) (after : list N) : list N :=
  if (c =? 931)%N then [handle_capital_sigma before after] else to_lower_full c.

(** [do_title]: a character that follows a cased one is lowered, any other
    is title-cased. *)
Fixpoint do_title (previous_is_cased : bool) (before l : list N) : list N :=
  match l with
  | [] => []
  | c :: t =>
      (if previous_is_cased then lower_ucs4 before c t else to_title_full c)
        ++ do_title (is_cased c) (c :: before) t
  end.

Definition strip (s : string) : string := encode (strip_points (decode s)).

Definition title (s : string) : string := encode (do_title false [] (decode s)).


End Methods.

End PyStr.

(** ** Frames *)

(** A cell: [NaN], Python's [None], a number or a string. *)
Inductive value : Type :=
| VNaN
| VNone
| VNum (q : Q)
| VStr (s : string).

(** A row is a dictionary from column label to cell. *)
Abbreviation row := (gmap string value).

Record frame : Type := Frame {
  columns : list string;
  rows : list row
}.

(** [pd.isnull] / [Series.notnull]. *)
Definition isnull (v : value) : bool :=
  match v with
  | VNaN | VNone => true
  | VNum _ | VStr _ => false
  end.

Definition notnull (v : value) : bool := negb (isnull v).

Definition is_text_cell (v : value) : bool :=
  match v with VStr _ => true | _ => false end.

(** The cell of a row under a label; a label the row lacks reads as NaN, as
    in a frame built from dictionaries with different keys. *)
Definition cell (r : row) (c : string) : value := default VNaN (r !! c).

(** [df[c]] as a list, one cell per row. *)
Definition column (c : string) (df : frame) : list value :=
  map (fun r => cell r c) (rows df).

(** [df[c] = vs]: overwrite (or append) column [c], row by row. *)
Definition set_column (c : string) (vs : list value) (df : frame) : frame :=
  Frame (if decide (c ∈ columns df) then columns df else columns df ++ [c])
        (zip_with (fun r v => <[c := v]> r) (rows df) vs).

(** Conversion of a cell to a float operand: strings are refused, and a
    null among the operands of a solver makes it fail. *)
Definition to_float (v : value) : result Q :=
  match v with
  | VNum q => Ok q
  | VStr _ => Raise TypeError
  | VNaN | VNone => Raise ValueError
  end.

Definition is_numeric (v : value) : Prop :=
  match v with VNum _ => True | _ => False end.

Definition numeric_or_null (v : value) : Prop :=
  match v with VStr _ => False | _ => True end.

Definition known_rows (target_col : string) (df : frame) : list row :=
  filter (fun r => notnull (cell r target_col) = true) (rows df).

Definition missing_rows (target_col : string) (df : frame) : list row :=
  filter (fun r => isnull (cell r target_col) = true) (rows df).

(** ** pandas operations used by the scripts *)

Definition Qltb (a b : Q) : bool := negb (Qle_bool b a).

(** [np.maximum(a, b)] on two numbers. *)
Definition np_maximum (a b : Q) : Q := if Qle_bool a b then b else a.

(** [series.astype(str)] on one cell; the text of a float is the
    parameter [str_of_float]. *)
Definition astype_str (str_of_float : Q -> string) (v : value) : string :=
  match v with
  | VStr s => s
  | VNum q => str_of_float q
  | VNaN => "nan"
  | VNone => "None"
  end.

(** [df[[labels]]]: the frame cut down to the listed columns. *)
Definition select (labels : list string) (df : frame) : result frame :=
  if decide (Forall (fun c => c ∈ columns df) labels) then
    Ok (Frame labels
              (map (fun r => list_to_map (map (fun c => (c, cell r c)) labels)) (rows df)))
  else Raise KeyError.

(** [pd.concat([df, new_data], ignore_index=True)]. *)
Definition concat (df new_data : frame) : frame :=
  Frame (columns df ++ filter (fun c => c ∉ columns df) (columns new_data))
        (rows df ++ rows new_data).

(** Equality of join keys and of hashed values ([merge], [unique]): numbers
    by value, strings by content, and a null equals a null. *)
Definition value_eqb (a b : value) : bool :=
  match a, b with
  | VNum p, VNum q => Qeq_bool p q
  | VStr s, VStr t => String.eqb s t
  | (VNaN | VNone), (VNaN | VNone) => true
  | _, _ => false
  end.

(** The elementwise comparison [series == v]: a null is equal to nothing. *)
Definition value_cmp_eq (a b : value) : bool :=
  match a, b with
  | VNum p, VNum q => Qeq_bool p q
  | VStr s, VStr t => String.eqb s t
  | _, _ => false
  end.

(** [Series.unique()]: the distinct values in order of first appearance.
    Nulls are taken as one value; the functions below that enumerate a
    column with [unique] fail on any null in it, whichever it is. *)
Fixpoint unique (vs : list value) : list value :=
  match vs with
  | [] => []
  | v :: t => v :: filter (fun w => value_eqb v w = false) (unique t)
  end.

(** A stable sort by insertion: the head goes before the first element of
    the sorted tail that it does not exceed. *)
Fixpoint insert_sorted {A : Type} (leb : A -> A -> bool) (x : A) (l : list A) : list A :=
  match l with
  | [] => [x]
  | y :: t => if leb x y then x :: y :: t else y :: insert_sorted leb x t
  end.

Definition stable_sort {A : Type} (leb : A -> A -> bool) (l : list A) : list A :=
  foldr (insert_sorted leb) [] l.

(** [Index.difference(other)]: the labels not in [other], without repeats,
    sorted. *)
Definition Index_difference (labels other : list string) : list string :=
  stable_sort String.leb (remove_dups (filter (fun c => c ∉ other) labels)).

(** A row rebuilt label by label: the cell under [c] goes under [f c]. *)
Definition relabel (f : string -> string) (g : string -> row -> value)
    (labels : list string) (r : row) : list (string * value) :=
  map (fun c => (f c, g c r)) labels.

(** [DataFrame.rename(columns=mapping)]. *)
Definition rename_label (mapping : list (string * string)) (c : string) : string :=
  match list_find (fun kv => kv.1 = c) mapping with
  | Some (_, kv) => kv.2
  | None => c
  end.

Definition rename (mapping : list (string * string)) (df : frame) : frame :=
  Frame (map (rename_label mapping) (columns df))
        (map (fun r => list_to_map
                (relabel (rename_label mapping) (fun c r => cell r c) (columns df) r))
             (rows df)).

(** [df.drop(labels, axis=1)]: a label that is not a column is refused. *)
Definition drop_columns (labels : list string) (df : frame) : result frame :=
  if decide (Forall (fun c => c ∈ columns df) labels) then
    let kept := filter (fun c => c ∉ labels) (columns df) in
    Ok (Frame kept
              (map (fun r => list_to_map (map (fun c => (c, cell r c)) kept)) (rows df)))
  else Raise KeyError.

(** *** [DataFrame.merge(right, on=..., how='outer')]

    Every left row is paired with the right rows that agree with it on the
    keys, or kept once with the right columns NaN; every right row without a
    partner is kept with the left columns NaN.  A column other than a key
    that both frames have is suffixed [_x] on the left and [_y] on the
    right, and a suffix that makes two labels of one side collide is
    refused.  The keys of the result are read from the left row when there
    is one.  The order of the rows of the result is not modelled. *)

Definition keys_match (on : list string) (l r : row) : bool :=
  forallb (fun k => value_eqb (cell l k) (cell r k)) on.

Definition suffixed (overlap : list string) (suffix : string) (c : string) : string :=
  if decide (c ∈ overlap) then c +:+ suffix else c.

Definition merge_outer (left right : frame) (on : list string) : result frame :=
  if decide (Forall (fun k => k ∈ columns left /\ k ∈ columns right) on) then
    let rcols := filter (fun c => c ∉ on) (columns right) in
    let overlap := filter (fun c => c ∈ rcols) (columns left) in
    let lren := suffixed overlap "_x" in
    let rren := suffixed overlap "_y" in
    if decide (NoDup (map lren (columns left)) /\ NoDup (map rren rcols)) then
      let right_part (r : row) := relabel rren (fun c r => cell r c) rcols r in
      let right_nan := map (fun c => (rren c, VNaN)) rcols in
      let from_left (l : row) : list row :=
        let left_part := relabel lren (fun c l => cell l c) (columns left) l in
        match filter (fun r => keys_match on l r = true) (rows right) with
        | [] => [list_to_map (left_part ++ right_nan)]
        | ms => map (fun r => list_to_map (left_part ++ right_part r)) ms
        end in
      let right_only :=
        filter (fun r => forallb (fun l => negb (keys_match on l r)) (rows left) = true)
               (rows right) in
      let from_right (r : row) : row :=
        list_to_map
          (relabel lren (fun c r => if decide (c ∈ on) then cell r c else VNaN)
                   (columns left) r
           ++ right_part r) in
      Ok (Frame (map lren (columns left) ++ map rren rcols)
                (flat_map from_left (rows left) ++ map from_right right_only))
    else Raise MergeError
  else Raise KeyError.

(** *** Helpers for the placeholder years *)

(** [list(range(lo, hi))]. *)
Definition range (lo hi : nat) : list Z := map Z.of_nat (seq lo (hi - lo)).

(** [list(range(1960, 1990))], the years both scripts add. *)
Definition years_1960_to_1989 : list Z := range 1960 1990.

Definition Year_cell (year : Z) : value := VNum (inject_Z year).

(** [series.iloc[0]]. *)
Definition iloc0 (vs : list value) : result value :=
  match vs with
  | [] => Raise IndexError
  | v :: _ => Ok v
  end.

(** [df[df[name_col] == country][code_col].iloc[0]]. *)
Definition first_code (df : frame) (name_col code_col : string) (country : value)
  : result value :=
  iloc0 (map (fun r => cell r code_col)
             (filter (fun r => value_cmp_eq (cell r name_col) country = true) (rows df))).

(** [{col: nan for col in labels}]. *)
Definition nan_row (labels : list string) : row :=
  list_to_map (map (fun c => (c, VNaN)) labels).

(** *** [DataFrame.sort_values(by=[...])]

    Ascending, lexicographic in the [by] columns, nulls last, stable.  A
    column that mixes numbers and text cannot be ordered. *)

Definition value_leb (a b : value) : bool :=
  match a, b with
  | VNum p, VNum q => Qle_bool p q
  | VStr s, VStr t => String.leb s t
  | _, (VNaN | VNone) => true
  | (VNaN | VNone), _ => false
  | VNum _, VStr _ => true
  | VStr _, VNum _ => false
  end.

Fixpoint lex_leb (by_cols : list string) (r1 r2 : row) : bool :=
  match by_cols with
  | [] => true
  | c :: t =>
      if value_leb (cell r1 c) (cell r2 c) then
        if value_leb (cell r2 c) (cell r1 c) then lex_leb t r1 r2 else true
      else false
  end.

Definition homogeneous (vs : list value) : bool :=
  forallb (fun v => negb (is_text_cell v)) vs
  || forallb (fun v => match v with VNum _ => false | _ => true end) vs.

Definition sort_values (by_cols : list string) (df : frame) : result frame :=
  if decide (Forall (fun c => c ∈ columns df) by_cols) then
    if forallb (fun c => homogeneous (column c df)) by_cols then
      Ok (Frame (columns df) (stable_sort (lex_leb by_cols) (rows df)))
    else Raise TypeError
  else Raise KeyError.

(** *** [sklearn.impute.KNNImputer]

    The neighbour search and the averaging are the parameter
    [knn_estimate]: from the number of neighbours, the matrix, a row index
    and a column index to the value put in that empty cell.  Around it,
    [fit_transform] refuses an empty matrix and text, drops every column
    that has no observed value at all, and copies every observed cell. *)

Section KNN.

Variable knn_estimate : nat -> list (list value) -> nat -> nat -> Q.

Definition cell_at (X_row : list value) (j : nat) : value := nth j X_row VNaN.

Definition has_observed (X : list (list value)) (j : nat) : bool :=
  existsb (fun X_row => notnull (cell_at X_row j)) X.

Definition KNNImputer_fit_transform (n_neighbors : nat) (n_features : nat)
    (X : list (list value)) : result (list (list Q)) :=
  match X with
  | [] => Raise ValueError
  | _ :: _ =>
      if existsb (existsb is_text_cell) X then Raise ValueError
      else
        let valid := filter (fun j => has_observed X j = true) (seq 0 n_features) in
        Ok (imap (fun i X_row =>
                    map (fun j => match cell_at X_row j with
                                  | VNum q => q
                                  | _ => knn_estimate n_neighbors X i j
                                  end) valid) X)
  end.

(** [M[..., -1]]: the last entry of every row of the matrix. *)
Definition last_column (M : list (list Q)) : result (list Q) :=
  mapM (fun M_row => match last M_row with
                     | Some q => Ok q
                     | None => Raise IndexError
                     end) M.

End KNN.

(** ** Polynomial time-trend imputation

    [numpy.polynomial.Polynomial.fit] is a least-squares solver: it is the
    parameter [lstsq], from a degree and the sample points to the fitted
    curve.  What numpy does around it is written out: an empty sample is
    refused ([as_series] raises [ValueError]), and the fitted curve at a NaN
    is NaN. *)

Section PolynomialImputation.

Variable lstsq : nat -> list (Q * Q) -> Q -> Q.

Definition Polynomial_fit (pts : list (Q * Q)) (deg : nat) : result (Q -> Q) :=
  match pts with
  | [] => Raise ValueError
  | _ :: _ => Ok (lstsq deg pts)
  end.

(** [poly(x)] on one cell of a column. *)
Definition poly_call (poly : Q -> Q) (v : value) : result value :=
  match v with
  | VNum x => Ok (VNum (poly x))
  | VNaN => Ok VNaN
  | VNone | VStr _ => Raise TypeError
  end.

(** The sample point of a known row: its year and its target value. *)
Definition sample (year_col target_col : string) (r : row) : result (Q * Q) :=
  x ← to_float (cell r year_col);
  y ← to_float (cell r target_col);
  Ok (x, y).

End PolynomialImputation.

(** ** main_pipeline.py *)

Module MainPipeline.

Section Script.

(** The Unicode character database of the interpreter. *)
Variable unicode : PyStr.unicode_data.

(** [dictionary.country_code_mapping] (the module is not part of the
    sources at hand) and [pycountry.countries.lookup(name).alpha_3], with
    [None] for a [LookupError]. *)
Variable country_code_mapping : gmap string string.
Variable pycountry_lookup : string -> option string.

Variable lstsq : nat -> list (Q * Q) -> Q -> Q.
Variable knn_estimate : nat -> list (list value) -> nat -> nat -> Q.

(** [get_country_code(country_name)]. *)
Definition get_country_code (country_name : string) : option string :=
  let country_name_normalized :=
    PyStr.title unicode (PyStr.strip unicode country_name) in
  match country_code_mapping !! country_name_normalized with
  | Some code => Some code
  | None => pycountry_lookup country_name_normalized
  end.

(** [years = list(range(1960, 1990))]. *)
Definition years : list Z := years_1960_to_1989.

(** [add_missing_years(df)]: one dictionary per country and year, and the
    frame made of these dictionaries alone. *)
Definition add_missing_years (df : frame) : result frame :=
  if decide ("Country" ∈ columns df) then
    let others :=
      filter (fun c => c ∉ ["Country"; "Year"; "Country_Code"]) (columns df) in
    new_rows ← mapM (fun cy : value * Z =>
                       code ← (if decide ("Country_Code" ∈ columns df)
                               then first_code df "Country" "Country_Code" cy.1
                               else Raise KeyError);
                       Ok (<["Country_Code" := code]>
                             (<["Year" := Year_cell cy.2]>
                                (<["Country" := cy.1]> (nan_row others)))))
                    (flat_map (fun country => map (pair country) years)
                              (unique (column "Country" df)));
    Ok (Frame (match new_rows with
               | [] => []
               | _ :: _ => others ++ ["Country"; "Year"; "Country_Code"]
               end) new_rows)
  else Raise KeyError.

(** [impute_with_polynomial(df, target_col, degree=2)]:
<<
    known_data = df[df[target_col].notnull()]
    if known_data.empty:
        return df  # Skip if no data available
    poly = Polynomial.fit(known_data["Year"], known_data[target_col], degree)
    df[target_col] = poly(df["Year"])
    return df
>> *)
Definition impute_with_polynomial (df : frame) (target_col : string) (degree : nat)
  : result frame :=
  if decide (target_col ∈ columns df) then
    let known_data := known_rows target_col df in
    match known_data with
    | [] => Ok df
    | _ :: _ =>
        if decide ("Year" ∈ columns df) then
          pts ← mapM (sample "Year" target_col) known_data;
          poly ← Polynomial_fit lstsq pts degree;
          fitted ← mapM (poly_call poly) (column "Year" df);
          Ok (set_column target_col fitted df)
        else Raise KeyError
    end
  else Raise KeyError.

(** [impute_with_knn(df, target_col, n_neighbors=5)]:
<<
    feature_cols = df.columns.difference(
        ['Country', 'Country_Code', 'Age_Group', 'Gender', target_col])
    impute_cols = feature_cols.append(pd.Index([target_col]))
    imputer = KNNImputer(n_neighbors=n_neighbors)
    df[target_col] = imputer.fit_transform(df[impute_cols])[..., -1]
    return df
>> *)
Definition impute_with_knn (df : frame) (target_col : string) (n_neighbors : nat)
  : result frame :=
  let feature_cols :=
    Index_difference (columns df)
      ["Country"; "Country_Code"; "Age_Group"; "Gender"; target_col] in
  let impute_cols := feature_cols ++ [target_col] in
  if decide (target_col ∈ columns df) then
    let X := map (fun r => map (cell r) impute_cols) (rows df) in
    M ← KNNImputer_fit_transform knn_estimate n_neighbors (length impute_cols) X;
    filled ← last_column M;
    Ok (set_column target_col (map VNum filled) df)
  else Raise KeyError.

(** [series.map({0: 'Male', 1: 'Female'})]. *)
Definition map_gender (v : value) : value :=
  match v with
  | VNum q => if Qeq_bool q 0 then VStr "Male"
              else if Qeq_bool q 1 then VStr "Female" else VNaN
  | _ => VNaN
  end.

Definition relabel_gender (df : frame) : result frame :=
  if decide ("Gender" ∈ columns df)
  then Ok (set_column "Gender" (map map_gender (column "Gender" df)) df)
  else Raise KeyError.

(** The four frames as the script reads and relabels them. *)
Record sources : Type := Sources {
  weight_health_exp_df : frame;
  diabetes_alcohol_df : frame;
  gdp_obesity_physical_df : frame;
  heart_disease_df : frame
}.

(** "Standardizing column names", and the two [Gender] maps. *)
Definition standardize (raw : sources) : result sources :=
  let w := rename [("Country_code", "Country_Code")] (weight_health_exp_df raw) in
  let d := rename [("Code", "Country_Code"); ("Location", "Country");
                   ("Prevalence of diabetes (18+ years)", "Diabetes_Prevalence_Rate")]
                  (diabetes_alcohol_df raw) in
  let g := rename [("Code", "Country_Code")] (gdp_obesity_physical_df raw) in
  let h := rename [("Sex", "Gender"); ("Country Code", "Country_Code");
                   ("age_name", "Age_Group")] (heart_disease_df raw) in
  d' ← relabel_gender d;
  h' ← relabel_gender h;
  Ok (Sources w d' g h').

(** "Merge datasets". *)
Definition merged_df (cleaned : sources) : result frame :=
  m1 ← merge_outer (heart_disease_df cleaned) (diabetes_alcohol_df cleaned)
                   ["Country_Code"; "Country"; "Year"; "Gender"];
  m2 ← merge_outer m1 (gdp_obesity_physical_df cleaned)
                   ["Country_Code"; "Country"; "Year"];
  merge_outer m2 (weight_health_exp_df cleaned) ["Country_Code"; "Country"; "Year"].

Definition columns_to_impute : list string :=
  ["Alcohol_Value"; "IncidenceRate"; "PrevalenceRate"; "MortalityRate";
   "Diabetes_Prevalence_Rate"; "Activity_Prevalence_Rate"; "Obesity_Prevalence_Rate";
   "GDP"; "Health_Expenditure (% of GDP)"; "Life_Expectancy"].

(** "Apply KNN imputation": the loop over [columns_to_impute]. *)
Fixpoint impute_columns (cols : list string) (df : frame) : result frame :=
  match cols with
  | [] => Ok df
  | col :: rest => df' ← impute_with_knn df col 5; impute_columns rest df'
  end.

(** One row of [merged_df.loc[merged_df['GDP'] < 0, 'GDP'] = np.nan]. *)
Definition negative_to_nan (col : string) (r : row) : result row :=
  match cell r col with
  | VNum q => Ok (if Qltb q 0 then <[col := VNaN]> r else r)
  | VNaN | VNone => Ok r
  | VStr _ => Raise TypeError
  end.

(** "Set negative GDP values to NaN". *)
Definition clamp_gdp (df : frame) : result frame :=
  if decide ("GDP" ∈ columns df) then
    rs ← mapM (negative_to_nan "GDP") (rows df);
    Ok (Frame (columns df) rs)
  else Raise KeyError.

(** "Drop unnecessary columns". *)
Definition drop_bmi (df : frame) : frame :=
  if decide ("BMI" ∈ columns df)
  then Frame (filter (fun c => c ≠ "BMI") (columns df)) (map (delete "BMI") (rows df))
  else df.

(** The script from the loaded frames to the frame it saves, with the
    frame that enters the imputation loop kept beside it. *)
Definition pipeline (raw : sources) : result (frame * frame) :=
  cleaned ← standardize raw;
  merged ← merged_df cleaned;
  imputed ← impute_columns columns_to_impute merged;
  clamped ← clamp_gdp imputed;
  Ok (merged, drop_bmi clamped).

End Script.

End MainPipeline.

(** ** process_diabetes_alcohol.py *)

Module ProcessDiabetesAlcohol.

(** The dictionary of one placeholder row:
<<
    new_row = {'Location': country, 'Year': year, 'Code': ...}
    for col in df.columns:
        if col not in ['Location', 'Year', 'Code']:
            new_row[col] = float('nan')
>> *)
Definition new_row (labels : list string) (country : value) (year : Z) (code : value)
  : row :=
  foldl (fun r col => if decide (col ∉ ["Location"; "Year"; "Code"])
                      then <[col := VNaN]> r else r)
        (<["Code" := code]> (<["Year" := Year_cell year]> (<["Location" := country]> ∅)))
        labels.

(** The source's name for [list(range(1960, 1990))]. *)
Definition years_1980_to_1989 : list Z := years_1960_to_1989.

Definition new_rows_for (df : frame) : result (list row) :=
  mapM (fun cy : value * Z =>
          code ← (if decide ("Code" ∈ columns df)
                  then first_code df "Location" "Code" cy.1
                  else Raise KeyError);
          Ok (new_row (columns df) cy.1 cy.2 code))
       (flat_map (fun country => map (pair country) years_1980_to_1989)
                 (unique (column "Location" df))).

(** [_adding_missing_years(df)]: the placeholder rows are appended to the
    frame, and the whole is sorted by location and year. *)
Definition _adding_missing_years (df : frame) : result frame :=
  if decide ("Location" ∈ columns df) then
    new_rows ← new_rows_for df;
    let new_data :=
      Frame (match new_rows with
             | [] => []
             | _ :: _ => ["Location"; "Year"; "Code"]
                         ++ filter (fun c => c ∉ ["Location"; "Year"; "Code"]) (columns df)
             end) new_rows in
    sort_values ["Location"; "Year"] (concat df new_data)
  else Raise KeyError.

(** [series.map({"Men": 0, "Women": 1})]. *)
Definition map_sex (v : value) : value :=
  match v with
  | VStr s => if String.eqb s "Men" then VNum 0
              else if String.eqb s "Women" then VNum 1 else VNaN
  | _ => VNaN
  end.

Definition columns_to_drop : list string :=
  ["Age";
   "Prevalence of diabetes (18+ years) lower 95% uncertainty interval";
   "Prevalence of diabetes (18+ years) upper 95% uncertainty interval";
   "Proportion of people with diabetes who were treated (30+ years)";
   "Proportion of people with diabetes who were treated (30+ years) lower 95% uncertainty interval";
   "Proportion of people with diabetes who were treated (30+ years) upper 95% uncertainty interval"].

(** [_diabetes_column_processing(df)]. *)
Definition _diabetes_column_processing (df : frame) : result frame :=
  let df := rename [("Country/Region/World", "Location"); ("ISO", "Code");
                    ("Sex", "Gender")] df in
  if decide ("Gender" ∈ columns df) then
    drop_columns columns_to_drop
                 (set_column "Gender" (map map_sex (column "Gender" df)) df)
  else Raise KeyError.

Section WrongCountries.

(** [dictionary.wrong_countries]; the module is not among the sources. *)
Variable wrong_countries : list string.

(** [series.isin(wrong_countries)] on one cell. *)
Definition is_wrong_country (v : value) : bool :=
  match v with
  | VStr s => bool_decide (s ∈ wrong_countries)
  | _ => false
  end.

(** [_remove_wrong_countries(df, column_name='Location')]. *)
Definition _remove_wrong_countries (df : frame) (column_name : string) : result frame :=
  if decide (column_name ∈ columns df) then
    Ok (Frame (columns df)
              (filter (fun r => is_wrong_country (cell r column_name) = false) (rows df)))
  else Raise KeyError.

End WrongCountries.

Section Polynomial.

Variable lstsq : nat -> list (Q * Q) -> Q -> Q.

(** [_impute_diabetes_data(df)]:
<<
    known_data = df[df["Prevalence of diabetes (18+ years)"].notnull()]
    known_years = known_data["Year"]
    known_prevalence = known_data["Prevalence of diabetes (18+ years)"]
    poly = Polynomial.fit(known_years, known_prevalence, deg=2)
    df["Prevalence of diabetes (18+ years)"] = poly(df["Year"])
    return df
>> *)
Definition _impute_diabetes_data (df : frame) : result frame :=
  let target_col := "Prevalence of diabetes (18+ years)" in
  if decide (target_col ∈ columns df) then
    if decide ("Year" ∈ columns df) then
      pts ← mapM (sample "Year" target_col) (known_rows target_col df);
      poly ← Polynomial_fit lstsq pts 2;
      fitted ← mapM (poly_call poly) (column "Year" df);
      Ok (set_column target_col fitted df)
    else Raise KeyError
  else Raise KeyError.

(** One row of [df.loc[df[target_col].isnull(), target_col] = predicted_values]. *)
Definition fill_missing (poly : Q -> Q) (year_col target_col : string) (r : row)
  : result row :=
  if isnull (cell r target_col) then
    v ← poly_call poly (cell r year_col);
    Ok (<[target_col := v]> r)
  else Ok r.

(** [impute_with_polynomial(df, year_col, target_col, degree=2)]:
<<
    known_data = df[df[target_col].notnull()]
    ...
    missing_data = df[df[target_col].isnull()]
    missing_years = missing_data[year_col]
    # Fit a polynomial to the known data
    poly = Polynomial.fit(known_years, known_values, deg=degree)
    # Predict missing values
    predicted_values = poly(missing_years)
    # Fill in the missing values
    df.loc[df[target_col].isnull(), target_col] = predicted_values
    return df
>> *)
Definition impute_with_polynomial (df : frame) (year_col target_col : string)
    (degree : nat) : result frame :=
  if decide (target_col ∈ columns df) then
    if decide (year_col ∈ columns df) then
      pts ← mapM (sample year_col target_col) (known_rows target_col df);
      poly ← Polynomial_fit lstsq pts degree;
      rs ← mapM (fill_missing poly year_col target_col) (rows df);
      Ok (Frame (columns df) rs)
    else Raise KeyError
  else Raise KeyError.

End Polynomial.

End ProcessDiabetesAlcohol.

(** ** process_disease_metrics.py *)

Module ProcessDiseaseMetrics.

Section Script.

(** The Unicode character database of the interpreter. *)
Variable unicode : PyStr.unicode_data.

(** [dictionary.country_code_dict] and [pycountry.countries.lookup], as in
    [MainPipeline]. *)
Variable country_code_dict : gmap string string.
Variable pycountry_lookup : string -> option string.

(** [PolynomialFeatures(degree)] followed by [LinearRegression]: from the
    degree and the training rows to the predictor. *)
Variable regression : nat -> list (list Q * Q) -> list Q -> Q.

Variable str_of_float : Q -> string.

(** [sklearn]'s input check on one cell. *)
Definition check_cell (v : value) : result Q :=
  match v with
  | VNum q => Ok q
  | _ => Raise ValueError
  end.

(** [LabelEncoder().fit_transform(df[col].astype(str))]: the position of
    each text among the sorted distinct texts. *)
Definition label_encode (vs : list value) : list value :=
  let texts := map (astype_str str_of_float) vs in
  let classes := stable_sort String.leb (remove_dups texts) in
  map (fun t => match list_find (fun c => c = t) classes with
                | Some (i, _) => VNum (inject_Z (Z.of_nat i))
                | None => VNaN
                end) texts.

(** [encode_categorical_columns(df, columns)]. *)
Fixpoint encode_categorical_columns (df : frame) (cols : list string) : result frame :=
  match cols with
  | [] => Ok df
  | col :: rest =>
      if decide (col ∈ columns df)
      then encode_categorical_columns
             (set_column col (label_encode (column col df)) df) rest
      else Raise KeyError
  end.

Definition predictors_of (predictor_columns : list string) (r : row) : result (list Q) :=
  mapM (fun c => check_cell (cell r c)) predictor_columns.

(** One row of
    [df.loc[missing_mask, target_column] = np.maximum(model.predict(X_missing_poly), 0)]. *)
Definition predict_missing (model : list Q -> Q) (target_column : string)
    (predictor_columns : list string) (r : row) : result row :=
  if isnull (cell r target_column) then
    xs ← predictors_of predictor_columns r;
    Ok (<[target_column := VNum (np_maximum (model xs) 0)]> r)
  else Ok r.

(** [_impute_with_polynomial_fit(df, target_column, predictor_columns, degree=2)]. *)
Definition _impute_with_polynomial_fit (df : frame) (target_column : string)
    (predictor_columns : list string) (degree : nat) : result frame :=
  if decide (target_column ∈ columns df) then
    if forallb notnull (column target_column df) then Ok df
    else if decide (Forall (fun c => c ∈ columns df) predictor_columns) then
      let df_valid :=
        filter (fun r => forallb (fun c => notnull (cell r c)) predictor_columns = true)
               (rows df) in
      match df_valid with
      | [] => Ok df
      | _ :: _ =>
          let train := filter (fun r => notnull (cell r target_column) = true) df_valid in
          training ← mapM (fun r => xs ← predictors_of predictor_columns r;
                                    y ← check_cell (cell r target_column);
                                    Ok (xs, y)) train;
          match training with
          | [] => Raise ValueError
          | _ :: _ =>
              rs ← mapM (predict_missing (regression degree training)
                                         target_column predictor_columns) (rows df);
              Ok (Frame (columns df) rs)
          end
      end
    else Raise ValueError
  else Raise ValueError.

(** [get_country_code(country_name)]. *)
Definition get_country_code (country_name : string) : option string :=
  let country_name_normalized :=
    PyStr.title unicode (PyStr.strip unicode country_name) in
  match country_code_dict !! country_name_normalized with
  | Some code => Some code
  | None => pycountry_lookup country_name_normalized
  end.

(** The value that [apply(get_country_code)] stores. *)
Definition code_cell (country : value) : value :=
  match get_country_code (astype_str str_of_float country) with
  | Some code => VStr code
  | None => VNone
  end.

(** "Add country codes":
<<
    df_combined['Country'] = df_combined['Country'].astype(str).str.strip()
    df_combined['Country_Code'] = df_combined['Country'].apply(get_country_code)
>> *)
Definition add_country_codes (df_combined : frame) : result frame :=
  if decide ("Country" ∈ columns df_combined) then
    let stripped :=
      set_column "Country"
        (map (fun v => VStr (PyStr.strip unicode (astype_str str_of_float v)))
             (column "Country" df_combined)) df_combined in
    Ok (set_column "Country_Code" (map code_cell (column "Country" stripped)) stripped)
  else Raise KeyError.

(** The renaming and column selection applied to each of the three files. *)
Definition processed (df : frame) (rate_col : string) : result frame :=
  select ["Country"; "Gender"; "Year"; "Age_Group"; rate_col]
         (rename [("location_name", "Country"); ("sex_name", "Gender");
                  ("age_name", "Age_Group"); ("year", "Year"); ("val", rate_col)] df).

Fixpoint impute_rates (rates : list string) (df : frame) : result frame :=
  match rates with
  | [] => Ok df
  | rate :: rest =>
      df' ← _impute_with_polynomial_fit df rate ["Year"] 2; impute_rates rest df'
  end.

(** [process_disease_metrics(incidence_data, mortality_data, prevalence_data)]. *)
Definition process_disease_metrics (incidence_data mortality_data prevalence_data : frame)
  : result frame :=
  p0 ← processed incidence_data "IncidenceRate";
  p1 ← processed mortality_data "MortalityRate";
  p2 ← processed prevalence_data "PrevalenceRate";
  c1 ← merge_outer p0 p1 ["Country"; "Year"; "Gender"; "Age_Group"];
  c2 ← merge_outer c1 p2 ["Country"; "Year"; "Gender"; "Age_Group"];
  encoded ← encode_categorical_columns c2 ["Gender"; "Age_Group"];
  imputed ← impute_rates ["IncidenceRate"; "PrevalenceRate"; "MortalityRate"] encoded;
  add_country_codes imputed.

End Script.

End ProcessDiseaseMetrics.

(** ** app.py *)

Module App.

Definition continent_map : gmap string string :=
  list_to_map [("NA", "North America"); ("SA", "South America"); ("EU", "Europe");
               ("AS", "Asia"); ("OC", "Oceania"); ("AF", "Africa")].

Definition manual_region_mapping : gmap string string :=
  list_to_map [("XKX", "Europe"); ("OWID_KOS", "Europe");
               ("SXM", "North America"); ("TLS", "Asia")].

(** The values the docstring of [get_region] lists. *)
Definition region_names : list string :=
  ["North America"; "South America"; "Europe"; "Asia"; "Oceania"; "Africa";
   "Unknown Region"].

Section Libraries.

(** [pycountry.countries.get(alpha_3=code)], reduced to the [alpha_2] of the
    country found, and the table behind
    [pycountry_convert.country_alpha2_to_continent_code], which raises
    [KeyError] for a code it does not list. *)
Variable pycountry_alpha_2 : string -> option string.
Variable COUNTRY_ALPHA2_TO_CONTINENT_CODE : gmap string string.

(** [alpha3_to_alpha2(alpha3_code)]: [None] when the country is not found. *)
Definition alpha3_to_alpha2 (alpha3_code : string) : option string :=
  pycountry_alpha_2 alpha3_code.

Definition country_alpha2_to_continent_code (cn_a2_code : option string)
  : result string :=
  match cn_a2_code with
  | Some c => match COUNTRY_ALPHA2_TO_CONTINENT_CODE !! c with
              | Some continent => Ok continent
              | None => Raise KeyError
              end
  | None => Raise KeyError
  end.

(** [get_region(country_code)]:
<<
    if country_code in manual_region_mapping:
        return manual_region_mapping[country_code]
    if len(country_code) == 3:
        country_code = alpha3_to_alpha2(country_code)
    return continent_map.get(
        pc.country_alpha2_to_continent_code(country_code), 'Unknown Region')
>> *)
Definition get_region (country_code : string) : result string :=
  match manual_region_mapping !! country_code with
  | Some region => Ok region
  | None =>
      let country_code' :=
        if Nat.eqb (String.length country_code) 3
        then alpha3_to_alpha2 country_code
        else Some country_code in
      continent_code ← country_alpha2_to_continent_code country_code';
      Ok (default "Unknown Region" (continent_map !! continent_code))
  end.

(** [get_region] applied to a cell of the [Country_Code] column: a cell
    that is not a string is in no dictionary and has no [len]. *)
Definition get_region_of_cell (v : value) : result string :=
  match v with
  | VStr country_code => get_region country_code
  | VNaN | VNone | VNum _ => Raise TypeError
  end.

(** [df.loc[:, 'Region'] = df['Country_Code'].apply(get_region)]. *)
Definition add_region (df : frame) : result frame :=
  if decide ("Country_Code" ∈ columns df) then
    regions ← mapM get_region_of_cell (column "Country_Code" df);
    Ok (set_column "Region" (map VStr regions) df)
  else Raise KeyError.

End Libraries.

(** The styles of the sidebar, of the page content and of the toggle
    button, shown and hidden. *)
Definition SIDEBAR_STYLE : row :=
  list_to_map [("backgroundColor", VStr "#17202A"); ("color", VStr "white");
               ("height", VStr "100vh"); ("padding", VStr "20px");
               ("width", VStr "280px"); ("position", VStr "fixed");
               ("top", VNum 0); ("left", VNum 0);
               ("transition", VStr "all 0.4s ease-in-out");
               ("overflow-x", VStr "hidden");
               ("boxShadow", VStr "2px 0px 10px rgba(0, 0, 0, 0.2)");
               ("zIndex", VNum 2)].

Definition SIDEBAR_HIDDEN : row := <["left" := VStr "-280px"]> SIDEBAR_STYLE.

Definition CONTENT_STYLE1 : row :=
  list_to_map [("marginLeft", VStr "330px"); ("marginRight", VStr "10px");
               ("padding", VStr "30px");
               ("transition", VStr "margin-left 0.4s ease-in-out")].

Definition CONTENT_STYLE2 : row :=
  list_to_map [("marginLeft", VStr "50px"); ("marginRight", VStr "10px");
               ("padding", VStr "30px");
               ("transition", VStr "margin-left 0.4s ease-in-out")].

Definition TOGGLE_STYLE : row :=
  list_to_map [("backgroundColor", VStr "#17202A"); ("position", VStr "fixed");
               ("top", VStr "15px"); ("left", VStr "300px"); ("color", VStr "white");
               ("border", VStr "none"); ("padding", VStr "10px 15px");
               ("cursor", VStr "pointer"); ("borderRadius", VStr "5px");
               ("transition", VStr "left 0.4s ease-in-out")].

Definition TOGGLE_STYLE_HIDDEN : row := <["left" := VStr "20px"]> TOGGLE_STYLE.

(** [toggle_sidebar(n)], with [None] for a button that was never clicked:
<<
    if n and n % 2 == 1:
        sidebar_style = SIDEBAR_HIDDEN
        ...
    return sidebar_style, content_style, toggle_style
>> *)
Definition toggle_sidebar (n : option Z) : row * row * row :=
  if match n with
     | Some k => negb (Z.eqb k 0) && Z.eqb (k mod 2) 1
     | None => false
     end
  then (SIDEBAR_HIDDEN, CONTENT_STYLE2, TOGGLE_STYLE_HIDDEN)
  else (SIDEBAR_STYLE, CONTENT_STYLE1, TOGGLE_STYLE).

End App.

(** ** process_activity_obesity_gdp.py *)

Module ProcessActivityObesityGdp.

(** [df.drop_duplicates(keep='first')]: a row is dropped when an earlier
    row has the same cell in every column; nulls are equal to each other. *)
Fixpoint drop_duplicates_rows (labels : list string) (rs : list row) : list row :=
  match rs with
  | [] => []
  | r :: t =>
      r :: filter (fun r' => keys_match labels r r' = false) (drop_duplicates_rows labels t)
  end.

Definition drop_duplicates (df : frame) : frame :=
  Frame (columns df) (drop_duplicates_rows (columns df) (rows df)).

Section Conversions.

(** [Series.astype(int)] and [Series.astype(float)] on one cell: the
    parsing of a text and the rounding of a float are numpy's. *)
Variable astype_int : value -> result value.
Variable astype_float : value -> result value.

(** [clean_and_transform(df, year_column, rate_column)]. *)
Definition clean_and_transform (df : frame) (year_column rate_column : string)
  : result frame :=
  if decide (year_column ∈ columns df) then
    ys ← mapM astype_int (column year_column df);
    let df := set_column year_column ys df in
    if decide (rate_column ∈ columns df) then
      vs ← mapM astype_float (column rate_column df);
      Ok (drop_duplicates (set_column rate_column vs df))
    else Raise KeyError
  else Raise KeyError.

End Conversions.

Section Imputation.

Variable knn_estimate : nat -> list (list value) -> nat -> nat -> Q.

Definition columns_to_impute : list string :=
  ["Activity_Prevalence_Rate"; "Obesity_Prevalence_Rate"; "GDP"].

(** The renames, the two merges and the [World] filter:
<<
    merged_df = pd.merge(df1, df2, on=['Country', 'Code', 'Year'], how='outer')
    merged_df = pd.merge(merged_df, df3, on=['Country', 'Code', 'Year'], how='outer')
    merged_df = merged_df[merged_df['Country'] != 'World']
>> *)
Definition merged_without_world (df1 df2 df3 : frame) : result frame :=
  let df1 := rename [("Prevalence_Rate", "Activity_Prevalence_Rate")] df1 in
  let df2 := rename [("Prevalence_Rate", "Obesity_Prevalence_Rate")] df2 in
  m1 ← merge_outer df1 df2 ["Country"; "Code"; "Year"];
  m2 ← merge_outer m1 df3 ["Country"; "Code"; "Year"];
  Ok (Frame (columns m2)
            (filter (fun r => value_cmp_eq (cell r "Country") (VStr "World") = false)
                    (rows m2))).

(** One row of [merged_df[columns_to_impute] = array]. *)
Definition assign_row (labels : list string) (r : row) (M_row : list Q) : row :=
  foldl (fun acc cv => <[cv.1 := VNum cv.2]> acc) r (zip labels M_row).

(** [merged_df[columns_to_impute] = knn_imputer.fit_transform(merged_df[columns_to_impute])]:
    the imputer drops a column without any observed value, and an array
    with fewer columns than labels cannot be assigned. *)
Definition impute_together (labels : list string) (df : frame) : result frame :=
  if decide (Forall (fun c => c ∈ columns df) labels) then
    let X := map (fun r => map (cell r) labels) (rows df) in
    M ← KNNImputer_fit_transform knn_estimate 5 (length labels) X;
    if forallb (fun M_row => Nat.eqb (length M_row) (length labels)) M
    then Ok (Frame (columns df) (zip_with (assign_row labels) (rows df) M))
    else Raise ValueError
  else Raise KeyError.

(** [_merge_and_impute_activity_obesity(df1, df2, df3)]. *)
Definition _merge_and_impute_activity_obesity (df1 df2 df3 : frame) : result frame :=
  merged_df ← merged_without_world df1 df2 df3;
  impute_together columns_to_impute merged_df.

End Imputation.

End ProcessActivityObesityGdp.

(** ** process_overweight_health.py *)

Module ProcessOverweightHealth.

(** [series.isin(numbers)] and [series.isin(texts)] on one cell. *)
Definition isin_numbers (numbers : list Q) (v : value) : bool :=
  match v with
  | VNum q => existsb (Qeq_bool q) numbers
  | _ => false
  end.

Definition isin_texts (texts : list string) (v : value) : bool :=
  match v with
  | VStr s => bool_decide (s ∈ texts)
  | _ => false
  end.

(** [df[mask]]: the rows on which the mask holds; the label the mask reads
    has to be a column. *)
Definition where_cell (label : string) (mask : value -> bool) (df : frame) : result frame :=
  if decide (label ∈ columns df)
  then Ok (Frame (columns df) (filter (fun r => mask (cell r label) = true) (rows df)))
  else Raise KeyError.

(** [df.groupby(key)[col].ffill()] on the list of (key, value) pairs of the
    rows: a null takes the last value seen before it under the same key;
    [last] holds these values, the most recent first.  A row with a null key
    is in no group. *)
Definition last_seen (last : list (value * value)) (k : value) : option value :=
  match list_find (fun kv => value_cmp_eq kv.1 k = true) last with
  | Some (_, kv) => Some kv.2
  | None => None
  end.

Fixpoint ffill_pairs (last : list (value * value)) (kvs : list (value * value))
  : list value :=
  match kvs with
  | [] => []
  | (k, v) :: t =>
      if isnull k then VNaN :: ffill_pairs last t
      else if notnull v then v :: ffill_pairs ((k, v) :: last) t
      else default v (last_seen last k) :: ffill_pairs last t
  end.

Definition pairs_of (key col : string) (df : frame) : list (value * value) :=
  map (fun r => (cell r key, cell r col)) (rows df).

Definition groupby_ffill (key col : string) (df : frame) : list value :=
  ffill_pairs [] (pairs_of key col df).

(** [df.groupby(key)[col].bfill()]: the same from the last row upwards. *)
Definition groupby_bfill (key col : string) (df : frame) : list value :=
  reverse (ffill_pairs [] (reverse (pairs_of key col df))).

(** [df[col] = df.groupby(key)[col].ffill()] followed by the same with
    [bfill]. *)
Definition fill_within (key col : string) (df : frame) : result frame :=
  if decide (key ∈ columns df /\ col ∈ columns df) then
    let df := set_column col (groupby_ffill key col df) df in
    Ok (set_column col (groupby_bfill key col df) df)
  else Raise KeyError.

(** [df.iloc[:, :n]]. *)
Definition iloc_columns (n : nat) (df : frame) : frame :=
  let kept := take n (columns df) in
  Frame kept (map (fun r => list_to_map (map (fun c => (c, cell r c)) kept)) (rows df)).

Definition years_to_drop : list Q := [1999%Q; 2022%Q; 2023%Q].

Definition countries_to_remove : list string :=
  ["American Samoa"; "Aruba"; "Bermuda"; "British Virgin Islands";
   "Cayman Islands"; "Channel Islands"; "Curacao"; "Faroe Islands";
   "French Polynesia"; "Gibraltar"; "Greenland"; "Guam";
   "Hong Kong SAR, China"; "Isle of Man"; "Korea, Dem. People's Rep.";
   "Kosovo"; "Liechtenstein"; "Macao SAR, China"; "New Caledonia";
   "Northern Mariana Islands"; "Not classified"; "Puerto Rico";
   "Sint Maarten (Dutch part)"; "Somalia"; "St. Martin (French part)";
   "Turks and Caicos Islands"; "Virgin Islands (U.S.)"; "West Bank and Gaza"].

Section WorldHealth.

(** [{country.alpha_3 for country in pycountry.countries}]. *)
Variable valid_country_codes : list string.

(** The three filters and the four fills of [_clean_world_health_data]. *)
Definition filtered_world_health (df : frame) : result frame :=
  df ← where_cell "year" (fun v => negb (isin_numbers years_to_drop v)) df;
  df ← where_cell "country" (fun v => negb (isin_texts countries_to_remove v)) df;
  where_cell "country_code" (isin_texts valid_country_codes) df.

(** [_clean_world_health_data(df)]. *)
Definition _clean_world_health_data (df : frame) : result frame :=
  df ← filtered_world_health df;
  df ← fill_within "country_code" "health_exp" df;
  df ← fill_within "country_code" "life_expect" df;
  Ok (rename [("country_code", "Country_code"); ("country", "Country"); ("year", "Year");
              ("health_exp", "Health_Expenditure"); ("life_expect", "Life_Expectancy")]
             (iloc_columns 5 df)).

End WorldHealth.

(** [pd.merge(left, right, on=..., how='left')]: as the outer merge without
    the right rows that have no partner; the rows come in the order of the
    left frame. *)
Definition merge_left (left right : frame) (on : list string) : result frame :=
  if decide (Forall (fun k => k ∈ columns left /\ k ∈ columns right) on) then
    let rcols := filter (fun c => c ∉ on) (columns right) in
    let overlap := filter (fun c => c ∈ rcols) (columns left) in
    let lren := suffixed overlap "_x" in
    let rren := suffixed overlap "_y" in
    if decide (NoDup (map lren (columns left)) /\ NoDup (map rren rcols)) then
      let right_part (r : row) := relabel rren (fun c r => cell r c) rcols r in
      let right_nan := map (fun c => (rren c, VNaN)) rcols in
      let from_left (l : row) : list row :=
        let left_part := relabel lren (fun c l => cell l c) (columns left) l in
        match filter (fun r => keys_match on l r = true) (rows right) with
        | [] => [list_to_map (left_part ++ right_nan)]
        | ms => map (fun r => list_to_map (left_part ++ right_part r)) ms
        end in
      Ok (Frame (map lren (columns left) ++ map rren rcols)
                (flat_map from_left (rows left)))
    else Raise MergeError
  else Raise KeyError.

(** One pass of the loop over [life_expectancy_df.iterrows()] on one row
    of the merged frame:
<<
    mask = ((merged_df['Country_code'] == row['Country_code']) &
            (merged_df['Year'] == row['Year']) &
            (merged_df['Life_Expectancy'].isna()))
    merged_df.loc[mask, 'Life_Expectancy'] = row['Imputed_Life_Expectancy']
>> *)
Definition supplement (supplemental r : row) : row :=
  if value_cmp_eq (cell r "Country_code") (cell supplemental "Country_code")
     && value_cmp_eq (cell r "Year") (cell supplemental "Year")
     && isnull (cell r "Life_Expectancy")
  then <["Life_Expectancy" := cell supplemental "Imputed_Life_Expectancy"]> r
  else r.

(** The whole loop; the labels are only read when there is a row. *)
Definition fill_from_supplement (life_expectancy_df merged_df : frame) : result frame :=
  match rows life_expectancy_df with
  | [] => Ok merged_df
  | _ :: _ =>
      if decide ("Country_code" ∈ columns life_expectancy_df
                 /\ "Life_Expectancy" ∈ columns merged_df
                 /\ "Imputed_Life_Expectancy" ∈ columns life_expectancy_df)
      then Ok (Frame (columns merged_df)
                     (map (fun r => foldl (fun r supplemental => supplement supplemental r)
                                          r (rows life_expectancy_df))
                          (rows merged_df)))
      else Raise KeyError
  end.

(** [Series.interpolate(method='linear')]: the positions count as equally
    spaced; a run of nulls between two numbers is filled along the straight
    line between them, a run after the last number with that number, and a
    run before the first number is left.  [next_known] is the number of
    nulls before the next number, and that number. *)
Fixpoint next_known (vs : list value) : option (nat * Q) :=
  match vs with
  | [] => None
  | VNum q :: _ => Some (0%nat, q)
  | _ :: t => match next_known t with
              | Some (n, q) => Some (S n, q)
              | None => None
              end
  end.

Fixpoint interpolate_from (prev : option Q) (vs : list value) : list value :=
  match vs with
  | [] => []
  | VNum q :: t => VNum q :: interpolate_from (Some q) t
  | v :: t =>
      match prev with
      | None => v :: interpolate_from None t
      | Some a =>
          let x := match next_known t with
                   | Some (n, b) => (a + (b - a) / inject_Z (Z.of_nat (n + 2)%nat))%Q
                   | None => a
                   end in
          VNum x :: interpolate_from (Some x) t
      end
  end.

(** A column of objects, with a text or a [None] in it, is refused. *)
Definition interpolate (vs : list value) : result (list value) :=
  if existsb (fun v => match v with VStr _ | VNone => true | _ => false end) vs
  then Raise TypeError
  else Ok (interpolate_from None vs).

(** [df[col] = df[col].interpolate(method='linear')]. *)
Definition interpolate_column (col : string) (df : frame) : result frame :=
  if decide (col ∈ columns df) then
    vs ← interpolate (column col df);
    Ok (set_column col vs df)
  else Raise KeyError.

Section MergeAndClean.

(** [Series.astype(int)] on one cell, as in process_activity_obesity_gdp.py. *)
Variable astype_int : value -> result value.

Definition year_as_int (df : frame) : result frame :=
  if decide ("Year" ∈ columns df) then
    ys ← mapM astype_int (column "Year" df);
    Ok (set_column "Year" ys df)
  else Raise KeyError.

(** The frame on which the two interpolations run: the merge, and the
    life expectancies taken from the supplemental data. *)
Definition supplemented (overweight_df world_df life_expectancy_df : frame)
  : result frame :=
  overweight_df ← year_as_int overweight_df;
  merged_df ← merge_left overweight_df world_df ["Country_code"; "Country"; "Year"];
  merged_df ← year_as_int merged_df;
  if decide ("Year" ∈ columns life_expectancy_df)
  then fill_from_supplement life_expectancy_df merged_df
  else Raise KeyError.

(** [_merge_and_clean_datasets(overweight_df, world_df, life_expectancy_df)]. *)
Definition _merge_and_clean_datasets (overweight_df world_df life_expectancy_df : frame)
  : result frame :=
  merged_df ← supplemented overweight_df world_df life_expectancy_df;
  merged_df ← interpolate_column "Life_Expectancy" merged_df;
  interpolate_column "Health_Expenditure" merged_df.

End MergeAndClean.

End ProcessOverweightHealth.

(* ================================================================== *)
(** * Properties *)
(* ================================================================== *)

(** ** Facts about the string methods *)

Module PyStrFacts.

Import AsciiText.





(** *** [title] sees a string only through its case-folded form *)


(** *** [strip] commutes with case changes and drops the padding *)












(** *** On ASCII text the Unicode methods are the ASCII ones *)









Section Methods.

Variable unicode : PyStr.unicode_data.















End Methods.

(** An excerpt of the Unicode character database: the letters U+00C3,
    U+00C9, U+00DF, U+00E3 and U+00E9 with their case mappings, and the
    whitespace U+0085 and U+00A0. *)
Definition latin_excerpt : PyStr.unicode_data :=
  PyStr.UnicodeData
    (fun c => match c with
              | 195%N => [227%N]
              | 201%N => [233%N]
              | _ => [c]
              end)
    (fun c => match c with
              | 223%N => [83%N; 115%N]
              | 227%N => [195%N]
              | 233%N => [201%N]
              | _ => [c]
              end)
    (fun c => match c with
              | 223%N => [83%N; 83%N]
              | 227%N => [195%N]
              | 233%N => [201%N]
              | _ => [c]
              end)
    (fun c => match c with
              | 195%N | 201%N | 223%N | 227%N | 233%N => true
              | _ => false
              end)
    (fun _ => false)
    (fun c => match c with
              | 133%N | 160%N => true
              | _ => false
              end).

(** Letters outside ASCII are cased by their own rules, and whitespace
    outside ASCII is stripped. *)
Lemma title_outside_ascii :
  PyStr.title latin_excerpt "são tomé" = "São Tomé"
  /\ PyStr.title latin_excerpt "SÃO TOMÉ" = "São Tomé"
  /\ PyStr.strip latin_excerpt (PyStr.encode [160%N; 71%N; 104%N; 97%N; 110%N; 97%N; 133%N])
     = "Ghana".
Proof. vm_compute. repeat split; reflexivity. Qed.

End PyStrFacts.

(** ** C9: country-code resolution and the normal form of a name *)

Module ResolverFacts.

Import AsciiText PyStrFacts.












End ResolverFacts.

(** ** C3: the region of a country code *)

Module RegionFacts.

Import App.

(** Whatever [get_region] returns is one of the seven listed names. *)
Lemma get_region_in_names alpha_2 table code region :
  get_region alpha_2 table code = Ok region -> region ∈ region_names.
Proof.
  unfold get_region.
  destruct (manual_region_mapping !! code) as [r|] eqn:Hm.
  - intros [= <-]. revert Hm. unfold manual_region_mapping. simpl.
    rewrite !lookup_insert. repeat case_decide; intros [= <-] || (rewrite lookup_empty; intros [=]);
      unfold region_names; set_solver.
  - destruct (country_alpha2_to_continent_code table _) as [k|e]; simpl; [|discriminate].
    intros [= <-]. unfold continent_map. simpl.
    rewrite !lookup_insert, lookup_empty.
    repeat case_decide; simpl; unfold region_names; set_solver.
Qed.

(** A code whose two-letter form is in the continent table gets a region. *)
Lemma get_region_listed alpha_2 (table : gmap string string) code a2 continent :
  String.length code = 3%nat -> alpha_2 code = Some a2 -> table !! a2 = Some continent ->
  exists region, get_region alpha_2 table code = Ok region /\ region ∈ region_names.
Proof.
  intros Hlen Ha Ht.
  assert (exists region, get_region alpha_2 table code = Ok region) as [region E].
  { unfold get_region. destruct (manual_region_mapping !! code); [eauto|].
    rewrite Hlen. simpl. unfold alpha3_to_alpha2. rewrite Ha. simpl. rewrite Ht.
    simpl. eauto. }
  exists region. split; [exact E | eapply get_region_in_names, E].
Qed.

(** C3.  [get_region] has no handler for the [KeyError] of
    [pycountry_convert]: for a three-letter code that pycountry knows, that
    is not in [manual_region_mapping], and whose two-letter form the
    continent table does not list, the call raises [KeyError] instead of
    returning "Unknown Region". *)
Theorem get_region_unlisted_raises alpha_2 (table : gmap string string) code a2 :
  manual_region_mapping !! code = None ->
  String.length code = 3%nat ->
  alpha_2 code = Some a2 ->
  table !! a2 = None ->
  get_region alpha_2 table code = Raise KeyError.
Proof.
  intros Hm Hlen Ha Ht. unfold get_region. rewrite Hm, Hlen. simpl.
  unfold alpha3_to_alpha2. rewrite Ha. simpl. rewrite Ht. reflexivity.
Qed.

(** An excerpt of the two library tables: pycountry knows the Holy See
    ([VAT], [VA]); the continent table, like the one of pycountry_convert,
    has no entry for [VA]. *)
Definition alpha_2_excerpt (alpha3_code : string) : option string :=
  if String.eqb alpha3_code "USA" then Some "US"
  else if String.eqb alpha3_code "FRA" then Some "FR"
  else if String.eqb alpha3_code "VAT" then Some "VA"
  else None.

Definition continent_excerpt : gmap string string :=
  list_to_map [("US", "NA"); ("FR", "EU")].

Lemma get_region_unlisted_raises_witness :
  get_region alpha_2_excerpt continent_excerpt "VAT" = Raise KeyError
  /\ get_region alpha_2_excerpt continent_excerpt "FRA" = Ok "Europe"
  /\ get_region alpha_2_excerpt continent_excerpt "TLS" = Ok "Asia".
Proof.
  split; [|split; reflexivity].
  apply (get_region_unlisted_raises alpha_2_excerpt continent_excerpt "VAT" "VA");
    reflexivity.
Defined.

End RegionFacts.

(** ** Error-monad and frame lemmas shared by the imputers *)

Module FrameFacts.

Lemma mapM_Ok_map {A B : Type} (f : A -> result B) (g : A -> B) (l : list A) :
  Forall (fun a => f a = Ok (g a)) l -> mapM f l = Ok (map g l).
Proof.
  induction 1 as [|a t Ha _ IH]; simpl; [reflexivity|].
  rewrite Ha. simpl. rewrite IH. reflexivity.
Qed.

Lemma mapM_Ok_Forall2 {A B : Type} (f : A -> result B) (l : list A) : forall k,
  mapM f l = Ok k -> Forall2 (fun a b => f a = Ok b) l k.
Proof.
  induction l as [|a t IH]; simpl; intros k E.
  - injection E as <-. constructor.
  - destruct (f a) as [b|e] eqn:Ha; simpl in E; [|discriminate].
    destruct (mapM f t) as [bs|e] eqn:Ht; simpl in E; [|discriminate].
    injection E as <-. constructor; [exact Ha | apply IH; reflexivity].
Qed.

Lemma mapM_Raise {A B : Type} (f : A -> result B) (l : list A) (a : A) (e : pyerror) :
  a ∈ l -> (forall a' e', f a' = Raise e' -> e' = e) -> f a = Raise e ->
  mapM f l = Raise e.
Proof.
  intros Hin Hall Ha. induction l as [|a' t IH]; [inversion Hin|].
  simpl. destruct (f a') as [b|e'] eqn:Ha'; simpl.
  - apply elem_of_cons in Hin as [->|Hin]; [congruence|].
    rewrite (IH Hin). reflexivity.
  - f_equal. eapply Hall, Ha'.
Qed.

Lemma bind_Ok_inv {A B : Type} (m : result A) (k : A -> result B) (b : B) :
  (m ≫= k) = Ok b -> exists a, m = Ok a /\ k a = Ok b.
Proof. destruct m as [a|e]; simpl; [eauto | discriminate]. Qed.

Lemma zip_with_map_self {A B C : Type} (f : A -> B -> C) (g : A -> B) (l : list A) :
  zip_with f l (map g l) = map (fun a => f a (g a)) l.
Proof. induction l as [|a t IH]; simpl; [reflexivity | rewrite IH; reflexivity]. Qed.

Lemma set_column_present c vs df :
  c ∈ columns df ->
  set_column c vs df = Frame (columns df) (zip_with (fun r v => <[c := v]> r) (rows df) vs).
Proof. intros H. unfold set_column. rewrite decide_True by exact H. reflexivity. Qed.

Lemma cell_insert_eq (r : row) c v : cell (<[c := v]> r) c = v.
Proof. unfold cell. rewrite lookup_insert_eq. reflexivity. Qed.

Lemma cell_insert_ne (r : row) c c' v : c <> c' -> cell (<[c := v]> r) c' = cell r c'.
Proof. intros H. unfold cell. rewrite lookup_insert_ne by exact H. reflexivity. Qed.

Lemma frame_eta df : Frame (columns df) (rows df) = df.
Proof. destruct df; reflexivity. Qed.

End FrameFacts.

(** ** C1 and C7: polynomial imputation *)

Module PolynomialFacts.

Import FrameFacts.

(** The number in a numeric cell. *)
Definition num_of (v : value) : Q :=
  match v with VNum q => q | _ => 0 end.

(** The sample the fit receives: year and value of every known row. *)
Definition sample_points (year_col target_col : string) (df : frame) : list (Q * Q) :=
  map (fun r => (num_of (cell r year_col), num_of (cell r target_col)))
      (known_rows target_col df).

(** The fitted curve for a frame. *)
Definition fitted_curve (lstsq : nat -> list (Q * Q) -> Q -> Q) (degree : nat)
    (year_col target_col : string) (df : frame) : Q -> Q :=
  lstsq degree (sample_points year_col target_col df).

(** A frame with a year column of numbers and a numeric target column. *)
Definition year_target_frame (year_col target_col : string) (df : frame) : Prop :=
  target_col ∈ columns df /\ year_col ∈ columns df /\
  Forall (fun r => is_numeric (cell r year_col) /\ numeric_or_null (cell r target_col))
         (rows df).

(** The row with the fitted value written in the target column. *)
Definition overwritten (curve : Q -> Q) (year_col target_col : string) (r : row) : row :=
  <[target_col := VNum (curve (num_of (cell r year_col)))]> r.

(** The row with the fitted value written only where the target is null. *)
Definition gap_filled (curve : Q -> Q) (year_col target_col : string) (r : row) : row :=
  if isnull (cell r target_col) then overwritten curve year_col target_col r else r.

Section Facts.

Variable lstsq : nat -> list (Q * Q) -> Q -> Q.

Lemma known_rows_samples year_col target_col df :
  year_target_frame year_col target_col df ->
  mapM (sample year_col target_col) (known_rows target_col df)
    = Ok (sample_points year_col target_col df).
Proof.
  intros (_ & _ & Hrows). unfold sample_points. apply mapM_Ok_map.
  unfold known_rows. apply Forall_forall. intros r Hr.
  apply list_elem_of_filter in Hr as [Hk Hr].
  rewrite Forall_forall in Hrows. destruct (Hrows r Hr) as [Hy Ht].
  unfold sample. unfold notnull in Hk.
  destruct (cell r year_col); try contradiction.
  destruct (cell r target_col); try contradiction; try discriminate.
  reflexivity.
Qed.

Lemma poly_call_years year_col target_col df (poly : Q -> Q) :
  year_target_frame year_col target_col df ->
  mapM (poly_call poly) (column year_col df)
    = Ok (map (fun r => VNum (poly (num_of (cell r year_col)))) (rows df)).
Proof.
  intros (_ & _ & Hrows). unfold column.
  induction Hrows as [|r t [Hy _] _ IH]; simpl; [reflexivity|].
  destruct (cell r year_col); try contradiction. simpl.
  rewrite IH. reflexivity.
Qed.

Lemma sample_points_nil year_col target_col df :
  sample_points year_col target_col df = [] <-> known_rows target_col df = [].
Proof.
  unfold sample_points. split; [apply map_eq_nil | intros ->; reflexivity].
Qed.

(** main_pipeline.py: with no known value the frame comes back as it is. *)
Lemma main_no_known df target_col degree :
  target_col ∈ columns df -> known_rows target_col df = [] ->
  MainPipeline.impute_with_polynomial lstsq df target_col degree = Ok df.
Proof.
  intros Ht Hk. unfold MainPipeline.impute_with_polynomial.
  rewrite decide_True by exact Ht. rewrite Hk. reflexivity.
Qed.

(** main_pipeline.py: with one known value or more the whole column is the
    fitted curve. *)
Lemma main_some_known df target_col degree :
  year_target_frame "Year" target_col df -> known_rows target_col df <> [] ->
  MainPipeline.impute_with_polynomial lstsq df target_col degree
    = Ok (Frame (columns df)
            (map (overwritten (fitted_curve lstsq degree "Year" target_col df)
                              "Year" target_col) (rows df))).
Proof.
  intros Hwf Hk. pose proof Hwf as (Ht & Hy & _).
  unfold MainPipeline.impute_with_polynomial.
  rewrite decide_True by exact Ht.
  destruct (known_rows target_col df) as [|k ks] eqn:Ek; [contradiction|].
  rewrite decide_True by exact Hy.
  rewrite <- Ek, (known_rows_samples _ _ _ Hwf). simpl.
  destruct (sample_points "Year" target_col df) as [|p ps] eqn:Es.
  { apply sample_points_nil in Es. congruence. }
  simpl. rewrite <- Es.
  rewrite (poly_call_years _ _ _ _ Hwf). simpl.
  rewrite (set_column_present _ _ _ Ht), zip_with_map_self. reflexivity.
Qed.

(** process_diabetes_alcohol.py: an empty sample makes the fit raise. *)
Lemma da_no_known df year_col target_col degree :
  target_col ∈ columns df -> year_col ∈ columns df -> known_rows target_col df = [] ->
  ProcessDiabetesAlcohol.impute_with_polynomial lstsq df year_col target_col degree
    = Raise ValueError.
Proof.
  intros Ht Hy Hk. unfold ProcessDiabetesAlcohol.impute_with_polynomial.
  rewrite decide_True by exact Ht. rewrite decide_True by exact Hy.
  rewrite Hk. reflexivity.
Qed.

(** process_diabetes_alcohol.py: only the null cells receive the curve. *)
Lemma da_some_known df year_col target_col degree :
  year_target_frame year_col target_col df -> known_rows target_col df <> [] ->
  ProcessDiabetesAlcohol.impute_with_polynomial lstsq df year_col target_col degree
    = Ok (Frame (columns df)
            (map (gap_filled (fitted_curve lstsq degree year_col target_col df)
                             year_col target_col) (rows df))).
Proof.
  intros Hwf Hk. pose proof Hwf as (Ht & Hy & Hrows).
  unfold ProcessDiabetesAlcohol.impute_with_polynomial.
  rewrite decide_True by exact Ht. rewrite decide_True by exact Hy.
  rewrite (known_rows_samples _ _ _ Hwf). simpl.
  destruct (sample_points year_col target_col df) as [|p ps] eqn:Es.
  { apply sample_points_nil in Es. congruence. }
  simpl. rewrite <- Es.
  rewrite (mapM_Ok_map _ (gap_filled (fitted_curve lstsq degree year_col target_col df)
                                     year_col target_col)); [reflexivity|].
  eapply Forall_impl; [exact Hrows|]. intros r [Hyr _].
  unfold ProcessDiabetesAlcohol.fill_missing, gap_filled, overwritten, fitted_curve.
  destruct (isnull (cell r target_col)); [|reflexivity].
  destruct (cell r year_col); try contradiction. reflexivity.
Qed.

End Facts.

Lemma overwritten_notnull curve year_col target_col r :
  notnull (cell (overwritten curve year_col target_col r) target_col) = true.
Proof. unfold overwritten. rewrite cell_insert_eq. reflexivity. Qed.

Lemma gap_filled_notnull curve year_col target_col r :
  notnull (cell (gap_filled curve year_col target_col r) target_col) = true.
Proof.
  unfold gap_filled. destruct (isnull (cell r target_col)) eqn:E.
  - apply overwritten_notnull.
  - unfold notnull. rewrite E. reflexivity.
Qed.

Lemma gap_filled_known curve year_col target_col r :
  notnull (cell r target_col) = true -> gap_filled curve year_col target_col r = r.
Proof.
  unfold gap_filled, notnull. destruct (isnull (cell r target_col)); [discriminate|reflexivity].
Qed.

Lemma two_known_nonempty target_col df :
  (2 <= length (known_rows target_col df))%nat -> known_rows target_col df <> [].
Proof. destruct (known_rows target_col df); simpl; [lia | discriminate]. Qed.

(** C1 (amended).  On a frame with a numeric [Year] column and a numeric
    target column:
    - [impute_with_polynomial] of main_pipeline.py returns the frame as it
      is when no row has a known target value, and with two known rows or
      more it writes in every row the fitted curve at the row's year, known
      values included, so that no target cell is left null;
    - [impute_with_polynomial] of process_diabetes_alcohol.py, with two
      known rows or more, writes the fitted curve at the row's year only in
      the rows whose target is null; a known value is kept as it is, and no
      target cell is left null. *)
Theorem polynomial_imputation (lstsq : nat -> list (Q * Q) -> Q -> Q)
    (df : frame) (target_col : string) (degree : nat) :
  year_target_frame "Year" target_col df ->
  (known_rows target_col df = [] ->
     MainPipeline.impute_with_polynomial lstsq df target_col degree = Ok df)
  /\ ((2 <= length (known_rows target_col df))%nat ->
      let curve := fitted_curve lstsq degree "Year" target_col df in
      (exists df',
         MainPipeline.impute_with_polynomial lstsq df target_col degree = Ok df'
         /\ columns df' = columns df
         /\ rows df' = map (overwritten curve "Year" target_col) (rows df)
         /\ Forall (fun r' => notnull (cell r' target_col) = true) (rows df'))
      /\ (exists df',
         ProcessDiabetesAlcohol.impute_with_polynomial lstsq df "Year" target_col degree
           = Ok df'
         /\ columns df' = columns df
         /\ rows df' = map (gap_filled curve "Year" target_col) (rows df)
         /\ Forall (fun r' => notnull (cell r' target_col) = true) (rows df')
         /\ Forall (fun r => notnull (cell r target_col) = true ->
                             gap_filled curve "Year" target_col r = r) (rows df))).
Proof.
  intros Hwf. split.
  - apply main_no_known. apply Hwf.
  - intros H2. apply two_known_nonempty in H2. split.
    + eexists. split; [apply (main_some_known lstsq _ _ _ Hwf H2)|]. simpl.
      repeat split. apply Forall_forall. intros r' Hr'.
      apply list_elem_of_fmap in Hr' as (r & -> & _). apply overwritten_notnull.
    + eexists. split; [apply (da_some_known lstsq _ _ _ _ Hwf H2)|]. simpl.
      repeat split.
      * apply Forall_forall. intros r' Hr'.
        apply list_elem_of_fmap in Hr' as (r & -> & _). apply gap_filled_notnull.
      * apply Forall_forall. intros r _. apply gap_filled_known.
Qed.

(** Three rows for the years 2000 to 2002, the last one without value. *)
Definition three_years : frame :=
  Frame ["Year"; "GDP"]
        [ {[ "Year" := VNum 2000; "GDP" := VNum 10 ]};
          {[ "Year" := VNum 2001; "GDP" := VNum 30 ]};
          {[ "Year" := VNum 2002; "GDP" := VNaN ]} ].

Lemma three_years_frame : year_target_frame "Year" "GDP" three_years.
Proof.
  unfold year_target_frame, three_years. simpl. repeat split; [set_solver | set_solver |].
  repeat constructor.
Qed.

Lemma polynomial_imputation_witness :
  exists df',
    MainPipeline.impute_with_polynomial (fun _ _ x => x) three_years "GDP" 2 = Ok df'
    /\ Forall (fun r' => notnull (cell r' "GDP") = true) (rows df').
Proof.
  destruct (polynomial_imputation (fun _ _ x => x) three_years "GDP" 2 three_years_frame)
    as [_ H].
  destruct H as [(df' & E & _ & _ & Hfull) _]; [vm_compute; lia|].
  exists df'. split; assumption.
Defined.

(** Two known values in the same year, and a frame without any known value. *)
Definition same_year_twice : frame :=
  Frame ["Year"; "GDP"]
        [ {[ "Year" := VNum 2000; "GDP" := VNum 1 ]};
          {[ "Year" := VNum 2000; "GDP" := VNum 3 ]} ].

Definition nothing_known : frame :=
  Frame ["Year"; "GDP"] [ {[ "Year" := VNum 2000; "GDP" := VNaN ]} ].

(** Every target cell of [df'] is the curve at the year of the row of [df]. *)
Definition all_on_curve (curve : Q -> Q) (year_col target_col : string)
    (df df' : frame) : Prop :=
  Forall2 (fun r r' => cell r' target_col = VNum (curve (num_of (cell r year_col))))
          (rows df) (rows df').

(** C1 as stated fails for process_diabetes_alcohol.py: two known values
    of one year are both kept, so whatever the solver no curve in the year
    gives the column; and with no known value the call raises instead of
    returning the frame. *)
Lemma polynomial_imputation_counterexample :
  ~ (exists (lstsq : nat -> list (Q * Q) -> Q -> Q) (curve : Q -> Q) (df' : frame),
       ProcessDiabetesAlcohol.impute_with_polynomial lstsq same_year_twice "Year" "GDP" 2
         = Ok df'
       /\ all_on_curve curve "Year" "GDP" same_year_twice df')
  /\ ~ (exists lstsq : nat -> list (Q * Q) -> Q -> Q,
          ProcessDiabetesAlcohol.impute_with_polynomial lstsq nothing_known "Year" "GDP" 2
            = Ok nothing_known).
Proof.
  split.
  - intros (lstsq & curve & df' & E & H).
    vm_compute in E. injection E as <-.
    unfold all_on_curve in H. simpl in H.
    inversion H as [|r1 r1' t1 t1' H1 Ht]; subst.
    inversion Ht as [|r2 r2' t2 t2' H2 _]; subst.
    vm_compute in H1, H2. congruence.
  - intros (lstsq & E). vm_compute in E. discriminate.
Qed.

(** C7 (amended).  On a frame with a numeric [Year] column and a numeric
    target column, [impute_with_polynomial] of main_pipeline.py returns the
    frame as it is when no row has a known target value; with exactly one
    known row the fit is made and every row receives the fitted curve at its
    year, so a frame that had a null target cell is not returned as it was. *)
Theorem polynomial_one_known (lstsq : nat -> list (Q * Q) -> Q -> Q)
    (df : frame) (target_col : string) (degree : nat) :
  year_target_frame "Year" target_col df ->
  (known_rows target_col df = [] ->
     MainPipeline.impute_with_polynomial lstsq df target_col degree = Ok df)
  /\ (length (known_rows target_col df) = 1%nat ->
      MainPipeline.impute_with_polynomial lstsq df target_col degree
        = Ok (Frame (columns df)
                (map (overwritten (fitted_curve lstsq degree "Year" target_col df)
                                  "Year" target_col) (rows df)))
      /\ (missing_rows target_col df <> [] ->
          MainPipeline.impute_with_polynomial lstsq df target_col degree <> Ok df)).
Proof.
  intros Hwf. split; [apply main_no_known, Hwf|].
  intros H1.
  assert (Hne : known_rows target_col df <> []).
  { destruct (known_rows target_col df); [discriminate H1 | discriminate]. }
  pose proof (main_some_known lstsq _ _ degree Hwf Hne) as E.
  split; [exact E|].
  intros Hm Heq. rewrite E in Heq. injection Heq as Heq.
  destruct (missing_rows target_col df) as [|r ms] eqn:Em; [contradiction|].
  assert (Hr : r ∈ missing_rows target_col df) by (rewrite Em; left).
  unfold missing_rows in Hr. apply list_elem_of_filter in Hr as [Hnull Hr].
  apply (f_equal rows) in Heq. simpl in Heq.
  assert (Hfix : forall l : list row,
             map (overwritten (fitted_curve lstsq degree "Year" target_col df)
                              "Year" target_col) l = l ->
             forall r, r ∈ l ->
               overwritten (fitted_curve lstsq degree "Year" target_col df)
                           "Year" target_col r = r).
  { induction l as [|a t IH]; intros Hl r0 Hr0; [inversion Hr0|].
    simpl in Hl. injection Hl as Ha Ht.
    apply elem_of_cons in Hr0 as [->|Hr0]; [exact Ha | apply IH; assumption]. }
  pose proof (overwritten_notnull (fitted_curve lstsq degree "Year" target_col df)
                "Year" target_col r) as Hnn.
  rewrite (Hfix _ Heq r Hr) in Hnn. unfold notnull in Hnn. rewrite Hnull in Hnn.
  discriminate.
Qed.

(** One known value and one gap. *)
Definition one_known : frame :=
  Frame ["Year"; "GDP"]
        [ {[ "Year" := VNum 2000; "GDP" := VNum 5 ]};
          {[ "Year" := VNum 2001; "GDP" := VNaN ]} ].

Lemma one_known_frame : year_target_frame "Year" "GDP" one_known.
Proof.
  unfold year_target_frame, one_known. simpl. repeat split; [set_solver | set_solver |].
  repeat constructor.
Qed.

Lemma polynomial_one_known_witness :
  MainPipeline.impute_with_polynomial (fun _ _ x => x) one_known "GDP" 2 <> Ok one_known.
Proof.
  destruct (polynomial_one_known (fun _ _ x => x) one_known "GDP" 2 one_known_frame)
    as [_ H].
  destruct H as [_ H]; [reflexivity|].
  apply H. vm_compute. discriminate.
Defined.

(** C7 as stated fails with exactly one known value: whatever the solver,
    the frame that comes back is not the frame that went in. *)
Lemma polynomial_one_known_counterexample :
  ~ (exists lstsq : nat -> list (Q * Q) -> Q -> Q,
       MainPipeline.impute_with_polynomial lstsq one_known "GDP" 2 = Ok one_known).
Proof.
  intros (lstsq & E).
  apply (f_equal (fun res => match res with
                             | Ok d => map (fun r => isnull (cell r "GDP")) (rows d)
                             | Raise _ => []
                             end)) in E.
  vm_compute in E. discriminate.
Qed.

End PolynomialFacts.

(** ** C4: nearest-neighbour imputation *)

Module KnnFacts.

Import FrameFacts.

Lemma insert_sorted_Permutation {A : Type} (leb : A -> A -> bool) (x : A) (l : list A) :
  insert_sorted leb x l ≡ₚ x :: l.
Proof.
  induction l as [|y t IH]; simpl; [reflexivity|].
  destruct (leb x y); [reflexivity|].
  rewrite IH. apply Permutation_swap.
Qed.

Lemma stable_sort_Permutation {A : Type} (leb : A -> A -> bool) (l : list A) :
  stable_sort leb l ≡ₚ l.
Proof.
  induction l as [|x t IH]; simpl; [reflexivity|].
  rewrite insert_sorted_Permutation, IH. reflexivity.
Qed.

Lemma last_valid_column (P : nat -> bool) (n : nat) :
  P n = true -> last (filter (fun j => P j = true) (seq 0 (S n))) = Some n.
Proof.
  intros H. rewrite seq_S, filter_app. simpl.
  rewrite filter_cons_True by exact H. rewrite filter_nil. apply last_snoc.
Qed.

Lemma cell_at_target (r : row) (feature_cols : list string) (target_col : string) :
  cell_at (map (cell r) (feature_cols ++ [target_col])) (length feature_cols)
    = cell r target_col.
Proof.
  unfold cell_at. rewrite map_app. rewrite app_nth2; rewrite length_map; [|lia].
  rewrite Nat.sub_diag. reflexivity.
Qed.

Section Facts.

Variable knn_estimate : nat -> list (list value) -> nat -> nat -> Q.

(** The cells an imputation with [target_col] may read. *)
Definition impute_cols (df : frame) (target_col : string) : list string :=
  Index_difference (columns df)
    ["Country"; "Country_Code"; "Age_Group"; "Gender"; target_col] ++ [target_col].

Definition design_matrix (df : frame) (target_col : string) : list (list value) :=
  map (fun r => map (cell r) (impute_cols df target_col)) (rows df).

(** What the call computes, unfolded once. *)
Lemma impute_with_knn_unfold df target_col n df' :
  MainPipeline.impute_with_knn knn_estimate df target_col n = Ok df' ->
  target_col ∈ columns df /\
  exists M filled,
    KNNImputer_fit_transform knn_estimate n (length (impute_cols df target_col))
      (design_matrix df target_col) = Ok M
    /\ last_column M = Ok filled
    /\ df' = Frame (columns df)
               (zip_with (fun r v => <[target_col := v]> r) (rows df) (map VNum filled)).
Proof.
  unfold MainPipeline.impute_with_knn. fold (impute_cols df target_col).
  fold (design_matrix df target_col).
  destruct (decide (target_col ∈ columns df)) as [Ht|]; [|discriminate].
  destruct (KNNImputer_fit_transform _ _ _ _) as [M|] eqn:EM; simpl; [|discriminate].
  destruct (last_column M) as [filled|] eqn:EF; simpl; [|discriminate].
  intros [= <-]. split; [exact Ht|]. exists M, filled.
  rewrite (set_column_present _ _ _ Ht). auto.
Qed.

Lemma fit_transform_rows n n_features X M :
  KNNImputer_fit_transform knn_estimate n n_features X = Ok M ->
  existsb (existsb is_text_cell) X = false /\
  M = imap (fun i X_row =>
              map (fun j => match cell_at X_row j with
                            | VNum q => q
                            | _ => knn_estimate n X i j
                            end)
                  (filter (fun j => has_observed X j = true) (seq 0 n_features))) X.
Proof.
  unfold KNNImputer_fit_transform. destruct X as [|x0 X0]; [discriminate|].
  destruct (existsb (existsb is_text_cell) (x0 :: X0)); [discriminate|].
  intros [= <-]. split; reflexivity.
Qed.

Lemma fit_transform_Ok n n_features X :
  X <> [] -> existsb (existsb is_text_cell) X = false ->
  KNNImputer_fit_transform knn_estimate n n_features X
    = Ok (imap (fun i X_row =>
                  map (fun j => match cell_at X_row j with
                                | VNum q => q
                                | _ => knn_estimate n X i j
                                end)
                      (filter (fun j => has_observed X j = true) (seq 0 n_features))) X).
Proof.
  intros HX Hno. unfold KNNImputer_fit_transform.
  destruct X as [|x0 X0]; [contradiction|]. rewrite Hno. reflexivity.
Qed.

Lemma last_column_lookup M filled i M_row :
  last_column M = Ok filled -> M !! i = Some M_row ->
  exists q, filled !! i = Some q /\ last M_row = Some q.
Proof.
  intros E Hi. apply mapM_Ok_Forall2 in E.
  destruct (Forall2_lookup_l _ _ _ _ _ E Hi) as (q & Hq & Hlast).
  exists q. split; [exact Hq|]. destruct (last M_row); [congruence | discriminate].
Qed.

Lemma last_column_length M filled : last_column M = Ok filled -> length filled = length M.
Proof. intros E. apply mapM_Ok_Forall2, Forall2_length in E. symmetry. exact E. Qed.

(** Row by row: the result row is the old row with a number under the
    target label, and that number is the old one where there was one. *)
Lemma impute_with_knn_row df target_col n df' i r :
  MainPipeline.impute_with_knn knn_estimate df target_col n = Ok df' ->
  rows df !! i = Some r ->
  exists q, rows df' !! i = Some (<[target_col := VNum q]> r)
            /\ (notnull (cell r target_col) = true -> cell r target_col = VNum q).
Proof.
  intros E Hi. apply impute_with_knn_unfold in E as (Ht & M & filled & EM & EF & ->).
  apply fit_transform_rows in EM as [Htext ->].
  set (X := design_matrix df target_col) in *.
  assert (HX : X !! i = Some (map (cell r) (impute_cols df target_col))).
  { unfold X, design_matrix. rewrite list_lookup_fmap, Hi. reflexivity. }
  match type of EF with last_column (imap ?f X) = _ => set (F := f) in * end.
  assert (HM : imap F X !! i = Some (F i (map (cell r) (impute_cols df target_col)))).
  { rewrite list_lookup_imap, HX. reflexivity. }
  destruct (last_column_lookup _ _ _ _ EF HM) as (q & Hq & Hlast).
  exists q. split.
  - simpl. rewrite lookup_zip_with, Hi. simpl.
    rewrite list_lookup_fmap, Hq. reflexivity.
  - intros Hnn.
    set (fc := Index_difference (columns df)
                 ["Country"; "Country_Code"; "Age_Group"; "Gender"; target_col]) in *.
    assert (Hlen : length (impute_cols df target_col) = S (length fc)).
    { unfold impute_cols. fold fc. rewrite length_app. simpl. lia. }
    assert (Hobs : has_observed X (length fc) = true).
    { unfold has_observed. apply existsb_exists.
      exists (map (cell r) (impute_cols df target_col)). split.
      - apply list_elem_of_In, list_elem_of_lookup. eauto.
      - unfold impute_cols. fold fc. rewrite cell_at_target. exact Hnn. }
    unfold F in Hlast. rewrite Hlen in Hlast.
    rewrite fmap_last in Hlast.
    rewrite (last_valid_column (has_observed X) _ Hobs) in Hlast. simpl in Hlast.
    unfold impute_cols in Hlast. fold fc in Hlast. rewrite cell_at_target in Hlast.
    destruct (cell r target_col) as [| |q0|s] eqn:Ec; try discriminate Hnn.
    + congruence.
    + exfalso. apply not_true_iff_false in Htext. apply Htext.
      apply existsb_exists. exists (map (cell r) (impute_cols df target_col)). split.
      * apply list_elem_of_In, list_elem_of_lookup. eauto.
      * apply existsb_exists. exists (VStr s). split; [|reflexivity].
        apply in_map_iff. exists target_col. split; [exact Ec|].
        unfold impute_cols. apply in_or_app. right. left. reflexivity.
Qed.

Lemma impute_with_knn_shape df target_col n df' :
  MainPipeline.impute_with_knn knn_estimate df target_col n = Ok df' ->
  columns df' = columns df /\ length (rows df') = length (rows df).
Proof.
  intros E. apply impute_with_knn_unfold in E as (Ht & M & filled & EM & EF & ->).
  split; [reflexivity|]. simpl.
  apply fit_transform_rows in EM as [_ ->].
  apply last_column_length in EF. rewrite length_imap in EF.
  unfold design_matrix in EF. rewrite length_map in EF.
  rewrite length_zip_with, length_map, EF. lia.
Qed.

End Facts.

(** When the target column has an observed number and the matrix holds no
    text, the call returns a frame. *)
Lemma impute_with_knn_returns knn_estimate df target_col n :
  target_col ∈ columns df ->
  (exists r, r ∈ rows df /\ is_numeric (cell r target_col)) ->
  (forall r c, r ∈ rows df -> c ∈ impute_cols df target_col ->
               is_text_cell (cell r c) = false) ->
  exists df', MainPipeline.impute_with_knn knn_estimate df target_col n = Ok df'.
Proof.
  intros Ht (r0 & Hr0 & Hnum) Htext.
  unfold MainPipeline.impute_with_knn. fold (impute_cols df target_col).
  fold (design_matrix df target_col).
  rewrite decide_True by exact Ht.
  set (X := design_matrix df target_col).
  set (fc := Index_difference (columns df)
               ["Country"; "Country_Code"; "Age_Group"; "Gender"; target_col]).
  assert (Hlen : length (impute_cols df target_col) = S (length fc)).
  { unfold impute_cols. fold fc. rewrite length_app. simpl. lia. }
  assert (HX0 : map (cell r0) (impute_cols df target_col) ∈ X).
  { unfold X, design_matrix. apply list_elem_of_fmap. eauto. }
  assert (Hobs : has_observed X (length fc) = true).
  { unfold has_observed. apply existsb_exists. eexists. split.
    - apply list_elem_of_In, HX0.
    - unfold impute_cols. fold fc. rewrite cell_at_target.
      destruct (cell r0 target_col); try contradiction. reflexivity. }
  assert (Hno : existsb (existsb is_text_cell) X = false).
  { apply not_true_iff_false. intros H. apply existsb_exists in H as (x & Hx & H).
    apply existsb_exists in H as (v & Hv & Hs).
    apply list_elem_of_In in Hx. unfold X, design_matrix in Hx.
    apply list_elem_of_fmap in Hx as (r & -> & Hr).
    apply in_map_iff in Hv as (c & <- & Hc).
    rewrite (Htext r c Hr) in Hs; [discriminate | apply list_elem_of_In, Hc]. }
  rewrite (fit_transform_Ok knn_estimate n _ X) by (try assumption; intros ->; inversion HX0).
  rewrite Hlen.
  match goal with |- context [imap ?f X] => set (F := f) end.
  set (M := imap F X).
  assert (HL : last_column M = Ok (map (fun M_row => default 0%Q (last M_row)) M)).
  { apply mapM_Ok_map, Forall_forall. intros M_row HM.
    apply list_elem_of_lookup in HM as (i & HM). unfold M in HM.
    rewrite list_lookup_imap in HM.
    destruct (X !! i) as [x|]; [|discriminate]. injection HM as <-.
    unfold F. rewrite fmap_last, (last_valid_column (has_observed X) _ Hobs).
    reflexivity. }
  simpl.
  rewrite HL. simpl. eauto.
Qed.

(** C4.  [impute_with_knn] changes nothing but null cells of the target
    column: the frame it returns has the same columns and as many rows; in
    every row each cell of another column is the one it was, and a target
    cell that was not null keeps its value.  It does return a frame when
    the target column has an observed number and the columns it reads hold
    no text. *)
Theorem impute_with_knn_fills_gaps_only
    (knn_estimate : nat -> list (list value) -> nat -> nat -> Q)
    (df : frame) (target_col : string) (n_neighbors : nat) :
  (forall df',
     MainPipeline.impute_with_knn knn_estimate df target_col n_neighbors = Ok df' ->
     columns df' = columns df
     /\ length (rows df') = length (rows df)
     /\ forall i r r',
          rows df !! i = Some r -> rows df' !! i = Some r' ->
          (forall c, c <> target_col -> r' !! c = r !! c)
          /\ (notnull (cell r target_col) = true ->
              cell r' target_col = cell r target_col))
  /\ (target_col ∈ columns df ->
      (exists r, r ∈ rows df /\ is_numeric (cell r target_col)) ->
      (forall r c, r ∈ rows df -> c ∈ impute_cols df target_col ->
                   is_text_cell (cell r c) = false) ->
      exists df',
        MainPipeline.impute_with_knn knn_estimate df target_col n_neighbors = Ok df').
Proof.
  split.
  - intros df' E.
    destruct (impute_with_knn_shape _ _ _ _ _ E) as [Hc Hl].
    split; [exact Hc|]. split; [exact Hl|].
    intros i r r' Hr Hr'.
    destruct (impute_with_knn_row _ _ _ _ _ _ _ E Hr) as (q & Hq & Hk).
    rewrite Hq in Hr'. injection Hr' as <-. split.
    + intros c Hne. apply lookup_insert_ne. congruence.
    + intros Hnn. rewrite cell_insert_eq. symmetry. apply Hk, Hnn.
  - apply impute_with_knn_returns.
Qed.

(** Two countries, one gap in the target column. *)
Definition one_gap : frame :=
  Frame ["Country"; "Year"; "GDP"]
        [ {[ "Country" := VStr "A"; "Year" := VNum 1990; "GDP" := VNum 3 ]};
          {[ "Country" := VStr "B"; "Year" := VNum 1991; "GDP" := VNaN ]} ].

Lemma impute_with_knn_fills_gaps_only_witness :
  exists df',
    MainPipeline.impute_with_knn (fun _ _ _ _ => 42%Q) one_gap "GDP" 5 = Ok df'
    /\ map (fun r => cell r "GDP") (rows df') = [VNum 3; VNum 42]
    /\ forall i r r',
         rows one_gap !! i = Some r -> rows df' !! i = Some r' ->
         (forall c, c <> "GDP" -> r' !! c = r !! c)
         /\ (notnull (cell r "GDP") = true -> cell r' "GDP" = cell r "GDP").
Proof.
  eexists. split; [vm_compute; reflexivity|]. split; [vm_compute; reflexivity|].
  apply (impute_with_knn_fills_gaps_only (fun _ _ _ _ => 42%Q) one_gap "GDP" 5).
  vm_compute. reflexivity.
Defined.

End KnnFacts.

(** ** C10: imputation of the disease rates *)

Module DiseaseImputationFacts.

Import FrameFacts.
Import ProcessDiseaseMetrics.

Lemma np_maximum_nonneg (a : Q) : (0 <= np_maximum a 0)%Q.
Proof.
  unfold np_maximum. destruct (Qle_bool a 0) eqn:E.
  - apply Qle_refl.
  - apply Qlt_le_weak, Qnot_le_lt. intros H. apply Qle_bool_iff in H. congruence.
Qed.

(** What one row may become: itself, or itself with a number that is not
    negative in a target cell that was null. *)
Definition gap_filled_nonneg (target_column : string) (r r' : row) : Prop :=
  (notnull (cell r target_column) = true -> r' = r)
  /\ (isnull (cell r target_column) = true ->
      r' = r \/ exists v : Q, r' = <[target_column := VNum v]> r /\ (0 <= v)%Q).

Lemma gap_filled_nonneg_refl target_column r : gap_filled_nonneg target_column r r.
Proof. split; intros _; [reflexivity | left; reflexivity]. Qed.

Lemma predict_missing_row model target_column predictor_columns r r' :
  predict_missing model target_column predictor_columns r = Ok r' ->
  gap_filled_nonneg target_column r r'.
Proof.
  unfold predict_missing, gap_filled_nonneg, notnull.
  destruct (isnull (cell r target_column)).
  - destruct (predictors_of predictor_columns r) as [xs|]; simpl; [|discriminate].
    intros [= <-]. split; [discriminate|]. intros _. right.
    eexists. split; [reflexivity | apply np_maximum_nonneg].
  - intros [= <-]. split; [reflexivity | discriminate].
Qed.

Section Facts.

Variable regression : nat -> list (list Q * Q) -> list Q -> Q.

Lemma impute_fit_no_missing df target_column predictor_columns degree :
  target_column ∈ columns df ->
  forallb notnull (column target_column df) = true ->
  _impute_with_polynomial_fit regression df target_column predictor_columns degree = Ok df.
Proof.
  intros Ht Hall. unfold _impute_with_polynomial_fit.
  rewrite decide_True by exact Ht. rewrite Hall. reflexivity.
Qed.

Lemma impute_fit_rows df target_column predictor_columns degree df' :
  _impute_with_polynomial_fit regression df target_column predictor_columns degree = Ok df' ->
  columns df' = columns df
  /\ Forall2 (gap_filled_nonneg target_column) (rows df) (rows df').
Proof.
  assert (Hsame : columns df = columns df
                  /\ Forall2 (gap_filled_nonneg target_column) (rows df) (rows df)).
  { split; [reflexivity|]. apply Forall_Forall2_diag, Forall_forall.
    intros r _. apply gap_filled_nonneg_refl. }
  unfold _impute_with_polynomial_fit.
  destruct (decide (target_column ∈ columns df)); [|discriminate].
  destruct (forallb notnull (column target_column df)); [intros [= <-]; exact Hsame|].
  destruct (decide (Forall _ predictor_columns)); [|discriminate].
  destruct (filter _ (rows df)) as [|v0 valid]; [intros [= <-]; exact Hsame|].
  destruct (mapM _ (filter _ (v0 :: valid))) as [training|]; simpl; [|discriminate].
  destruct training as [|t0 training]; [discriminate|].
  destruct (mapM _ (rows df)) as [rs|] eqn:Ers; simpl; [|discriminate].
  intros [= <-]. split; [reflexivity|]. simpl.
  apply mapM_Ok_Forall2 in Ers.
  eapply Forall2_impl; [exact Ers|]. intros r r'. apply predict_missing_row.
Qed.

Lemma predictors_of_numeric predictor_columns r :
  Forall (fun c => is_numeric (cell r c)) predictor_columns ->
  predictors_of predictor_columns r
    = Ok (map (fun c => PolynomialFacts.num_of (cell r c)) predictor_columns).
Proof.
  intros H. unfold predictors_of. apply mapM_Ok_map.
  eapply Forall_impl; [exact H|]. intros c Hc. simpl in Hc.
  destruct (cell r c); try contradiction. reflexivity.
Qed.

Lemma numeric_notnull v : is_numeric v -> notnull v = true.
Proof. destruct v; simpl; intros H; try contradiction; reflexivity. Qed.

(** With numeric predictors everywhere and one known target value, the
    call returns a frame. *)
Lemma impute_fit_returns df target_column predictor_columns degree :
  target_column ∈ columns df ->
  Forall (fun c => c ∈ columns df) predictor_columns ->
  (forall r, r ∈ rows df ->
     Forall (fun c => is_numeric (cell r c)) predictor_columns
     /\ numeric_or_null (cell r target_column)) ->
  (exists r, r ∈ rows df /\ is_numeric (cell r target_column)) ->
  exists df',
    _impute_with_polynomial_fit regression df target_column predictor_columns degree
      = Ok df'.
Proof.
  intros Ht Hp Hrows (r0 & Hr0 & Hk0).
  unfold _impute_with_polynomial_fit.
  rewrite decide_True by exact Ht.
  destruct (forallb notnull (column target_column df)); [eauto|].
  rewrite decide_True by exact Hp.
  set (valid := filter (fun r => forallb (fun c => notnull (cell r c)) predictor_columns
                                 = true) (rows df)).
  assert (Hv0 : r0 ∈ valid).
  { apply list_elem_of_filter. split; [|exact Hr0].
    apply forallb_forall. intros c Hc. apply numeric_notnull.
    destruct (Hrows r0 Hr0) as [Hn _]. rewrite Forall_forall in Hn.
    apply Hn, list_elem_of_In, Hc. }
  destruct valid as [|v0 vs] eqn:Ev; [inversion Hv0|]. rewrite <- Ev in *.
  set (train := filter (fun r => notnull (cell r target_column) = true) valid).
  assert (Ht0 : r0 ∈ train).
  { apply list_elem_of_filter. split; [apply numeric_notnull, Hk0 | exact Hv0]. }
  set (g := fun r : row =>
              (map (fun c => PolynomialFacts.num_of (cell r c)) predictor_columns,
               PolynomialFacts.num_of (cell r target_column))).
  rewrite (mapM_Ok_map _ g train).
  2:{ apply Forall_forall. intros r Hr.
      apply list_elem_of_filter in Hr as [Hnn Hr].
      apply list_elem_of_filter in Hr as [_ Hr].
      destruct (Hrows r Hr) as [Hn Hnum].
      rewrite (predictors_of_numeric _ _ Hn). simpl.
      unfold g, notnull in *.
      destruct (cell r target_column); try contradiction; try discriminate.
      reflexivity. }
  simpl. destruct (map g train) as [|t0 ts] eqn:Et.
  { apply map_eq_nil in Et. rewrite Et in Ht0. inversion Ht0. }
  rewrite <- Et.
  set (model := regression degree (map g train)).
  rewrite (mapM_Ok_map _
             (fun r => if isnull (cell r target_column)
                       then <[target_column :=
                                VNum (np_maximum
                                        (model (map (fun c => PolynomialFacts.num_of (cell r c))
                                                    predictor_columns)) 0)]> r
                       else r)).
  2:{ apply Forall_forall. intros r Hr. destruct (Hrows r Hr) as [Hn _].
      unfold predict_missing. destruct (isnull (cell r target_column)); [|reflexivity].
      rewrite (predictors_of_numeric _ _ Hn). reflexivity. }
  simpl. eauto.
Qed.

End Facts.

(** C10.  [_impute_with_polynomial_fit] returns the frame as it is when the
    target column has no null cell.  Whenever it returns a frame, the
    columns are the same and every row is either the row it was or that row
    with a number that is not negative written in a target cell that was
    null; a row whose target cell was not null is the row it was.  It does
    return a frame when the predictors are numbers in every row and the
    target column holds numbers and nulls with one number at least. *)
Theorem impute_with_polynomial_fit_nonneg
    (regression : nat -> list (list Q * Q) -> list Q -> Q)
    (df : frame) (target_column : string) (predictor_columns : list string)
    (degree : nat) :
  (target_column ∈ columns df ->
   forallb notnull (column target_column df) = true ->
   _impute_with_polynomial_fit regression df target_column predictor_columns degree
     = Ok df)
  /\ (forall df',
        _impute_with_polynomial_fit regression df target_column predictor_columns degree
          = Ok df' ->
        columns df' = columns df
        /\ Forall2 (gap_filled_nonneg target_column) (rows df) (rows df'))
  /\ (target_column ∈ columns df ->
      Forall (fun c => c ∈ columns df) predictor_columns ->
      (forall r, r ∈ rows df ->
         Forall (fun c => is_numeric (cell r c)) predictor_columns
         /\ numeric_or_null (cell r target_column)) ->
      (exists r, r ∈ rows df /\ is_numeric (cell r target_column)) ->
      exists df',
        _impute_with_polynomial_fit regression df target_column predictor_columns degree
          = Ok df').
Proof.
  split; [apply impute_fit_no_missing|].
  split; [apply impute_fit_rows | apply impute_fit_returns].
Qed.

(** Three years of a rate with a gap, and a model that predicts [-7]. *)
Definition rate_gap : frame :=
  Frame ["Year"; "MortalityRate"]
        [ {[ "Year" := VNum 2000; "MortalityRate" := VNum 4 ]};
          {[ "Year" := VNum 2001; "MortalityRate" := VNaN ]};
          {[ "Year" := VNum 2002; "MortalityRate" := VNum 6 ]} ].

Lemma impute_with_polynomial_fit_nonneg_witness :
  exists df',
    _impute_with_polynomial_fit (fun _ _ _ => (-7)%Q) rate_gap "MortalityRate" ["Year"] 2
      = Ok df'
    /\ map (fun r => cell r "MortalityRate") (rows df') = [VNum 4; VNum 0; VNum 6]
    /\ Forall2 (gap_filled_nonneg "MortalityRate") (rows rate_gap) (rows df').
Proof.
  eexists. split; [vm_compute; reflexivity|]. split; [vm_compute; reflexivity|].
  apply (impute_with_polynomial_fit_nonneg (fun _ _ _ => (-7)%Q) rate_gap
           "MortalityRate" ["Year"] 2).
  vm_compute. reflexivity.
Defined.

End DiseaseImputationFacts.

(** ** C8: placeholder rows for 1960 to 1989 *)

Module MissingYearsFacts.

Import FrameFacts.

(** The (country, year) key of a row, and equality of keys as pandas
    compares them. *)
Definition key_of (name_col : string) (r : row) : value * value :=
  (cell r name_col, cell r "Year").

Definition key_eqb (a b : value * value) : bool :=
  value_eqb a.1 b.1 && value_eqb a.2 b.2.

(** No two elements of the list are equal for [eqb]. *)
Fixpoint pairwise_distinct {A : Type} (eqb : A -> A -> bool) (l : list A) : bool :=
  match l with
  | [] => true
  | x :: t => forallb (fun y => negb (eqb x y)) t && pairwise_distinct eqb t
  end.

(** No (country, year) pair occurs more than once among the rows. *)
Definition distinct_keys (name_col : string) (rs : list row) : bool :=
  pairwise_distinct key_eqb (map (key_of name_col) rs).

(** [r] is the placeholder of country [name] and year [year]: it carries
    the name, the year, the code of the first row of that country in [df],
    and NaN in every other column of [df]. *)
Definition placeholder_for (df : frame) (name_col code_col : string)
    (name : string) (year : Z) (r : row) : Prop :=
  cell r name_col = VStr name
  /\ cell r "Year" = Year_cell year
  /\ first_code df name_col code_col (VStr name) = Ok (cell r code_col)
  /\ forall c, c ∈ columns df -> c ∉ [name_col; "Year"; code_col] -> cell r c = VNaN.

Lemma value_eqb_refl v : value_eqb v v = true.
Proof.
  destruct v; simpl; try reflexivity.
  - apply Qeq_bool_iff. reflexivity.
  - apply String.eqb_refl.
Qed.

Lemma value_eqb_sym a b : value_eqb a b = value_eqb b a.
Proof.
  destruct a, b; simpl; try reflexivity.
  - destruct (Qeq_bool q q0) eqn:E1, (Qeq_bool q0 q) eqn:E2; try reflexivity.
    + apply Qeq_bool_iff in E1. symmetry in E1. apply Qeq_bool_iff in E1. congruence.
    + apply Qeq_bool_iff in E2. symmetry in E2. apply Qeq_bool_iff in E2. congruence.
  - apply String.eqb_sym.
Qed.

Lemma value_eqb_trans a b c :
  value_eqb a b = true -> value_eqb b c = true -> value_eqb a c = true.
Proof.
  destruct a, b, c; simpl; try discriminate; try reflexivity.
  - rewrite !Qeq_bool_iff. intros H1 H2. rewrite H1. exact H2.
  - rewrite !String.eqb_eq. congruence.
Qed.

Lemma value_eqb_str v s : value_eqb v (VStr s) = true -> v = VStr s.
Proof.
  destruct v; simpl; try discriminate. intros H. apply String.eqb_eq in H. congruence.
Qed.

Lemma key_eqb_sym a b : key_eqb a b = key_eqb b a.
Proof. unfold key_eqb. rewrite (value_eqb_sym a.1), (value_eqb_sym a.2). reflexivity. Qed.

Section Pairwise.

Context {A : Type} (eqb : A -> A -> bool).

Lemma pairwise_distinct_app l1 l2 :
  pairwise_distinct eqb (l1 ++ l2) = true <->
  pairwise_distinct eqb l1 = true /\ pairwise_distinct eqb l2 = true
  /\ forall x y, x ∈ l1 -> y ∈ l2 -> eqb x y = false.
Proof.
  induction l1 as [|a t IH]; simpl.
  - split; [intros H; repeat split; [exact H | intros x y Hx; inversion Hx] | tauto].
  - rewrite !andb_true_iff, forallb_app, andb_true_iff, IH. split.
    + intros ((H1 & H2) & H3 & H4 & H5). repeat split; try assumption.
      intros x y Hx Hy. apply elem_of_cons in Hx as [->|Hx]; [|apply H5; assumption].
      rewrite forallb_forall in H2. apply negb_true_iff, H2, list_elem_of_In, Hy.
    + intros ((H1 & H2) & H3 & H4). repeat split; try assumption.
      * apply forallb_forall. intros y Hy. apply negb_true_iff, H4; [left|].
        apply list_elem_of_In, Hy.
      * intros x y Hx Hy. apply H4; [right|]; assumption.
Qed.

Lemma pairwise_distinct_filter (P : A -> Prop) `{forall x, Decision (P x)} l :
  pairwise_distinct eqb l = true -> pairwise_distinct eqb (filter P l) = true.
Proof.
  induction l as [|a t IH]; simpl; [reflexivity|].
  rewrite andb_true_iff. intros [H1 H2]. rewrite filter_cons.
  destruct (decide (P a)); [|apply IH, H2]. simpl.
  rewrite andb_true_iff. split; [|apply IH, H2].
  rewrite forallb_forall in *. intros y Hy. apply H1.
  apply list_elem_of_In. apply list_elem_of_In in Hy.
  apply list_elem_of_filter in Hy. tauto.
Qed.

Lemma pairwise_distinct_map {B : Type} (eqb' : B -> B -> bool) (f : B -> A) l :
  (forall x y, x ∈ l -> y ∈ l -> eqb' x y = false -> eqb (f x) (f y) = false) ->
  pairwise_distinct eqb' l = true -> pairwise_distinct eqb (map f l) = true.
Proof.
  induction l as [|a t IH]; simpl; [reflexivity|].
  intros Hf. rewrite !andb_true_iff. intros [H1 H2]. split.
  - rewrite forallb_forall in *. intros y Hy.
    apply in_map_iff in Hy as (b & <- & Hb).
    apply negb_true_iff, Hf; [left | right; apply list_elem_of_In, Hb|].
    apply negb_true_iff, H1, Hb.
  - apply IH; [|exact H2]. intros x y Hx Hy. apply Hf; right; assumption.
Qed.

Lemma pairwise_distinct_Permutation l l' :
  (forall x y, eqb x y = eqb y x) ->
  l ≡ₚ l' -> pairwise_distinct eqb l = true -> pairwise_distinct eqb l' = true.
Proof.
  intros Hsym. induction 1 as [|x l l' Hp IH|x y l|l l' l'' _ IH1 _ IH2]; simpl.
  - reflexivity.
  - rewrite !andb_true_iff. intros [H1 H2]. split; [|apply IH, H2].
    rewrite forallb_forall in *. intros z Hz. apply H1.
    apply list_elem_of_In. rewrite Hp. apply list_elem_of_In, Hz.
  - rewrite !andb_true_iff. intros ((H1 & H2) & H3 & H4).
    rewrite (Hsym x y). rewrite H1. repeat split; assumption.
  - intros H. apply IH2, IH1, H.
Qed.

End Pairwise.

(** [unique] keeps every text of the column, and its values are distinct. *)
Lemma unique_keeps_text s vs : VStr s ∈ vs -> VStr s ∈ unique vs.
Proof.
  induction vs as [|v t IH]; intros H; [inversion H|]. simpl.
  apply elem_of_cons in H as [<-|H]; [left|].
  destruct (value_eqb v (VStr s)) eqn:E.
  - apply value_eqb_str in E. subst. left.
  - right. apply list_elem_of_filter. split; [exact E | apply IH, H].
Qed.

Lemma unique_distinct vs : pairwise_distinct value_eqb (unique vs) = true.
Proof.
  induction vs as [|v t IH]; simpl; [reflexivity|].
  rewrite andb_true_iff. split.
  - apply forallb_forall. intros w Hw. apply list_elem_of_In in Hw.
    apply list_elem_of_filter in Hw as [Hw _]. rewrite Hw. reflexivity.
  - apply pairwise_distinct_filter, IH.
Qed.

Lemma unique_subset v vs : v ∈ unique vs -> v ∈ vs.
Proof.
  revert v. induction vs as [|w t IH]; intros v H; [inversion H|]. simpl in H.
  apply elem_of_cons in H as [->|H]; [left|].
  right. apply IH. apply list_elem_of_filter in H. tauto.
Qed.

(** The (country, year) pairs the two functions enumerate. *)
Definition country_years (countries : list value) : list (value * Z) :=
  flat_map (fun country => map (pair country) years_1960_to_1989) countries.

Definition pair_eqb (a b : value * Z) : bool := value_eqb a.1 b.1 && Z.eqb a.2 b.2.

Lemma years_distinct : pairwise_distinct Z.eqb years_1960_to_1989 = true.
Proof. vm_compute. reflexivity. Qed.

Lemma country_years_distinct countries :
  pairwise_distinct value_eqb countries = true ->
  pairwise_distinct pair_eqb (country_years countries) = true.
Proof.
  induction countries as [|c t IH]; [reflexivity|].
  intros H.
  change (forallb (fun y => negb (value_eqb c y)) t && pairwise_distinct value_eqb t = true)
    in H.
  apply andb_true_iff in H as [H1 H2].
  change (country_years (c :: t))
    with (map (pair c) years_1960_to_1989 ++ country_years t).
  apply pairwise_distinct_app. repeat split.
  - apply (pairwise_distinct_map _ Z.eqb (pair c)); [|apply years_distinct].
    intros x y _ _ E. unfold pair_eqb. simpl. rewrite E. apply andb_false_r.
  - apply IH, H2.
  - intros x y Hx Hy. apply list_elem_of_fmap in Hx as (yr & -> & _).
    unfold country_years in Hy. apply list_elem_of_In, in_flat_map in Hy as (c' & Hc' & Hy).
    apply in_map_iff in Hy as (yr' & <- & _).
    unfold pair_eqb. simpl. rewrite forallb_forall in H1.
    specialize (H1 c' Hc'). apply negb_true_iff in H1. rewrite H1. reflexivity.
Qed.

Lemma Year_cell_eqb y1 y2 : value_eqb (Year_cell y1) (Year_cell y2) = Z.eqb y1 y2.
Proof.
  unfold Year_cell. cbn [value_eqb]. destruct (Z.eqb_spec y1 y2) as [->|Hne].
  - apply Qeq_bool_iff. reflexivity.
  - apply not_true_iff_false. intros H. apply Qeq_bool_iff in H.
    apply (proj1 (inject_Z_injective y1 y2)) in H. contradiction.
Qed.

(** Rows built from the enumerated pairs have distinct keys. *)
Lemma built_rows_distinct name_col countries (new_rows : list row) :
  pairwise_distinct value_eqb countries = true ->
  Forall2 (fun (cy : value * Z) r =>
             cell r name_col = cy.1 /\ cell r "Year" = Year_cell cy.2)
          (country_years countries) new_rows ->
  distinct_keys name_col new_rows = true.
Proof.
  intros Hd HF. unfold distinct_keys.
  assert (E : map (key_of name_col) new_rows
              = map (fun cy : value * Z => (cy.1, Year_cell cy.2)) (country_years countries)).
  { induction HF as [|cy r l k [H1 H2] _ IH]; simpl; [reflexivity|].
    rewrite IH. unfold key_of. rewrite H1, H2. reflexivity. }
  rewrite E. apply (pairwise_distinct_map _ pair_eqb); [|apply country_years_distinct, Hd].
  intros x y _ _. unfold pair_eqb, key_eqb. cbn [fst snd]. rewrite Year_cell_eqb. tauto.
Qed.

Lemma nan_row_lookup labels c : c ∈ labels -> cell (nan_row labels) c = VNaN.
Proof.
  intros H. unfold cell, nan_row.
  rewrite (elem_of_list_to_map_1' _ c VNaN); [reflexivity| |].
  - intros y Hy. apply list_elem_of_fmap in Hy as (c' & [= _ ->] & _). reflexivity.
  - apply list_elem_of_fmap. exists c. split; [reflexivity | exact H].
Qed.

(** *** main_pipeline.py *)

(** The dictionary [add_missing_years] builds for a country and a year. *)
Definition main_row (df : frame) (country : value) (year : Z) (code : value) : row :=
  <["Country_Code" := code]>
    (<["Year" := Year_cell year]>
       (<["Country" := country]>
          (nan_row (filter (fun c => c ∉ ["Country"; "Year"; "Country_Code"])
                           (columns df))))).

Lemma main_rows df out :
  MainPipeline.add_missing_years df = Ok out ->
  Forall2 (fun (cy : value * Z) r =>
             exists code, first_code df "Country" "Country_Code" cy.1 = Ok code
                          /\ r = main_row df cy.1 cy.2 code)
          (country_years (unique (column "Country" df))) (rows out).
Proof.
  unfold MainPipeline.add_missing_years.
  destruct (decide ("Country" ∈ columns df)); [|discriminate].
  destruct (mapM _ _) as [new_rows|] eqn:E; simpl; [|discriminate].
  intros [= <-]. simpl. apply mapM_Ok_Forall2 in E.
  eapply Forall2_impl; [exact E|]. intros cy r. simpl.
  destruct (decide ("Country_Code" ∈ columns df)); simpl; [|discriminate].
  destruct (first_code df "Country" "Country_Code" cy.1) as [code|]; simpl; [|discriminate].
  intros [= <-]. exists code. split; reflexivity.
Qed.

Lemma main_row_placeholder df name year code :
  first_code df "Country" "Country_Code" (VStr name) = Ok code ->
  placeholder_for df "Country" "Country_Code" name year
                  (main_row df (VStr name) year code).
Proof.
  intros Hc. unfold placeholder_for, main_row. repeat split.
  - rewrite !cell_insert_ne by discriminate. apply cell_insert_eq.
  - rewrite cell_insert_ne by discriminate. apply cell_insert_eq.
  - rewrite cell_insert_eq. exact Hc.
  - intros c Hin Hnot.
    rewrite !cell_insert_ne by (intros <-; apply Hnot; set_solver).
    apply nan_row_lookup, list_elem_of_filter. split; assumption.
Qed.

(** *** process_diabetes_alcohol.py *)

Lemma new_row_key labels base c :
  c ∈ ["Location"; "Year"; "Code"] ->
  foldl (fun (r : row) col => if decide (col ∉ ["Location"; "Year"; "Code"])
                              then <[col := VNaN]> r else r) base labels !! c
    = base !! c.
Proof.
  intros Hc. revert base. induction labels as [|l t IH]; intros base; simpl; [reflexivity|].
  rewrite IH. case_decide; [|reflexivity].
  apply lookup_insert_ne. intros ->. contradiction.
Qed.

Lemma new_row_kept labels (base : row) c :
  c ∉ ["Location"; "Year"; "Code"] -> base !! c = Some VNaN ->
  foldl (fun (r : row) col => if decide (col ∉ ["Location"; "Year"; "Code"])
                              then <[col := VNaN]> r else r) base labels !! c
    = Some VNaN.
Proof.
  intros Hc. revert base. induction labels as [|l t IH]; intros base Hb; simpl; [exact Hb|].
  apply IH. case_decide; [|exact Hb].
  destruct (decide (l = c)) as [->|Hne];
    [apply lookup_insert_eq | rewrite lookup_insert_ne by exact Hne; exact Hb].
Qed.

Lemma new_row_other labels (base : row) c :
  c ∉ ["Location"; "Year"; "Code"] -> c ∈ labels ->
  foldl (fun (r : row) col => if decide (col ∉ ["Location"; "Year"; "Code"])
                              then <[col := VNaN]> r else r) base labels !! c
    = Some VNaN.
Proof.
  intros Hc. revert base. induction labels as [|l t IH]; intros base Hin; [inversion Hin|].
  simpl. apply elem_of_cons in Hin as [<-|Hin]; [|apply IH, Hin].
  apply new_row_kept; [exact Hc|]. rewrite decide_True by exact Hc.
  apply lookup_insert_eq.
Qed.

Lemma da_new_rows df new_rows :
  ProcessDiabetesAlcohol.new_rows_for df = Ok new_rows ->
  Forall2 (fun (cy : value * Z) r =>
             exists code, first_code df "Location" "Code" cy.1 = Ok code
                          /\ r = ProcessDiabetesAlcohol.new_row (columns df) cy.1 cy.2 code)
          (country_years (unique (column "Location" df))) new_rows.
Proof.
  unfold ProcessDiabetesAlcohol.new_rows_for. intros E.
  apply mapM_Ok_Forall2 in E.
  eapply Forall2_impl; [exact E|]. intros cy r. simpl.
  destruct (decide ("Code" ∈ columns df)); simpl; [|discriminate].
  destruct (first_code df "Location" "Code" cy.1) as [code|]; simpl; [|discriminate].
  intros [= <-]. exists code. split; reflexivity.
Qed.

Lemma da_row_cells labels country year code :
  cell (ProcessDiabetesAlcohol.new_row labels country year code) "Location" = country
  /\ cell (ProcessDiabetesAlcohol.new_row labels country year code) "Year" = Year_cell year
  /\ cell (ProcessDiabetesAlcohol.new_row labels country year code) "Code" = code.
Proof.
  unfold cell, ProcessDiabetesAlcohol.new_row.
  rewrite !new_row_key by set_solver.
  rewrite !lookup_insert_ne by discriminate. rewrite !lookup_insert_eq.
  rewrite lookup_insert_ne by discriminate. rewrite lookup_insert_eq.
  repeat split.
Qed.

Lemma da_row_placeholder df name year code :
  first_code df "Location" "Code" (VStr name) = Ok code ->
  placeholder_for df "Location" "Code" name year
                  (ProcessDiabetesAlcohol.new_row (columns df) (VStr name) year code).
Proof.
  intros Hc. destruct (da_row_cells (columns df) (VStr name) year code) as (H1 & H2 & H3).
  unfold placeholder_for. rewrite H1, H2, H3. repeat split; try assumption.
  intros c Hin Hnot. unfold cell, ProcessDiabetesAlcohol.new_row.
  rewrite new_row_other; [reflexivity | exact Hnot | exact Hin].
Qed.

Lemma da_rows df out :
  ProcessDiabetesAlcohol._adding_missing_years df = Ok out ->
  exists new_rows,
    ProcessDiabetesAlcohol.new_rows_for df = Ok new_rows
    /\ rows out ≡ₚ rows df ++ new_rows.
Proof.
  unfold ProcessDiabetesAlcohol._adding_missing_years.
  destruct (decide ("Location" ∈ columns df)); [|discriminate].
  destruct (ProcessDiabetesAlcohol.new_rows_for df) as [new_rows|]; simpl; [|discriminate].
  unfold sort_values.
  destruct (decide (Forall _ _)); [|discriminate].
  destruct (forallb _ _); [|discriminate].
  intros [= <-]. exists new_rows. split; [reflexivity|].
  simpl. apply KnnFacts.stable_sort_Permutation.
Qed.

(** Every enumerated pair has its row in the list built from the pairs. *)
Lemma enumerated_pair_has_row {R : value * Z -> row -> Prop} countries new_rows name year :
  Forall2 R (country_years countries) new_rows ->
  VStr name ∈ countries -> year ∈ years_1960_to_1989 ->
  exists r, r ∈ new_rows /\ R (VStr name, year) r.
Proof.
  intros HF Hn Hy.
  assert (Hin : (VStr name, year) ∈ country_years countries).
  { unfold country_years. apply list_elem_of_In, in_flat_map.
    exists (VStr name). split; [apply list_elem_of_In, Hn|].
    apply in_map, list_elem_of_In, Hy. }
  apply list_elem_of_lookup in Hin as (i & Hi).
  destruct (Forall2_lookup_l _ _ _ _ _ HF Hi) as (r & Hr & HR).
  exists r. split; [apply list_elem_of_lookup; eauto | exact HR].
Qed.

Lemma enumerated_year countries (cy : value * Z) :
  cy ∈ country_years countries -> cy.1 ∈ countries /\ cy.2 ∈ years_1960_to_1989.
Proof.
  unfold country_years. intros H.
  apply list_elem_of_In, in_flat_map in H as (c & Hc & H).
  apply in_map_iff in H as (y & <- & Hy). split; apply list_elem_of_In; assumption.
Qed.

Lemma mapM_Ok_exists {A B : Type} (f : A -> result B) (l : list A) :
  (forall a, a ∈ l -> exists b, f a = Ok b) -> exists k, mapM f l = Ok k.
Proof.
  induction l as [|a t IH]; intros H; simpl; [eauto|].
  destruct (H a) as (b & ->); [left|].
  destruct IH as (k & ->); [intros a' Ha'; apply H; right; exact Ha'|].
  simpl. eauto.
Qed.

(** A country that names a row of the frame has a first code. *)
Lemma first_code_of_row df name_col code_col s r :
  r ∈ rows df -> cell r name_col = VStr s ->
  exists code, first_code df name_col code_col (VStr s) = Ok code.
Proof.
  intros Hr Hc. unfold first_code.
  destruct (filter _ (rows df)) as [|r' t] eqn:E; simpl; [|eauto].
  assert (H : r ∈ filter (fun r => value_cmp_eq (cell r name_col) (VStr s) = true) (rows df)).
  { apply list_elem_of_filter. split; [|exact Hr]. rewrite Hc. simpl. apply String.eqb_refl. }
  rewrite E in H. inversion H.
Qed.

Lemma unique_country_has_row df name_col country :
  (forall r, r ∈ rows df -> exists s, cell r name_col = VStr s) ->
  country ∈ unique (column name_col df) ->
  exists s r, country = VStr s /\ r ∈ rows df /\ cell r name_col = VStr s.
Proof.
  intros Htext Hc. apply unique_subset in Hc. unfold column in Hc.
  apply list_elem_of_fmap in Hc as (r & -> & Hr).
  destruct (Htext r Hr) as (s & Hs). exists s, r. auto.
Qed.

Lemma main_add_missing_years_returns df :
  "Country" ∈ columns df -> "Country_Code" ∈ columns df ->
  (forall r, r ∈ rows df -> exists s, cell r "Country" = VStr s) ->
  exists out, MainPipeline.add_missing_years df = Ok out.
Proof.
  intros Hc Hcc Htext. unfold MainPipeline.add_missing_years.
  rewrite decide_True by exact Hc.
  match goal with |- context [mapM ?f ?l] => destruct (mapM_Ok_exists f l) as (k & ->) end;
    [|simpl; eauto].
  intros cy Hcy. apply enumerated_year in Hcy as [Hcy _].
  destruct (unique_country_has_row _ _ _ Htext Hcy) as (s & r & E & Hr & Hs).
  rewrite decide_True by exact Hcc. rewrite E.
  destruct (first_code_of_row df "Country" "Country_Code" s r Hr Hs) as (code & ->).
  simpl. eauto.
Qed.

Lemma da_new_rows_returns df :
  "Code" ∈ columns df ->
  (forall r, r ∈ rows df -> exists s, cell r "Location" = VStr s) ->
  exists new_rows, ProcessDiabetesAlcohol.new_rows_for df = Ok new_rows.
Proof.
  intros Hcc Htext. unfold ProcessDiabetesAlcohol.new_rows_for.
  apply mapM_Ok_exists. intros cy Hcy. apply enumerated_year in Hcy as [Hcy _].
  destruct (unique_country_has_row _ _ _ Htext Hcy) as (s & r & E & Hr & Hs).
  rewrite decide_True by exact Hcc. rewrite E.
  destruct (first_code_of_row df "Location" "Code" s r Hr Hs) as (code & ->).
  simpl. eauto.
Qed.

Lemma da_adding_missing_years_returns df :
  "Location" ∈ columns df -> "Code" ∈ columns df -> "Year" ∈ columns df ->
  (forall r, r ∈ rows df ->
     (exists s, cell r "Location" = VStr s) /\ numeric_or_null (cell r "Year")) ->
  exists out, ProcessDiabetesAlcohol._adding_missing_years df = Ok out.
Proof.
  intros Hl Hc Hy Hrows. unfold ProcessDiabetesAlcohol._adding_missing_years.
  rewrite decide_True by exact Hl.
  destruct (da_new_rows_returns df Hc) as (new_rows & E);
    [intros r Hr; apply (Hrows r Hr)|].
  rewrite E. simpl. unfold sort_values.
  rewrite decide_True.
  2:{ unfold concat. simpl. repeat constructor; apply elem_of_app; left; assumption. }
  pose proof (da_new_rows _ _ E) as HF.
  assert (Hnew : forall n, n ∈ new_rows ->
            (exists s, cell n "Location" = VStr s) /\ numeric_or_null (cell n "Year")).
  { intros n Hn. apply list_elem_of_lookup in Hn as (i & Hi).
    destruct (Forall2_lookup_r _ _ _ _ _ HF Hi) as (cy & Hcy & code & _ & ->).
    destruct (da_row_cells (columns df) cy.1 cy.2 code) as (H1 & H2 & _).
    rewrite H1, H2. split; [|exact I].
    apply list_elem_of_lookup_2, enumerated_year in Hcy as [Hcy _].
    destruct (unique_country_has_row df "Location" cy.1) as (s & _ & -> & _);
      [intros r Hr; apply (Hrows r Hr) | exact Hcy | eauto]. }
  assert (Hall : forall r, r ∈ rows df ++ new_rows ->
            (exists s, cell r "Location" = VStr s) /\ numeric_or_null (cell r "Year")).
  { intros r Hr. apply elem_of_app in Hr as [Hr|Hr]; [apply Hrows | apply Hnew]; exact Hr. }
  match goal with |- context [if ?b then _ else _] => assert (Hhom : b = true) end.
  { cbn [forallb]. rewrite !andb_true_iff. unfold homogeneous, column, concat. cbn [rows].
    repeat split; apply orb_true_iff.
    - right. apply forallb_forall. intros v Hv.
      apply in_map_iff in Hv as (r & <- & Hr).
      destruct (Hall r) as [(s & ->) _]; [apply list_elem_of_In, Hr | reflexivity].
    - left. apply forallb_forall. intros v Hv.
      apply in_map_iff in Hv as (r & <- & Hr).
      destruct (Hall r) as [_ Hn]; [apply list_elem_of_In, Hr|].
      destruct (cell r "Year"); try contradiction; reflexivity. }
  rewrite Hhom. eauto.
Qed.

(** C8 (amended).  Both functions build, for every country name of the
    input frame and every year from 1960 to 1989, a placeholder row: it
    carries that name, that year, the code of the first input row of that
    country, and NaN in every other column of the input; no two placeholder
    rows have the same (country, year).
    - [add_missing_years] of main_pipeline.py returns the placeholder rows
      alone.
    - [_adding_missing_years] of process_diabetes_alcohol.py returns the
      input rows together with the placeholder rows, reordered; the result
      is free of repeated (country, year) pairs when the input is and has no
      row in the years 1960 to 1989. *)
Theorem add_missing_years_placeholders (df : frame) :
  (forall out,
     MainPipeline.add_missing_years df = Ok out ->
     (forall name year,
        VStr name ∈ column "Country" df -> year ∈ years_1960_to_1989 ->
        exists r, r ∈ rows out
                  /\ placeholder_for df "Country" "Country_Code" name year r)
     /\ distinct_keys "Country" (rows out) = true)
  /\ (forall out,
     ProcessDiabetesAlcohol._adding_missing_years df = Ok out ->
     (forall name year,
        VStr name ∈ column "Location" df -> year ∈ years_1960_to_1989 ->
        exists r, r ∈ rows out /\ placeholder_for df "Location" "Code" name year r)
     /\ exists new_rows,
          rows out ≡ₚ rows df ++ new_rows
          /\ distinct_keys "Location" new_rows = true
          /\ (distinct_keys "Location" (rows df) = true ->
              (forall r year, r ∈ rows df -> year ∈ years_1960_to_1989 ->
                 value_eqb (cell r "Year") (Year_cell year) = false) ->
              distinct_keys "Location" (rows out) = true)).
Proof.
  split.
  - intros out E. pose proof (main_rows _ _ E) as HF. split.
    + intros name year Hn Hy.
      destruct (enumerated_pair_has_row _ _ name year HF) as (r & Hr & code & Hc & ->);
        [apply unique_keeps_text, Hn | exact Hy|].
      exists (main_row df (VStr name) year code). split; [exact Hr|].
      apply main_row_placeholder, Hc.
    + apply (built_rows_distinct "Country" (unique (column "Country" df)));
        [apply unique_distinct|].
      eapply Forall2_impl; [exact HF|]. intros cy r (code & _ & ->).
      unfold main_row. split.
      * rewrite !cell_insert_ne by discriminate. apply cell_insert_eq.
      * rewrite cell_insert_ne by discriminate. apply cell_insert_eq.
  - intros out E. destruct (da_rows _ _ E) as (new_rows & En & Hperm).
    pose proof (da_new_rows _ _ En) as HF.
    assert (Hcells : Forall2 (fun (cy : value * Z) r =>
                                cell r "Location" = cy.1 /\ cell r "Year" = Year_cell cy.2)
                             (country_years (unique (column "Location" df))) new_rows).
    { eapply Forall2_impl; [exact HF|]. intros cy r (code & _ & ->).
      destruct (da_row_cells (columns df) cy.1 cy.2 code) as (H1 & H2 & _). auto. }
    pose proof (built_rows_distinct "Location" _ _ (unique_distinct _) Hcells) as Hnew.
    split.
    + intros name year Hn Hy.
      destruct (enumerated_pair_has_row _ _ name year HF) as (r & Hr & code & Hc & ->);
        [apply unique_keeps_text, Hn | exact Hy|].
      eexists. split; [|apply da_row_placeholder, Hc].
      rewrite Hperm. apply elem_of_app. right. exact Hr.
    + exists new_rows. repeat split; try assumption.
      intros Hold Hyears. unfold distinct_keys in *.
      apply (pairwise_distinct_Permutation key_eqb
               (map (key_of "Location") (rows df ++ new_rows)));
        [apply key_eqb_sym | apply Permutation_map; symmetry; exact Hperm |].
      rewrite map_app. apply pairwise_distinct_app. repeat split; try assumption.
      intros x y Hx Hy.
      apply list_elem_of_fmap in Hx as (r & -> & Hr).
      apply list_elem_of_fmap in Hy as (n & -> & Hn).
      apply list_elem_of_lookup in Hn as (i & Hi).
      destruct (Forall2_lookup_r _ _ _ _ _ Hcells Hi) as (cy & Hcy & _ & H2).
      apply list_elem_of_lookup_2, enumerated_year in Hcy as [_ Hcy].
      unfold key_eqb, key_of. cbn [fst snd]. rewrite H2, (Hyears r cy.2 Hr Hcy).
      apply andb_false_r.
Qed.

(** One country observed in 1990, and one observed in 1985. *)
Definition from_1990 : frame :=
  Frame ["Location"; "Code"; "Year"; "Prevalence"]
        [ {[ "Location" := VStr "Ghana"; "Code" := VStr "GHA";
             "Year" := VNum 1990; "Prevalence" := VNum 7 ]} ].

Definition from_1985 : frame :=
  Frame ["Location"; "Code"; "Year"; "Prevalence"]
        [ {[ "Location" := VStr "Ghana"; "Code" := VStr "GHA";
             "Year" := VNum 1985; "Prevalence" := VNum 7 ]} ].

Lemma add_missing_years_placeholders_witness :
  exists out,
    ProcessDiabetesAlcohol._adding_missing_years from_1990 = Ok out
    /\ length (rows out) = 31%nat
    /\ (forall name year,
          VStr name ∈ column "Location" from_1990 -> year ∈ years_1960_to_1989 ->
          exists r, r ∈ rows out
                    /\ placeholder_for from_1990 "Location" "Code" name year r).
Proof.
  destruct (da_adding_missing_years_returns from_1990) as (out & E).
  - unfold from_1990. simpl. set_solver.
  - unfold from_1990. simpl. set_solver.
  - unfold from_1990. simpl. set_solver.
  - intros r Hr. apply list_elem_of_In in Hr. simpl in Hr. destruct Hr as [<-|[]].
    split; [exists "Ghana"; reflexivity | exact I].
  - exists out. split; [exact E|].
    destruct (add_missing_years_placeholders from_1990) as [_ H].
    destruct (H out E) as [Hrows _]. split; [|exact Hrows].
    apply (f_equal (fun res => match res with
                               | Ok d => length (rows d)
                               | Raise _ => 0%nat
                               end)) in E.
    vm_compute in E. symmetry. exact E.
Defined.

(** C8 as stated fails: with an input row in 1985 the result of
    [_adding_missing_years] holds (Ghana, 1985) twice, once observed and once
    as a placeholder. *)
Lemma add_missing_years_counterexample :
  exists out,
    ProcessDiabetesAlcohol._adding_missing_years from_1985 = Ok out
    /\ distinct_keys "Location" (rows out) = false
    /\ length (filter (fun r => key_eqb (key_of "Location" r)
                                        (VStr "Ghana", Year_cell 1985) = true)
                      (rows out)) = 2%nat.
Proof.
  assert (H : match ProcessDiabetesAlcohol._adding_missing_years from_1985 with
              | Ok out =>
                  negb (distinct_keys "Location" (rows out))
                  && Nat.eqb (length (filter (fun r => key_eqb (key_of "Location" r)
                                                        (VStr "Ghana", Year_cell 1985) = true)
                                             (rows out))) 2
              | Raise _ => false
              end = true) by (vm_compute; reflexivity).
  destruct (ProcessDiabetesAlcohol._adding_missing_years from_1985) as [out|];
    [|discriminate].
  exists out. apply andb_true_iff in H as [H1 H2].
  split; [reflexivity|]. split; [apply negb_true_iff, H1 | apply Nat.eqb_eq, H2].
Qed.

End MissingYearsFacts.

(** ** C5: coverage of the outer joins *)

Module MergeFacts.

Import FrameFacts MissingYearsFacts.

(** The pieces of [merge_outer], named. *)
Definition rcols_of (right : frame) (on : list string) : list string :=
  filter (fun c => c ∉ on) (columns right).

Definition overlap_of (left right : frame) (on : list string) : list string :=
  filter (fun c => c ∈ rcols_of right on) (columns left).

Definition lren_of (left right : frame) (on : list string) : string -> string :=
  suffixed (overlap_of left right on) "_x".

Definition rren_of (left right : frame) (on : list string) : string -> string :=
  suffixed (overlap_of left right on) "_y".

Definition right_part (left right : frame) (on : list string) (r : row)
  : list (string * value) :=
  relabel (rren_of left right on) (fun c r => cell r c) (rcols_of right on) r.

Definition left_part (left right : frame) (on : list string) (l : row)
  : list (string * value) :=
  relabel (lren_of left right on) (fun c l => cell l c) (columns left) l.

(** A left row joined with a matching right row. *)
Definition joined (left right : frame) (on : list string) (l r : row) : row :=
  list_to_map (left_part left right on l ++ right_part left right on r).

(** A left row without partner. *)
Definition left_alone (left right : frame) (on : list string) (l : row) : row :=
  list_to_map (left_part left right on l
               ++ map (fun c => (rren_of left right on c, VNaN)) (rcols_of right on)).

(** A right row without partner. *)
Definition right_alone (left right : frame) (on : list string) (r : row) : row :=
  list_to_map
    (relabel (lren_of left right on)
             (fun c r => if decide (c ∈ on) then cell r c else VNaN) (columns left) r
     ++ right_part left right on r).

Definition from_left (left right : frame) (on : list string) (l : row) : list row :=
  match filter (fun r => keys_match on l r = true) (rows right) with
  | [] => [left_alone left right on l]
  | ms => map (joined left right on l) ms
  end.

Definition right_only (left right : frame) (on : list string) : list row :=
  filter (fun r => forallb (fun l => negb (keys_match on l r)) (rows left) = true)
         (rows right).

Lemma merge_outer_unfold left right on M :
  merge_outer left right on = Ok M ->
  Forall (fun k => k ∈ columns left /\ k ∈ columns right) on
  /\ NoDup (map (lren_of left right on) (columns left))
  /\ columns M = map (lren_of left right on) (columns left)
                 ++ map (rren_of left right on) (rcols_of right on)
  /\ rows M = flat_map (from_left left right on) (rows left)
              ++ map (right_alone left right on) (right_only left right on).
Proof.
  unfold merge_outer.
  destruct (decide (Forall _ on)) as [Hk|]; [|discriminate].
  destruct (decide (NoDup _ /\ NoDup _)) as [[Hl Hr]|]; [|discriminate].
  intros [= <-]. repeat split; assumption.
Qed.

Lemma key_not_renamed left right on suffix k :
  k ∈ on -> suffixed (overlap_of left right on) suffix k = k.
Proof.
  intros Hk. unfold suffixed. rewrite decide_False; [reflexivity|].
  unfold overlap_of, rcols_of. rewrite !list_elem_of_filter. tauto.
Qed.

(** The cell under a left label, in any row that starts with a left part. *)
Lemma left_label_lookup (f : string -> string) (g : string -> row -> value)
    (labels : list string) (r : row) (rest : list (string * value)) (c : string) :
  NoDup (map f labels) -> c ∈ labels ->
  cell (list_to_map (relabel f g labels r ++ rest)) (f c) = g c r.
Proof.
  intros Hnd Hc. unfold cell. rewrite list_to_map_app.
  erewrite lookup_union_Some_l; [reflexivity|].
  apply elem_of_list_to_map_1.
  - unfold relabel. rewrite <- list_fmap_compose. exact Hnd.
  - unfold relabel. apply list_elem_of_fmap. exists c. split; [reflexivity | exact Hc].
Qed.

Lemma forallb_false_elem {A : Type} (f : A -> bool) (l : list A) :
  forallb f l = false -> exists x, x ∈ l /\ f x = false.
Proof.
  induction l as [|a t IH]; simpl; [discriminate|].
  destruct (f a) eqn:E; simpl.
  - intros H. destruct (IH H) as (x & Hx & Hf). exists x. split; [right|]; assumption.
  - intros _. exists a. split; [left | exact E].
Qed.

Lemma map_pointwise_id {A : Type} (f : A -> A) (l : list A) :
  (forall a, f a = a) -> map f l = l.
Proof.
  intros H. induction l as [|a t IH]; simpl; [reflexivity|]. rewrite H, IH. reflexivity.
Qed.

Section OneMerge.

Context (left right M : frame) (on : list string).
Hypothesis HM : merge_outer left right on = Ok M.

Lemma from_left_nonempty l :
  exists m, m ∈ from_left left right on l
            /\ forall k, k ∈ on -> cell m k = cell l k.
Proof.
  destruct (merge_outer_unfold _ _ _ _ HM) as (Hk & Hnd & _ & _).
  assert (Hcell : forall rest k, k ∈ on ->
            cell (list_to_map (left_part left right on l ++ rest)) k = cell l k).
  { intros rest k Hin. rewrite Forall_forall in Hk. destruct (Hk k Hin) as [HkL _].
    rewrite <- (key_not_renamed left right on "_x" k Hin) at 1.
    apply (left_label_lookup _ (fun c l => cell l c)); assumption. }
  unfold from_left.
  destruct (filter _ (rows right)) as [|r0 ms].
  - eexists. split; [left|]. apply Hcell.
  - eexists. split; [left|]. apply Hcell.
Qed.

(** Every left row is in the result, with its own keys. *)
Lemma merge_covers_left l :
  l ∈ rows left ->
  exists m, m ∈ rows M /\ forall k, k ∈ on -> cell m k = cell l k.
Proof.
  intros Hl. destruct (merge_outer_unfold _ _ _ _ HM) as (_ & _ & _ & Hrows).
  destruct (from_left_nonempty l) as (m & Hm & Hkeys).
  exists m. split; [|exact Hkeys].
  rewrite Hrows. apply elem_of_app. left.
  apply list_elem_of_In, in_flat_map. exists l.
  split; apply list_elem_of_In; assumption.
Qed.

Lemma right_alone_keys r k :
  k ∈ on -> cell (right_alone left right on r) k = cell r k.
Proof.
  intros Hin. destruct (merge_outer_unfold _ _ _ _ HM) as (Hk & Hnd & _ & _).
  rewrite Forall_forall in Hk. destruct (Hk k Hin) as [HkL _].
  unfold right_alone.
  rewrite <- (key_not_renamed left right on "_x" k Hin) at 1.
  rewrite (left_label_lookup _ (fun c r => if decide (c ∈ on) then cell r c else VNaN))
    by assumption.
  rewrite decide_True by exact Hin. reflexivity.
Qed.

(** Every right row is in the result, with keys equal to its own. *)
Lemma merge_covers_right r :
  r ∈ rows right ->
  exists m, m ∈ rows M /\ forall k, k ∈ on -> value_eqb (cell m k) (cell r k) = true.
Proof.
  intros Hr. destruct (merge_outer_unfold _ _ _ _ HM) as (Hk & Hnd & _ & Hrows).
  destruct (forallb (fun l => negb (keys_match on l r)) (rows left)) eqn:E.
  - exists (right_alone left right on r). split.
    + rewrite Hrows. apply elem_of_app. right. apply list_elem_of_fmap.
      exists r. split; [reflexivity|]. apply list_elem_of_filter. split; assumption.
    + intros k Hin. rewrite (right_alone_keys r k Hin). apply value_eqb_refl.
  - apply forallb_false_elem in E as (l & Hl & E). apply negb_false_iff in E.
    exists (joined left right on l r). split.
    + rewrite Hrows. apply elem_of_app. left.
      apply list_elem_of_In, in_flat_map. exists l. split; [apply list_elem_of_In, Hl|].
      unfold from_left.
      assert (Hin : r ∈ filter (fun r => keys_match on l r = true) (rows right))
        by (apply list_elem_of_filter; split; assumption).
      destruct (filter _ (rows right)) as [|r0 ms]; [inversion Hin|].
      apply in_map, list_elem_of_In, Hin.
    + intros k Hin. unfold joined, left_part.
      rewrite Forall_forall in Hk. destruct (Hk k Hin) as [HkL _].
      rewrite <- (key_not_renamed left right on "_x" k Hin) at 1.
      rewrite (left_label_lookup _ (fun c l => cell l c)) by assumption.
      unfold keys_match in E. rewrite forallb_forall in E.
      apply E, list_elem_of_In, Hin.
Qed.

Lemma from_left_keys l m k :
  m ∈ from_left left right on l -> k ∈ on -> cell m k = cell l k.
Proof.
  intros Hm Hin. destruct (merge_outer_unfold _ _ _ _ HM) as (Hk & Hnd & _ & _).
  assert (Hcell : forall rest,
            cell (list_to_map (left_part left right on l ++ rest)) k = cell l k).
  { intros rest. rewrite Forall_forall in Hk. destruct (Hk k Hin) as [HkL _].
    rewrite <- (key_not_renamed left right on "_x" k Hin) at 1.
    apply (left_label_lookup _ (fun c l => cell l c)); assumption. }
  unfold from_left in Hm.
  destruct (filter _ (rows right)) as [|r0 ms].
  - apply list_elem_of_singleton in Hm as ->. apply Hcell.
  - apply list_elem_of_fmap in Hm as (r & -> & _). apply Hcell.
Qed.

(** The keys of every row of the result are the keys of an input row. *)
Lemma merge_keys_origin m :
  m ∈ rows M ->
  (exists l, l ∈ rows left /\ forall k, k ∈ on -> cell m k = cell l k)
  \/ (exists r, r ∈ rows right /\ forall k, k ∈ on -> cell m k = cell r k).
Proof.
  intros Hm. destruct (merge_outer_unfold _ _ _ _ HM) as (_ & _ & _ & Hrows).
  rewrite Hrows in Hm. apply elem_of_app in Hm as [Hm|Hm].
  - left. apply list_elem_of_In, in_flat_map in Hm as (l & Hl & Hm).
    exists l. split; [apply list_elem_of_In, Hl|].
    intros k Hin. apply from_left_keys; [apply list_elem_of_In, Hm | exact Hin].
  - right. apply list_elem_of_fmap in Hm as (r & -> & Hr).
    exists r. split; [|intros k Hin; apply right_alone_keys, Hin].
    unfold right_only in Hr. apply list_elem_of_filter in Hr. tauto.
Qed.

(** *** When the two frames share no column besides the keys *)

Hypothesis Hdisjoint : forall c, c ∈ columns left -> c ∈ columns right -> c ∈ on.

Lemma no_overlap : overlap_of left right on = [].
Proof.
  unfold overlap_of, rcols_of.
  destruct (filter _ (columns left)) as [|c t] eqn:E; [reflexivity|].
  assert (H : c ∈ filter (fun c => c ∈ filter (fun c => c ∉ on) (columns right))
                         (columns left)) by (rewrite E; left).
  apply list_elem_of_filter in H as [H Hl].
  apply list_elem_of_filter in H as [Hon Hr].
  exfalso. apply Hon, Hdisjoint; assumption.
Qed.

Lemma lren_id c : lren_of left right on c = c.
Proof.
  unfold lren_of, suffixed. rewrite no_overlap.
  rewrite decide_False; [reflexivity | apply not_elem_of_nil].
Qed.

Lemma rren_id c : rren_of left right on c = c.
Proof.
  unfold rren_of, suffixed. rewrite no_overlap.
  rewrite decide_False; [reflexivity | apply not_elem_of_nil].
Qed.

Lemma merged_columns : columns M = columns left ++ rcols_of right on.
Proof.
  destruct (merge_outer_unfold _ _ _ _ HM) as (_ & _ & -> & _).
  f_equal; apply map_pointwise_id; [apply lren_id | apply rren_id].
Qed.

Lemma left_cell (g : string -> row -> value) r rest c :
  c ∈ columns left ->
  cell (list_to_map (relabel (lren_of left right on) g (columns left) r ++ rest)) c
    = g c r.
Proof.
  intros Hc. destruct (merge_outer_unfold _ _ _ _ HM) as (_ & Hnd & _ & _).
  rewrite <- (lren_id c) at 1. apply left_label_lookup; assumption.
Qed.

Lemma right_cell (g : string -> value) (first : list (string * value)) c :
  c ∉ first.*1 -> c ∈ rcols_of right on ->
  cell (list_to_map
          (first ++ map (fun c => (rren_of left right on c, g c)) (rcols_of right on))) c
    = g c.
Proof.
  intros Hnot Hc. unfold cell. rewrite list_to_map_app.
  rewrite lookup_union_r by (apply not_elem_of_list_to_map_1, Hnot).
  rewrite (elem_of_list_to_map_1' _ c (g c)); [reflexivity| |].
  - intros y Hy. apply list_elem_of_fmap in Hy as (c' & [= E ->] & _).
    rewrite rren_id in E. subst. reflexivity.
  - apply list_elem_of_fmap. exists c. split; [|exact Hc].
    rewrite rren_id. reflexivity.
Qed.

Lemma left_part_labels (g : string -> row -> value) r :
  (relabel (lren_of left right on) g (columns left) r).*1 = columns left.
Proof.
  unfold relabel. rewrite <- list_fmap_compose.
  apply map_pointwise_id. intros c. apply lren_id.
Qed.

Lemma rcols_not_left c : c ∈ rcols_of right on -> c ∉ columns left.
Proof.
  unfold rcols_of. intros H Hl. apply list_elem_of_filter in H as [Hon Hr].
  apply Hon, Hdisjoint; assumption.
Qed.

(** A left row without partner: its own cells, and NaN elsewhere. *)
Lemma left_only_row l :
  l ∈ rows left ->
  (forall r, r ∈ rows right -> keys_match on l r = false) ->
  exists m, m ∈ rows M
            /\ (forall c, c ∈ columns left -> cell m c = cell l c)
            /\ (forall c, c ∈ columns M -> c ∉ columns left -> cell m c = VNaN).
Proof.
  intros Hl Hno. destruct (merge_outer_unfold _ _ _ _ HM) as (_ & _ & _ & Hrows).
  exists (left_alone left right on l). repeat split.
  - rewrite Hrows. apply elem_of_app. left.
    apply list_elem_of_In, in_flat_map. exists l. split; [apply list_elem_of_In, Hl|].
    unfold from_left. destruct (filter _ (rows right)) as [|r0 ms] eqn:E; [left; reflexivity|].
    assert (H : r0 ∈ filter (fun r => keys_match on l r = true) (rows right))
      by (rewrite E; left).
    apply list_elem_of_filter in H as [H Hr]. rewrite (Hno r0 Hr) in H. discriminate.
  - intros c Hc. unfold left_alone, left_part. apply (left_cell (fun c l => cell l c)), Hc.
  - intros c Hc Hnot. rewrite merged_columns in Hc.
    apply elem_of_app in Hc as [Hc|Hc]; [contradiction|].
    unfold left_alone, left_part.
    apply (right_cell (fun _ => VNaN)); [|exact Hc].
    rewrite left_part_labels. exact Hnot.
Qed.

(** A right row without partner: its own cells, and NaN elsewhere. *)
Lemma right_only_row r :
  r ∈ rows right ->
  (forall l, l ∈ rows left -> keys_match on l r = false) ->
  exists m, m ∈ rows M
            /\ (forall c, c ∈ columns right -> cell m c = cell r c)
            /\ (forall c, c ∈ columns M -> c ∉ columns right -> cell m c = VNaN).
Proof.
  intros Hr Hno.
  destruct (merge_outer_unfold _ _ _ _ HM) as (Hk & _ & _ & Hrows).
  exists (right_alone left right on r). repeat split.
  - rewrite Hrows. apply elem_of_app. right. apply list_elem_of_fmap.
    exists r. split; [reflexivity|]. apply list_elem_of_filter. split; [|exact Hr].
    apply forallb_forall. intros l Hl. rewrite (Hno l); [reflexivity|].
    apply list_elem_of_In, Hl.
  - intros c Hc. destruct (decide (c ∈ on)) as [Hon|Hon].
    + apply right_alone_keys, Hon.
    + assert (Hrc : c ∈ rcols_of right on) by (apply list_elem_of_filter; auto).
      unfold right_alone, right_part, relabel at 2.
      apply (right_cell (fun c => cell r c)); [|exact Hrc].
      rewrite left_part_labels. apply rcols_not_left, Hrc.
  - intros c Hc Hnot. rewrite merged_columns in Hc.
    apply elem_of_app in Hc as [Hc|Hc].
    + unfold right_alone.
      rewrite (left_cell (fun c r => if decide (c ∈ on) then cell r c else VNaN)) by exact Hc.
      rewrite decide_False; [reflexivity|].
      intros Hon. rewrite Forall_forall in Hk. apply Hnot, (Hk c Hon).
    + exfalso. apply Hnot. unfold rcols_of in Hc. apply list_elem_of_filter in Hc. tauto.
Qed.

End OneMerge.

(** *** The three merges of main_pipeline.py *)

Import MainPipeline.

(** The (Country_Code, Year) pair of a row. *)
Definition code_year (r : row) : value * value :=
  (cell r "Country_Code", cell r "Year").

(** The pair of [r] is the pair of some row of [M]. *)
Definition covered (M : frame) (r : row) : Prop :=
  exists m, m ∈ rows M /\ key_eqb (code_year m) (code_year r) = true.

(** No row of [f] has the country code of [r]. *)
Definition absent_from (f : frame) (r : row) : Prop :=
  forall r', r' ∈ rows f ->
    value_eqb (cell r' "Country_Code") (cell r "Country_Code") = false.

(** [merged] has a row that carries the cells of [r] under the labels of
    [src] and NaN under every other label. *)
Definition carried_alone (src merged : frame) (r : row) : Prop :=
  exists m, m ∈ rows merged
            /\ (forall c, c ∈ columns src -> cell m c = cell r c)
            /\ (forall c, c ∈ columns merged -> c ∉ columns src -> cell m c = VNaN).

(** The four frames share no column besides the keys they are joined on. *)
Definition shared_keys_only (cleaned : sources) : Prop :=
  (forall c, c ∈ columns (heart_disease_df cleaned) ->
             c ∈ columns (diabetes_alcohol_df cleaned) ->
             c ∈ ["Country_Code"; "Country"; "Year"; "Gender"])
  /\ (forall c, c ∈ columns (heart_disease_df cleaned)
                \/ c ∈ columns (diabetes_alcohol_df cleaned) ->
                c ∈ columns (gdp_obesity_physical_df cleaned) ->
                c ∈ ["Country_Code"; "Country"; "Year"])
  /\ (forall c, c ∈ columns (heart_disease_df cleaned)
                \/ c ∈ columns (diabetes_alcohol_df cleaned)
                \/ c ∈ columns (gdp_obesity_physical_df cleaned) ->
                c ∈ columns (weight_health_exp_df cleaned) ->
                c ∈ ["Country_Code"; "Country"; "Year"]).

Lemma covered_left L R on M l :
  merge_outer L R on = Ok M -> "Country_Code" ∈ on -> "Year" ∈ on ->
  l ∈ rows L -> covered M l.
Proof.
  intros HM Hc Hy Hl. destruct (merge_covers_left _ _ _ _ HM l Hl) as (m & Hm & Hk).
  exists m. split; [exact Hm|]. unfold key_eqb, code_year. cbn [fst snd].
  rewrite (Hk _ Hc), (Hk _ Hy), !value_eqb_refl. reflexivity.
Qed.

Lemma covered_right L R on M r :
  merge_outer L R on = Ok M -> "Country_Code" ∈ on -> "Year" ∈ on ->
  r ∈ rows R -> covered M r.
Proof.
  intros HM Hc Hy Hr. destruct (merge_covers_right _ _ _ _ HM r Hr) as (m & Hm & Hk).
  exists m. split; [exact Hm|]. unfold key_eqb, code_year. cbn [fst snd].
  rewrite (Hk _ Hc), (Hk _ Hy). reflexivity.
Qed.

Lemma covered_trans L M r :
  covered L r -> (forall l, l ∈ rows L -> covered M l) -> covered M r.
Proof.
  intros (l & Hl & E) H. destruct (H l Hl) as (m & Hm & E').
  exists m. split; [exact Hm|]. unfold key_eqb in *.
  apply andb_true_iff in E as [E1 E2]. apply andb_true_iff in E' as [E1' E2'].
  apply andb_true_iff. split; eapply value_eqb_trans; eassumption.
Qed.

Lemma keys_match_false on l r k :
  k ∈ on -> value_eqb (cell l k) (cell r k) = false -> keys_match on l r = false.
Proof.
  intros Hk E. unfold keys_match. apply not_true_iff_false. intros H.
  rewrite forallb_forall in H. rewrite (H k) in E; [discriminate|].
  apply list_elem_of_In, Hk.
Qed.

(** A row carried alone stays so through a merge with a frame that does not
    have its country. *)
Lemma carried_alone_left src L R on M r :
  merge_outer L R on = Ok M ->
  (forall c, c ∈ columns L -> c ∈ columns R -> c ∈ on) ->
  "Country_Code" ∈ on -> "Country_Code" ∈ columns src ->
  (forall c, c ∈ columns src -> c ∈ columns L) ->
  carried_alone src L r -> absent_from R r -> carried_alone src M r.
Proof.
  intros HM Hd Hon Hsrc Hsub (l & Hl & Hown & Hnan) Habs.
  destruct (left_only_row _ _ _ _ HM Hd l Hl) as (m & Hm & Hleft & Hrest).
  { intros r' Hr'. apply (keys_match_false on l r' "Country_Code" Hon).
    rewrite (Hown _ Hsrc), value_eqb_sym. apply Habs, Hr'. }
  exists m. repeat split; [exact Hm | |].
  - intros c Hc. rewrite (Hleft c (Hsub c Hc)). apply Hown, Hc.
  - intros c Hc Hnot. destruct (decide (c ∈ columns L)) as [HcL|HcL].
    + rewrite (Hleft c HcL). apply Hnan; assumption.
    + apply Hrest; assumption.
Qed.

Lemma carried_alone_start L r : r ∈ rows L -> carried_alone L L r.
Proof. intros Hr. exists r. repeat split; [exact Hr|]. intros c Hc Hn. contradiction. Qed.

Lemma carried_alone_right L R on M r :
  merge_outer L R on = Ok M ->
  (forall c, c ∈ columns L -> c ∈ columns R -> c ∈ on) ->
  "Country_Code" ∈ on ->
  r ∈ rows R ->
  (forall l, l ∈ rows L ->
     value_eqb (cell l "Country_Code") (cell r "Country_Code") = false) ->
  carried_alone R M r.
Proof.
  intros HM Hd Hon Hr Habs.
  apply (right_only_row _ _ _ _ HM Hd r Hr).
  intros l Hl. apply (keys_match_false on l r "Country_Code" Hon), Habs, Hl.
Qed.

(** The country code of a merged row is the code of an input row. *)
Lemma code_origin L R on M m :
  merge_outer L R on = Ok M -> "Country_Code" ∈ on -> m ∈ rows M ->
  exists r, (r ∈ rows L \/ r ∈ rows R) /\ cell m "Country_Code" = cell r "Country_Code".
Proof.
  intros HM Hon Hm.
  destruct (merge_keys_origin _ _ _ _ HM m Hm) as [(l & Hl & Hk)|(r & Hr & Hk)];
    eexists; (split; [|apply Hk, Hon]); auto.
Qed.

Lemma merge_columns_from L R on M c :
  merge_outer L R on = Ok M ->
  (forall c, c ∈ columns L -> c ∈ columns R -> c ∈ on) ->
  c ∈ columns M <-> c ∈ columns L \/ c ∈ columns R.
Proof.
  intros HM Hd. rewrite (merged_columns _ _ _ _ HM Hd), elem_of_app.
  destruct (merge_outer_unfold _ _ _ _ HM) as (Hk & _).
  unfold rcols_of. rewrite list_elem_of_filter. split; [tauto|].
  intros [H|H]; [tauto|]. destruct (decide (c ∈ on)) as [Hon|Hon]; [|tauto].
  left. rewrite Forall_forall in Hk. apply (Hk c Hon).
Qed.

(** A merge of two frames with distinct labels that share no column besides
    the keys, and both have the keys, returns a frame with distinct labels. *)
Lemma merge_outer_returns L R on :
  Forall (fun k => k ∈ columns L /\ k ∈ columns R) on ->
  NoDup (columns L) -> NoDup (columns R) ->
  (forall c, c ∈ columns L -> c ∈ columns R -> c ∈ on) ->
  exists M, merge_outer L R on = Ok M
            /\ NoDup (columns M)
            /\ (forall c, c ∈ columns M <-> c ∈ columns L \/ c ∈ columns R).
Proof.
  intros Hk HL HR Hd.
  assert (El : map (lren_of L R on) (columns L) = columns L)
    by (apply map_pointwise_id, lren_id, Hd).
  assert (Er : map (rren_of L R on) (rcols_of R on) = rcols_of R on)
    by (apply map_pointwise_id, rren_id, Hd).
  assert (Hnr : NoDup (rcols_of R on)) by (apply NoDup_filter, HR).
  destruct (merge_outer L R on) as [M|e] eqn:E.
  - exists M. split; [reflexivity|].
    pose proof (fun c => merge_columns_from _ _ _ _ c E Hd) as Hc.
    split; [|exact Hc].
    rewrite (merged_columns _ _ _ _ E Hd). apply NoDup_app. repeat split; try assumption.
    intros c Hl Hr. apply (rcols_not_left _ _ _ Hd c Hr Hl).
  - exfalso. revert E. unfold merge_outer.
    rewrite decide_True by exact Hk.
    fold (rcols_of R on). fold (overlap_of L R on).
    fold (lren_of L R on). fold (rren_of L R on).
    rewrite decide_True; [discriminate|]. rewrite El, Er. split; assumption.
Qed.

(** The three merges succeed on frames with distinct labels that have the
    join keys and share no other column. *)
Lemma merged_df_returns (cleaned : sources) :
  shared_keys_only cleaned ->
  Forall (fun f => NoDup (columns f)
                   /\ Forall (fun k => k ∈ columns f) ["Country_Code"; "Country"; "Year"])
         [heart_disease_df cleaned; diabetes_alcohol_df cleaned;
          gdp_obesity_physical_df cleaned; weight_health_exp_df cleaned] ->
  "Gender" ∈ columns (heart_disease_df cleaned) ->
  "Gender" ∈ columns (diabetes_alcohol_df cleaned) ->
  exists merged, merged_df cleaned = Ok merged.
Proof.
  destruct cleaned as [w d g h]. unfold shared_keys_only.
  cbn [heart_disease_df diabetes_alcohol_df gdp_obesity_physical_df weight_health_exp_df].
  intros (D1 & D2 & D3) Hall Gh Gd.
  apply Forall_cons in Hall as [[Nh Kh] Hall].
  apply Forall_cons in Hall as [[Nd Kd] Hall].
  apply Forall_cons in Hall as [[Ng Kg] Hall].
  apply Forall_cons in Hall as [[Nw Kw] _].
  rewrite Forall_forall in Kh, Kd, Kg, Kw.
  unfold merged_df.
  cbn [heart_disease_df diabetes_alcohol_df gdp_obesity_physical_df weight_health_exp_df].
  destruct (merge_outer_returns h d ["Country_Code"; "Country"; "Year"; "Gender"])
    as (m1 & -> & N1 & C1); try assumption.
  { apply Forall_forall. intros k Hk.
    apply elem_of_cons in Hk as [->|Hk]; [split; [apply Kh | apply Kd]; set_solver|].
    apply elem_of_cons in Hk as [->|Hk]; [split; [apply Kh | apply Kd]; set_solver|].
    apply elem_of_cons in Hk as [->|Hk]; [split; [apply Kh | apply Kd]; set_solver|].
    apply list_elem_of_singleton in Hk as ->. split; assumption. }
  cbn [mbind result_bind].
  destruct (merge_outer_returns m1 g ["Country_Code"; "Country"; "Year"])
    as (m2 & -> & N2 & C2); try assumption.
  { apply Forall_forall. intros k Hk. split; [apply C1; left; apply Kh | apply Kg]; exact Hk. }
  { intros c Hc. apply D2, C1, Hc. }
  cbn [mbind result_bind].
  destruct (merge_outer_returns m2 w ["Country_Code"; "Country"; "Year"])
    as (m3 & -> & _); try assumption.
  { apply Forall_forall. intros k Hk.
    split; [apply C2; left; apply C1; left; apply Kh | apply Kw]; exact Hk. }
  { intros c Hc. apply D3. apply C2 in Hc as [Hc|Hc]; [apply C1 in Hc|]; tauto. }
  eauto.
Qed.

(** C5.  When the three merges of main_pipeline.py succeed, every
    (Country_Code, Year) pair of a row of any of the four cleaned frames is
    the pair of a row of the merged frame.  In particular, when the frames
    share no column besides the join keys, a row of one frame whose country
    code occurs in none of the other three is carried into the merged frame
    with its own cells and NaN under every label of the other frames. *)
Theorem merged_df_coverage (cleaned : sources) (merged : frame) :
  merged_df cleaned = Ok merged ->
  (forall r,
     r ∈ rows (heart_disease_df cleaned) \/ r ∈ rows (diabetes_alcohol_df cleaned)
     \/ r ∈ rows (gdp_obesity_physical_df cleaned)
     \/ r ∈ rows (weight_health_exp_df cleaned) ->
     covered merged r)
  /\ (shared_keys_only cleaned ->
      (forall r, r ∈ rows (heart_disease_df cleaned) ->
         absent_from (diabetes_alcohol_df cleaned) r ->
         absent_from (gdp_obesity_physical_df cleaned) r ->
         absent_from (weight_health_exp_df cleaned) r ->
         carried_alone (heart_disease_df cleaned) merged r)
      /\ (forall r, r ∈ rows (diabetes_alcohol_df cleaned) ->
         absent_from (heart_disease_df cleaned) r ->
         absent_from (gdp_obesity_physical_df cleaned) r ->
         absent_from (weight_health_exp_df cleaned) r ->
         carried_alone (diabetes_alcohol_df cleaned) merged r)
      /\ (forall r, r ∈ rows (gdp_obesity_physical_df cleaned) ->
         absent_from (heart_disease_df cleaned) r ->
         absent_from (diabetes_alcohol_df cleaned) r ->
         absent_from (weight_health_exp_df cleaned) r ->
         carried_alone (gdp_obesity_physical_df cleaned) merged r)
      /\ (forall r, r ∈ rows (weight_health_exp_df cleaned) ->
         absent_from (heart_disease_df cleaned) r ->
         absent_from (diabetes_alcohol_df cleaned) r ->
         absent_from (gdp_obesity_physical_df cleaned) r ->
         carried_alone (weight_health_exp_df cleaned) merged r)).
Proof.
  destruct cleaned as [w d g h]. unfold merged_df. cbn [heart_disease_df
    diabetes_alcohol_df gdp_obesity_physical_df weight_health_exp_df].
  destruct (merge_outer h d _) as [m1|] eqn:E1; simpl; [|discriminate].
  destruct (merge_outer m1 g _) as [m2|] eqn:E2; simpl; [|discriminate].
  intros E3.
  assert (C1 : "Country_Code" ∈ ["Country_Code"; "Country"; "Year"; "Gender"])
    by (apply list_elem_of_In; simpl; tauto).
  assert (Y1 : "Year" ∈ ["Country_Code"; "Country"; "Year"; "Gender"])
    by (apply list_elem_of_In; simpl; tauto).
  assert (C2 : "Country_Code" ∈ ["Country_Code"; "Country"; "Year"])
    by (apply list_elem_of_In; simpl; tauto).
  assert (Y2 : "Year" ∈ ["Country_Code"; "Country"; "Year"])
    by (apply list_elem_of_In; simpl; tauto).
  assert (S12 : forall l, l ∈ rows m1 -> covered m2 l)
    by (intros l; apply (covered_left _ _ _ _ _ E2 C2 Y2)).
  assert (S23 : forall l, l ∈ rows m2 -> covered merged l)
    by (intros l; apply (covered_left _ _ _ _ _ E3 C2 Y2)).
  split.
  - intros r [Hr|[Hr|[Hr|Hr]]].
    + eapply covered_trans; [|exact S23]. eapply covered_trans; [|exact S12].
      apply (covered_left _ _ _ _ _ E1 C1 Y1 Hr).
    + eapply covered_trans; [|exact S23]. eapply covered_trans; [|exact S12].
      apply (covered_right _ _ _ _ _ E1 C1 Y1 Hr).
    + eapply covered_trans; [|exact S23].
      apply (covered_right _ _ _ _ _ E2 C2 Y2 Hr).
    + apply (covered_right _ _ _ _ _ E3 C2 Y2 Hr).
  - intros (D1 & D2 & D3). cbn [heart_disease_df diabetes_alcohol_df
      gdp_obesity_physical_df weight_health_exp_df] in D1, D2, D3.
    pose proof (fun c => merge_columns_from _ _ _ _ c E1 D1) as Cols1.
    assert (D2' : forall c, c ∈ columns m1 -> c ∈ columns g ->
                            c ∈ ["Country_Code"; "Country"; "Year"]).
    { intros c Hc. apply D2, Cols1, Hc. }
    pose proof (fun c => merge_columns_from _ _ _ _ c E2 D2') as Cols2.
    assert (D3' : forall c, c ∈ columns m2 -> c ∈ columns w ->
                            c ∈ ["Country_Code"; "Country"; "Year"]).
    { intros c Hc. apply D3. apply Cols2 in Hc as [Hc|Hc]; [apply Cols1 in Hc|]; tauto. }
    destruct (merge_outer_unfold _ _ _ _ E1) as (K1 & _).
    destruct (merge_outer_unfold _ _ _ _ E2) as (K2 & _).
    destruct (merge_outer_unfold _ _ _ _ E3) as (K3 & _).
    rewrite Forall_forall in K1, K2, K3.
    destruct (K1 _ C1) as [Ch Cd]. destruct (K2 _ C2) as [_ Cg].
    destruct (K3 _ C2) as [_ Cw].
    assert (O1 : forall m r, m ∈ rows m1 -> absent_from h r -> absent_from d r ->
                   value_eqb (cell m "Country_Code") (cell r "Country_Code") = false).
    { intros m r Hm Ah Ad. destruct (code_origin _ _ _ _ m E1 C1 Hm) as (r0 & [H0|H0] & ->);
        [apply Ah | apply Ad]; exact H0. }
    assert (O2 : forall m r, m ∈ rows m2 -> absent_from h r -> absent_from d r ->
                   absent_from g r ->
                   value_eqb (cell m "Country_Code") (cell r "Country_Code") = false).
    { intros m r Hm Ah Ad Ag. destruct (code_origin _ _ _ _ m E2 C2 Hm) as (r0 & [H0|H0] & ->);
        [apply O1 | apply Ag]; assumption. }
    repeat split.
    + intros r Hr Ad Ag Aw.
      apply (carried_alone_left h _ _ _ _ r E3 D3' C2 Ch);
        [intros c Hc; apply Cols2; left; apply Cols1; tauto | | exact Aw].
      apply (carried_alone_left h _ _ _ _ r E2 D2' C2 Ch);
        [intros c Hc; apply Cols1; tauto | | exact Ag].
      apply (carried_alone_left h _ _ _ _ r E1 D1 C1 Ch); [tauto | | exact Ad].
      apply carried_alone_start, Hr.
    + intros r Hr Ah Ag Aw.
      apply (carried_alone_left d _ _ _ _ r E3 D3' C2 Cd);
        [intros c Hc; apply Cols2; left; apply Cols1; tauto | | exact Aw].
      apply (carried_alone_left d _ _ _ _ r E2 D2' C2 Cd);
        [intros c Hc; apply Cols1; tauto | | exact Ag].
      apply (carried_alone_right _ _ _ _ r E1 D1 C1 Hr). exact Ah.
    + intros r Hr Ah Ad Aw.
      apply (carried_alone_left g _ _ _ _ r E3 D3' C2 Cg);
        [intros c Hc; apply Cols2; tauto | | exact Aw].
      apply (carried_alone_right _ _ _ _ r E2 D2' C2 Hr).
      intros l Hl. apply O1; assumption.
    + intros r Hr Ah Ad Ag.
      apply (carried_alone_right _ _ _ _ r E3 D3' C2 Hr).
      intros l Hl. apply O2; assumption.
Qed.

(** Four small cleaned frames: the United States in the disease, GDP and
    health frames, Ghana in the diabetes frame only. *)
Definition ghana_row : row :=
  {[ "Country" := VStr "Ghana"; "Country_Code" := VStr "GHA"; "Gender" := VStr "Male";
     "Year" := VNum 2000; "Diabetes_Prevalence_Rate" := VNum 7;
     "Alcohol_Value" := VNum 2 ]}.

Definition example_cleaned : sources :=
  Sources
    (Frame ["Country_Code"; "Country"; "Year"; "Health_Expenditure (% of GDP)";
            "Life_Expectancy"]
           [ {[ "Country_Code" := VStr "USA"; "Country" := VStr "United States";
                "Year" := VNum 2000; "Health_Expenditure (% of GDP)" := VNum 13;
                "Life_Expectancy" := VNum 77 ]} ])
    (Frame ["Country"; "Country_Code"; "Gender"; "Year"; "Diabetes_Prevalence_Rate";
            "Alcohol_Value"]
           [ ghana_row ])
    (Frame ["Country"; "Country_Code"; "Year"; "Activity_Prevalence_Rate";
            "Obesity_Prevalence_Rate"; "GDP"]
           [ {[ "Country" := VStr "United States"; "Country_Code" := VStr "USA";
                "Year" := VNum 2000; "Activity_Prevalence_Rate" := VNum 30;
                "Obesity_Prevalence_Rate" := VNum 31; "GDP" := VNum (-100) ]} ])
    (Frame ["Country"; "Gender"; "Year"; "Age_Group"; "IncidenceRate"; "MortalityRate";
            "PrevalenceRate"; "Country_Code"]
           [ {[ "Country" := VStr "United States"; "Gender" := VStr "Male";
                "Year" := VNum 2000; "Age_Group" := VNum 1; "IncidenceRate" := VNum 5;
                "MortalityRate" := VNum 3; "PrevalenceRate" := VNum 4;
                "Country_Code" := VStr "USA" ]} ]).

Lemma example_shared_keys_only : shared_keys_only example_cleaned.
Proof.
  unfold shared_keys_only, example_cleaned. simpl.
  repeat split; intros c; rewrite !elem_of_cons, !elem_of_nil;
    intros H1 H2; intuition (subst; try discriminate; tauto).
Qed.

Lemma merged_df_coverage_witness :
  exists merged,
    merged_df example_cleaned = Ok merged
    /\ length (rows merged) = 2%nat
    /\ covered merged ghana_row
    /\ carried_alone (diabetes_alcohol_df example_cleaned) merged ghana_row.
Proof.
  destruct (merged_df example_cleaned) as [merged|] eqn:E;
    [|exfalso; revert E; vm_compute; discriminate].
  exists merged. split; [reflexivity|].
  destruct (merged_df_coverage example_cleaned merged E) as [Hcov Halone].
  split.
  { apply (f_equal (fun res => match res with
                               | Ok d => length (rows d)
                               | Raise _ => 0%nat
                               end)) in E.
    vm_compute in E. symmetry. exact E. }
  split.
  - apply Hcov. right. left. apply list_elem_of_singleton. reflexivity.
  - destruct (Halone example_shared_keys_only) as (_ & Hd & _).
    apply Hd.
    + apply list_elem_of_singleton. reflexivity.
    + intros r' Hr'. apply list_elem_of_singleton in Hr' as ->. reflexivity.
    + intros r' Hr'. apply list_elem_of_singleton in Hr' as ->. reflexivity.
    + intros r' Hr'. apply list_elem_of_singleton in Hr' as ->. reflexivity.
Defined.

End MergeFacts.

(** ** C6: negative GDP values in the pipeline *)

Module PipelineFacts.

Import FrameFacts MainPipeline.

(** A cell that holds a number below zero. *)
Definition negative (v : value) : Prop :=
  match v with
  | VNum q => (q < 0)%Q
  | _ => False
  end.

(** Every cell that is not null in [r] has the same content in [r']. *)
Definition keeps_known (r r' : row) : Prop :=
  forall c, notnull (cell r c) = true -> cell r' c = cell r c.

Lemma Qltb_lt (a b : Q) : Qltb a b = true <-> (a < b)%Q.
Proof.
  unfold Qltb. rewrite negb_true_iff. split.
  - intros H. apply Qnot_le_lt. intros Hle. apply Qle_bool_iff in Hle. congruence.
  - intros H. apply not_true_iff_false. intros Hle. apply Qle_bool_iff in Hle.
    apply (Qlt_not_le _ _ H Hle).
Qed.

Lemma Forall2_compose {A : Type} (P : A -> A -> Prop) (l1 l2 l3 : list A) :
  (forall a b c, P a b -> P b c -> P a c) ->
  Forall2 P l1 l2 -> Forall2 P l2 l3 -> Forall2 P l1 l3.
Proof.
  intros Ht H12. revert l3. induction H12 as [|a b l1 l2 Hab _ IH]; intros l3 H23.
  - inversion H23. constructor.
  - inversion H23 as [|b' c l2' l3' Hbc H23']; subst. constructor; eauto.
Qed.

Lemma keeps_known_trans a b c : keeps_known a b -> keeps_known b c -> keeps_known a c.
Proof.
  intros Hab Hbc col Hn. rewrite <- (Hab col Hn). apply Hbc.
  rewrite (Hab col Hn). exact Hn.
Qed.

Section Facts.

Variable knn_estimate : nat -> list (list value) -> nat -> nat -> Q.

(** One imputation keeps every known cell of the frame. *)
Lemma impute_with_knn_keeps_known df target_col n df' :
  impute_with_knn knn_estimate df target_col n = Ok df' ->
  Forall2 keeps_known (rows df) (rows df').
Proof.
  intros E. destruct (KnnFacts.impute_with_knn_shape _ _ _ _ _ E) as [_ Hlen].
  apply Forall2_same_length_lookup_2; [symmetry; exact Hlen|].
  intros i r r' Hr Hr'.
  destruct (KnnFacts.impute_with_knn_row _ _ _ _ _ _ _ E Hr) as (q & Hq & Hk).
  rewrite Hq in Hr'. injection Hr' as <-. intros c Hn.
  destruct (decide (target_col = c)) as [<-|Hne].
  - rewrite cell_insert_eq. symmetry. apply Hk, Hn.
  - apply cell_insert_ne, Hne.
Qed.

(** So does the whole loop. *)
Lemma impute_columns_keeps_known cols : forall df df',
  impute_columns knn_estimate cols df = Ok df' ->
  Forall2 keeps_known (rows df) (rows df').
Proof.
  induction cols as [|col rest IH]; intros df df'; simpl.
  - intros [= <-]. apply Forall_Forall2_diag, Forall_forall. intros r _ c _. reflexivity.
  - destruct (impute_with_knn knn_estimate df col 5) as [df1|] eqn:E1; simpl; [|discriminate].
    intros E. eapply Forall2_compose; [exact keeps_known_trans | |apply IH, E].
    apply (impute_with_knn_keeps_known _ _ _ _ E1).
Qed.

End Facts.

(** The clamp: a negative GDP becomes NaN, any other row is left alone, and
    no negative GDP remains. *)
Lemma negative_to_nan_row r r' :
  negative_to_nan "GDP" r = Ok r' ->
  (negative (cell r "GDP") -> cell r' "GDP" = VNaN)
  /\ ~ negative (cell r' "GDP").
Proof.
  unfold negative_to_nan. destruct (cell r "GDP") as [| |q|s] eqn:Ec; try discriminate.
  - intros [= <-]. rewrite Ec. simpl. tauto.
  - intros [= <-]. rewrite Ec. simpl. tauto.
  - destruct (Qltb q 0) eqn:Eq; intros [= <-].
    + rewrite cell_insert_eq. simpl. tauto.
    + rewrite Ec. simpl. split; intros H; apply Qltb_lt in H; congruence.
Qed.

Lemma clamp_gdp_rows df df' :
  clamp_gdp df = Ok df' ->
  Forall2 (fun r r' => (negative (cell r "GDP") -> cell r' "GDP" = VNaN)
                       /\ ~ negative (cell r' "GDP")) (rows df) (rows df').
Proof.
  unfold clamp_gdp. destruct (decide ("GDP" ∈ columns df)); [|discriminate].
  destruct (mapM _ (rows df)) as [rs|] eqn:E; simpl; [|discriminate].
  intros [= <-]. simpl. apply mapM_Ok_Forall2 in E.
  eapply Forall2_impl; [exact E|]. apply negative_to_nan_row.
Qed.

Lemma drop_bmi_gdp df :
  Forall2 (fun r r' => cell r' "GDP" = cell r "GDP") (rows df) (rows (drop_bmi df)).
Proof.
  unfold drop_bmi. destruct (decide ("BMI" ∈ columns df)); simpl.
  - apply Forall2_fmap_r, Forall_Forall2_diag, Forall_forall. intros r _. simpl.
    unfold cell. rewrite lookup_delete_ne by discriminate. reflexivity.
  - apply Forall_Forall2_diag, Forall_forall. intros r _. reflexivity.
Qed.

Lemma Forall2_chain {A : Type} (P Q R : A -> A -> Prop) (l1 l2 l3 : list A) :
  (forall a b c, P a b -> Q b c -> R a c) ->
  Forall2 P l1 l2 -> Forall2 Q l2 l3 -> Forall2 R l1 l3.
Proof.
  intros Ht H12. revert l3. induction H12 as [|a b l1 l2 Hab _ IH]; intros l3 H23.
  - inversion H23. constructor.
  - inversion H23 as [|b' c l2' l3' Hbc H23']; subst. constructor; eauto.
Qed.

(** C6 (amended).  When the script of main_pipeline.py runs to its end,
    the frame that enters the imputation loop is the merge of the relabelled
    inputs, with the GDP values as they were read; a GDP value that is
    negative there is kept through the imputation and is NaN in the saved
    frame; and the saved frame holds no negative GDP value. *)
Theorem pipeline_negative_gdp
    (knn_estimate : nat -> list (list value) -> nat -> nat -> Q)
    (raw : sources) (merged final : frame) :
  pipeline knn_estimate raw = Ok (merged, final) ->
  (exists cleaned imputed,
     standardize raw = Ok cleaned
     /\ merged_df cleaned = Ok merged
     /\ impute_columns knn_estimate columns_to_impute merged = Ok imputed
     /\ Forall2 keeps_known (rows merged) (rows imputed))
  /\ Forall2 (fun r r' => negative (cell r "GDP") -> cell r' "GDP" = VNaN)
             (rows merged) (rows final)
  /\ Forall (fun r' => ~ negative (cell r' "GDP")) (rows final).
Proof.
  unfold pipeline. intros E.
  apply bind_Ok_inv in E as (cleaned & Es & E).
  apply bind_Ok_inv in E as (m & Em & E).
  apply bind_Ok_inv in E as (imputed & Ei & E).
  apply bind_Ok_inv in E as (clamped & Ec & E).
  injection E as <- <-.
  pose proof (impute_columns_keeps_known _ _ _ _ Ei) as Hk.
  pose proof (clamp_gdp_rows _ _ Ec) as Hc.
  pose proof (drop_bmi_gdp clamped) as Hd.
  assert (Hkc : Forall2 (fun r r' => (negative (cell r "GDP") -> cell r' "GDP" = VNaN)
                                     /\ ~ negative (cell r' "GDP"))
                        (rows m) (rows clamped)).
  { eapply Forall2_chain; [|exact Hk|exact Hc].
    intros a b c Hab [Hbc Hn]. split; [|exact Hn].
    intros Hneg. apply Hbc. rewrite Hab; [exact Hneg|].
    destruct (cell a "GDP"); try contradiction. reflexivity. }
  assert (Hall : Forall2 (fun r r' => (negative (cell r "GDP") -> cell r' "GDP" = VNaN)
                                      /\ ~ negative (cell r' "GDP"))
                         (rows m) (rows (drop_bmi clamped))).
  { eapply Forall2_chain; [|exact Hkc|exact Hd].
    intros a b c [Hab Hn] ->. split; assumption. }
  split; [exists cleaned, imputed; auto|]. split.
  - eapply Forall2_impl; [exact Hall|]. intros r r' [H _]. exact H.
  - eapply Forall2_Forall_r; [exact Hall|]. apply Forall_forall.
    intros r _ r' [_ H]. exact H.
Qed.

(** The four files as the script loads them: the United States with a GDP
    of -100, and Ghana in the diabetes file only. *)
Definition example_raw : sources :=
  Sources
    (Frame ["Country_code"; "Country"; "Year"; "Health_Expenditure (% of GDP)";
            "Life_Expectancy"]
           [ {[ "Country_code" := VStr "USA"; "Country" := VStr "United States";
                "Year" := VNum 2000; "Health_Expenditure (% of GDP)" := VNum 13;
                "Life_Expectancy" := VNum 77 ]} ])
    (Frame ["Location"; "Code"; "Gender"; "Year"; "Prevalence of diabetes (18+ years)";
            "Alcohol_Value"]
           [ {[ "Location" := VStr "Ghana"; "Code" := VStr "GHA"; "Gender" := VNum 0;
                "Year" := VNum 2000; "Prevalence of diabetes (18+ years)" := VNum 7;
                "Alcohol_Value" := VNum 2 ]} ])
    (Frame ["Country"; "Code"; "Year"; "Activity_Prevalence_Rate";
            "Obesity_Prevalence_Rate"; "GDP"]
           [ {[ "Country" := VStr "United States"; "Code" := VStr "USA";
                "Year" := VNum 2000; "Activity_Prevalence_Rate" := VNum 30;
                "Obesity_Prevalence_Rate" := VNum 31; "GDP" := VNum (-100) ]} ])
    (Frame ["Country"; "Gender"; "Year"; "Age_Group"; "IncidenceRate"; "MortalityRate";
            "PrevalenceRate"; "Country_Code"]
           [ {[ "Country" := VStr "United States"; "Gender" := VNum 0;
                "Year" := VNum 2000; "Age_Group" := VNum 1; "IncidenceRate" := VNum 5;
                "MortalityRate" := VNum 3; "PrevalenceRate" := VNum 4;
                "Country_Code" := VStr "USA" ]} ]).

(** The GDP column of the frame that enters the loop and of the saved frame. *)
Definition gdp_columns (res : result (frame * frame)) : list value * list value :=
  match res with
  | Ok (merged, final) => (column "GDP" merged, column "GDP" final)
  | Raise _ => ([], [])
  end.

Lemma example_gdp_columns :
  gdp_columns (pipeline (fun _ _ _ _ => 1%Q) example_raw)
    = ([VNum (-100); VNaN], [VNaN; VNum 1]).
Proof. vm_compute. reflexivity. Qed.

Lemma pipeline_negative_gdp_witness :
  exists merged final,
    pipeline (fun _ _ _ _ => 1%Q) example_raw = Ok (merged, final)
    /\ Forall (fun r' => ~ negative (cell r' "GDP")) (rows final).
Proof.
  pose proof example_gdp_columns as H.
  destruct (pipeline (fun _ _ _ _ => 1%Q) example_raw) as [[merged final]|] eqn:E;
    [|discriminate].
  exists merged, final. split; [reflexivity|].
  apply (pipeline_negative_gdp (fun _ _ _ _ => 1%Q) example_raw merged final E).
Defined.

(** C6 as stated fails: the raw value -100 is still in the frame on which
    the imputation runs; it becomes NaN afterwards, and stays NaN in the
    saved frame. *)
Lemma pipeline_negative_gdp_counterexample :
  exists merged final,
    pipeline (fun _ _ _ _ => 1%Q) example_raw = Ok (merged, final)
    /\ column "GDP" merged = [VNum (-100); VNaN]
    /\ column "GDP" final = [VNaN; VNum 1].
Proof.
  pose proof example_gdp_columns as H.
  destruct (pipeline (fun _ _ _ _ => 1%Q) example_raw) as [[merged final]|];
    [|discriminate].
  exists merged, final. injection H as H1 H2. auto.
Qed.

End PipelineFacts.

(** ** C2: rows whose country cannot be resolved *)

Module DiseaseMetricsFacts.

Import FrameFacts ProcessDiseaseMetrics.

Lemma set_column_rows c (g : row -> value) df :
  rows (set_column c (map g (rows df)) df) = map (fun r => <[c := g r]> r) (rows df).
Proof. unfold set_column. simpl. apply zip_with_map_self. Qed.

Section Facts.

Variable unicode : PyStr.unicode_data.
Variable country_code_dict : gmap string string.
Variable pycountry_lookup : string -> option string.
Variable str_of_float : Q -> string.

(** The stripped name of the country of a row. *)
Definition country_name (r : row) : string :=
  PyStr.strip unicode (astype_str str_of_float (cell r "Country")).

(** What "Add country codes" makes of one row. *)
Definition coded (r r' : row) : Prop :=
  cell r' "Country" = VStr (country_name r)
  /\ cell r' "Country_Code"
     = match get_country_code unicode country_code_dict pycountry_lookup
                              (country_name r) with
       | Some code => VStr code
       | None => VNone
       end.

Lemma add_country_codes_rows df_combined out :
  add_country_codes unicode country_code_dict pycountry_lookup str_of_float df_combined
    = Ok out ->
  Forall2 coded (rows df_combined) (rows out).
Proof.
  unfold add_country_codes.
  destruct (decide ("Country" ∈ columns df_combined)); [|discriminate].
  intros [= <-]. unfold column.
  rewrite !map_map.
  set (stripped := set_column "Country" _ df_combined).
  rewrite (set_column_rows "Country_Code"
             (fun r => code_cell unicode country_code_dict pycountry_lookup str_of_float
                                 (cell r "Country")) stripped).
  unfold stripped.
  rewrite (set_column_rows "Country"
             (fun r => VStr (PyStr.strip unicode (astype_str str_of_float (cell r "Country"))))
             df_combined).
  rewrite map_map.
  apply Forall2_fmap_r, Forall_Forall2_diag, Forall_forall. intros r _.
  unfold coded, country_name. simpl. split.
  - rewrite cell_insert_ne by discriminate. apply cell_insert_eq.
  - rewrite cell_insert_eq, cell_insert_eq. reflexivity.
Qed.

End Facts.

(** C2.  [process_disease_metrics] excludes no row: the frame it returns
    has one row for every row of the combined frame, and a row whose country
    name neither the override table nor the registry resolves is in it with
    [None] as its [Country_Code]. *)
Theorem process_disease_metrics_keeps_unresolved
    (unicode : PyStr.unicode_data)
    (country_code_dict : gmap string string) (pycountry_lookup : string -> option string)
    (regression : nat -> list (list Q * Q) -> list Q -> Q) (str_of_float : Q -> string)
    (incidence_data mortality_data prevalence_data out : frame) :
  process_disease_metrics unicode country_code_dict pycountry_lookup regression str_of_float
                          incidence_data mortality_data prevalence_data = Ok out ->
  exists df_combined,
    add_country_codes unicode country_code_dict pycountry_lookup str_of_float df_combined
      = Ok out
    /\ length (rows out) = length (rows df_combined)
    /\ Forall2 (coded unicode country_code_dict pycountry_lookup str_of_float)
               (rows df_combined) (rows out)
    /\ forall r, r ∈ rows df_combined ->
         get_country_code unicode country_code_dict pycountry_lookup
                          (country_name unicode str_of_float r) = None ->
         exists r', r' ∈ rows out
                    /\ cell r' "Country" = VStr (country_name unicode str_of_float r)
                    /\ cell r' "Country_Code" = VNone.
Proof.
  unfold process_disease_metrics. intros E.
  apply bind_Ok_inv in E as (p0 & _ & E).
  apply bind_Ok_inv in E as (p1 & _ & E).
  apply bind_Ok_inv in E as (p2 & _ & E).
  apply bind_Ok_inv in E as (c1 & _ & E).
  apply bind_Ok_inv in E as (c2 & _ & E).
  apply bind_Ok_inv in E as (encoded & _ & E).
  apply bind_Ok_inv in E as (imputed & _ & E).
  exists imputed. pose proof (add_country_codes_rows _ _ _ _ _ _ E) as HF.
  split; [exact E|]. split; [symmetry; apply (Forall2_length _ _ _ HF)|].
  split; [exact HF|].
  intros r Hr Hnone. apply list_elem_of_lookup in Hr as (i & Hi).
  destruct (Forall2_lookup_l _ _ _ _ _ HF Hi) as (r' & Hr' & Hname & Hcode).
  exists r'. split; [apply list_elem_of_lookup; eauto|].
  rewrite Hnone in Hcode. auto.
Qed.

(** Three files with one row each.  "Atlantis" is in neither table. *)
Definition gbd_file (val : Q) : frame :=
  Frame ["location_name"; "sex_name"; "age_name"; "year"; "val"]
        [ {[ "location_name" := VStr " Atlantis"; "sex_name" := VStr "Male";
             "age_name" := VStr "All ages"; "year" := VNum 2000; "val" := VNum val ]};
          {[ "location_name" := VStr "France"; "sex_name" := VStr "Male";
             "age_name" := VStr "All ages"; "year" := VNum 2000; "val" := VNum val ]} ].

Definition registry_excerpt (name : string) : option string :=
  if String.eqb name "France" then Some "FRA" else None.

Definition country_and_code (res : result frame) : list (value * value) :=
  match res with
  | Ok out => map (fun r => (cell r "Country", cell r "Country_Code")) (rows out)
  | Raise _ => []
  end.

Lemma atlantis_run :
  country_and_code
    (process_disease_metrics PyStrFacts.latin_excerpt ∅ registry_excerpt
                             (fun _ _ _ => 0%Q) (fun _ => "")
                             (gbd_file 12) (gbd_file 3) (gbd_file 40))
  = [(VStr "Atlantis", VNone); (VStr "France", VStr "FRA")].
Proof. vm_compute. reflexivity. Qed.

Lemma process_disease_metrics_keeps_unresolved_witness :
  exists out,
    process_disease_metrics PyStrFacts.latin_excerpt ∅ registry_excerpt
                            (fun _ _ _ => 0%Q) (fun _ => "")
                            (gbd_file 12) (gbd_file 3) (gbd_file 40) = Ok out
    /\ length (rows out) = 2%nat
    /\ exists df_combined,
         add_country_codes PyStrFacts.latin_excerpt ∅ registry_excerpt (fun _ => "")
                           df_combined = Ok out
         /\ length (rows out) = length (rows df_combined).
Proof.
  pose proof atlantis_run as H.
  destruct (process_disease_metrics PyStrFacts.latin_excerpt ∅ registry_excerpt
              (fun _ _ _ => 0%Q) (fun _ => "")
              (gbd_file 12) (gbd_file 3) (gbd_file 40)) as [out|] eqn:E; [|discriminate].
  exists out. split; [reflexivity|]. split.
  - apply (f_equal (@length _)) in H. simpl in H. rewrite length_map in H. exact H.
  - destruct (process_disease_metrics_keeps_unresolved _ _ _ _ _ _ _ _ _ E)
      as (df_combined & Ha & Hl & _).
    exists df_combined. split; assumption.
Defined.

End DiseaseMetricsFacts.

(* ================================================================== *)
(** * Further properties of the scripts *)
(* ================================================================== *)

(** ** Orders and the stable sort *)

Module SortFacts.

Lemma ascii_compare_refl c : Ascii.compare c c = Eq.
Proof. unfold Ascii.compare. apply N.compare_refl. Qed.

Lemma ascii_compare_lt_trans c1 c2 c3 :
  Ascii.compare c1 c2 = Lt -> Ascii.compare c2 c3 = Lt -> Ascii.compare c1 c3 = Lt.
Proof. unfold Ascii.compare. rewrite !N.compare_lt_iff. lia. Qed.

Lemma string_compare_refl s : String.compare s s = Eq.
Proof. induction s as [|c s IH]; simpl; [reflexivity|]. rewrite ascii_compare_refl. exact IH. Qed.

Lemma string_compare_lt_trans s1 : forall s2 s3,
  String.compare s1 s2 = Lt -> String.compare s2 s3 = Lt -> String.compare s1 s3 = Lt.
Proof.
  induction s1 as [|c1 s1 IH]; intros [|c2 s2] [|c3 s3]; simpl; try discriminate;
    try reflexivity.
  destruct (Ascii.compare c1 c2) eqn:E12; try discriminate;
    destruct (Ascii.compare c2 c3) eqn:E23; try discriminate; intros H12 H23.
  - apply Ascii.compare_eq_iff in E12, E23. subst. rewrite ascii_compare_refl.
    eapply IH; eassumption.
  - apply Ascii.compare_eq_iff in E12. subst. rewrite E23. reflexivity.
  - apply Ascii.compare_eq_iff in E23. subst. rewrite E12. reflexivity.
  - rewrite (ascii_compare_lt_trans _ _ _ E12 E23). reflexivity.
Qed.

Lemma string_leb_cases s1 s2 :
  String.leb s1 s2 = true <-> s1 = s2 \/ String.ltb s1 s2 = true.
Proof.
  unfold String.leb, String.ltb. destruct (String.compare s1 s2) eqn:E.
  - apply String.compare_eq_iff in E. tauto.
  - tauto.
  - split; [discriminate|]. intros [->|H]; [|discriminate].
    rewrite string_compare_refl in E. discriminate.
Qed.

Lemma string_ltb_trans s1 s2 s3 :
  String.ltb s1 s2 = true -> String.ltb s2 s3 = true -> String.ltb s1 s3 = true.
Proof.
  unfold String.ltb. intros H12 H23.
  destruct (String.compare s1 s2) eqn:E12; try discriminate.
  destruct (String.compare s2 s3) eqn:E23; try discriminate.
  rewrite (string_compare_lt_trans _ _ _ E12 E23). reflexivity.
Qed.

Lemma string_leb_trans s1 s2 s3 :
  String.leb s1 s2 = true -> String.leb s2 s3 = true -> String.leb s1 s3 = true.
Proof.
  rewrite !string_leb_cases. intros [->|H12] [->|H23]; auto.
  right. eapply string_ltb_trans; eassumption.
Qed.

Lemma string_ltb_irrefl s : String.ltb s s = false.
Proof. unfold String.ltb. rewrite string_compare_refl. reflexivity. Qed.

Lemma string_ltb_asym s1 s2 : String.ltb s1 s2 = true -> String.ltb s2 s1 = false.
Proof.
  unfold String.ltb. rewrite (String.compare_antisym s2 s1).
  destruct (String.compare s1 s2); try discriminate. reflexivity.
Qed.

Lemma insert_sorted_Permutation_in {A : Type} (leb : A -> A -> bool) (x : A)
    (l : list A) (z : A) :
  z ∈ insert_sorted leb x l <-> z ∈ x :: l.
Proof. rewrite (KnnFacts.insert_sorted_Permutation leb x l). reflexivity. Qed.

(** The insertion sort sorts, for any total and transitive comparison. *)
Section Sorted.

Context {A : Type} (leb : A -> A -> bool).
Hypothesis leb_total : forall a b, leb a b = true \/ leb b a = true.
Hypothesis leb_trans : forall a b c, leb a b = true -> leb b c = true -> leb a c = true.

Definition le (a b : A) : Prop := leb a b = true.

Lemma insert_sorted_sorted x l :
  StronglySorted le l -> StronglySorted le (insert_sorted leb x l).
Proof.
  induction 1 as [|y t Ht IH Hy]; simpl; [repeat constructor|].
  destruct (leb x y) eqn:E.
  - constructor; [constructor; assumption|].
    constructor; [exact E|].
    eapply Forall_impl; [exact Hy|]. intros z Hz. eapply leb_trans; eassumption.
  - constructor; [exact IH|].
    assert (Hyx : le y x) by (destruct (leb_total x y); [congruence | assumption]).
    rewrite Forall_forall. intros z Hz.
    rewrite (insert_sorted_Permutation_in leb x t z) in Hz.
    apply elem_of_cons in Hz as [->|Hz]; [exact Hyx|].
    rewrite Forall_forall in Hy. apply Hy, Hz.
Qed.

Lemma stable_sort_sorted l : StronglySorted le (stable_sort leb l).
Proof.
  induction l as [|x t IH]; simpl; [constructor | apply insert_sorted_sorted, IH].
Qed.

Lemma sorted_lookup l i j x y :
  StronglySorted le l -> (i < j)%nat -> l !! i = Some x -> l !! j = Some y -> le x y.
Proof.
  intros Hs. revert i j. induction Hs as [|a t _ IH Ha]; intros i j Hij Hi Hj.
  - destruct i; discriminate.
  - destruct j as [|j]; [lia|]. destruct i as [|i].
    + injection Hi as <-. rewrite Forall_forall in Ha. apply Ha.
      apply list_elem_of_lookup. eauto.
    + apply (IH i j); [lia | exact Hi | exact Hj].
Qed.

End Sorted.

End SortFacts.

(** ** Label encoding of the categorical columns *)

Module EncodingFacts.

Import SortFacts ProcessDiseaseMetrics.

Section Facts.

Variable str_of_float : Q -> string.

(** The sorted distinct texts of a column: the classes of the encoder. *)
Definition classes_of (vs : list value) : list string :=
  stable_sort String.leb (remove_dups (map (astype_str str_of_float) vs)).

(** The code the encoder gives to the text of a cell. *)
Definition code_value (n : nat) : value := VNum (inject_Z (Z.of_nat n)).

Lemma classes_NoDup vs : NoDup (classes_of vs).
Proof.
  unfold classes_of. rewrite KnnFacts.stable_sort_Permutation. apply NoDup_remove_dups.
Qed.

Lemma classes_elem vs t : t ∈ classes_of vs <-> t ∈ map (astype_str str_of_float) vs.
Proof.
  unfold classes_of. rewrite KnnFacts.stable_sort_Permutation. apply elem_of_remove_dups.
Qed.

Lemma classes_sorted vs : StronglySorted (le String.leb) (classes_of vs).
Proof.
  apply stable_sort_sorted; [apply String.leb_total | apply string_leb_trans].
Qed.

Lemma label_encode_lookup vs i v :
  vs !! i = Some v ->
  exists n, label_encode str_of_float vs !! i = Some (code_value n)
            /\ classes_of vs !! n = Some (astype_str str_of_float v).
Proof.
  intros Hi. unfold label_encode. fold (classes_of vs).
  rewrite list_lookup_fmap, list_lookup_fmap, Hi. simpl.
  assert (Hin : astype_str str_of_float v ∈ classes_of vs).
  { apply classes_elem, list_elem_of_fmap. exists v. split; [reflexivity|].
    apply list_elem_of_lookup. eauto. }
  destruct (list_find_elem_of (fun c => c = astype_str str_of_float v) _ _ Hin eq_refl)
    as [[n t] Hf].
  rewrite Hf. apply list_find_Some in Hf as (Hn & -> & _).
  exists n. split; [reflexivity | exact Hn].
Qed.

End Facts.

(** The encoder numbers the distinct texts of a column in increasing
    order: a code is below the number of distinct texts, two cells get the
    same code exactly when they have the same text, and a smaller code
    exactly when the text is smaller. *)
Theorem label_encode_order (str_of_float : Q -> string) (vs : list value) :
  length (label_encode str_of_float vs) = length vs
  /\ forall i j vi vj,
       vs !! i = Some vi -> vs !! j = Some vj ->
       exists ci cj : nat,
         label_encode str_of_float vs !! i = Some (code_value ci)
         /\ label_encode str_of_float vs !! j = Some (code_value cj)
         /\ (ci < length (remove_dups (map (astype_str str_of_float) vs)))%nat
         /\ (ci = cj <-> astype_str str_of_float vi = astype_str str_of_float vj)
         /\ ((ci < cj)%nat
             <-> String.ltb (astype_str str_of_float vi) (astype_str str_of_float vj)
                 = true).
Proof.
  split; [unfold label_encode; rewrite !length_map; reflexivity|].
  intros i j vi vj Hi Hj.
  destruct (label_encode_lookup str_of_float vs i vi Hi) as (ci & Ei & Ci).
  destruct (label_encode_lookup str_of_float vs j vj Hj) as (cj & Ej & Cj).
  exists ci, cj. split; [exact Ei|]. split; [exact Ej|].
  pose proof (classes_NoDup str_of_float vs) as Hnd.
  pose proof (classes_sorted str_of_float vs) as Hs.
  assert (Heq : ci = cj <-> astype_str str_of_float vi = astype_str str_of_float vj).
  { split.
    - intros ->. congruence.
    - intros E. rewrite E in Ci. eapply NoDup_lookup; eassumption. }
  split.
  { apply lookup_lt_Some in Ci. unfold classes_of in Ci.
    rewrite (Permutation_length (KnnFacts.stable_sort_Permutation _ _)) in Ci. exact Ci. }
  split; [exact Heq|]. split.
  - intros Hlt.
    pose proof (sorted_lookup String.leb _ _ _ _ _ Hs Hlt Ci Cj) as Hle.
    apply string_leb_cases in Hle as [E|H]; [|exact H].
    apply Heq in E. lia.
  - intros Hlt. destruct (Nat.lt_trichotomy ci cj) as [H|[H|H]]; [exact H | |].
    + apply Heq in H. rewrite H, string_ltb_irrefl in Hlt. discriminate.
    + pose proof (sorted_lookup String.leb _ _ _ _ _ Hs H Cj Ci) as Hle.
      apply string_leb_cases in Hle as [E|Hgt].
      * rewrite E, string_ltb_irrefl in Hlt. discriminate.
      * apply string_ltb_asym in Hgt. congruence.
Qed.

(** What main_pipeline.py reads back from an encoded [Gender] cell. *)
Definition swapped (v : value) : value :=
  match v with
  | VStr s => if String.eqb s "Male" then VStr "Female" else VStr "Male"
  | _ => VNaN
  end.

Lemma two_classes (l : list string) :
  NoDup l -> (forall t, t ∈ l -> t = "Male" \/ t = "Female") ->
  "Male" ∈ l -> "Female" ∈ l ->
  l = ["Male"; "Female"] \/ l = ["Female"; "Male"].
Proof.
  intros Hnd Hall Hm Hf.
  destruct l as [|a [|b [|c l]]].
  - inversion Hm.
  - apply list_elem_of_singleton in Hm, Hf. congruence.
  - assert (Ha : a = "Male" \/ a = "Female") by (apply Hall; left).
    assert (Hb : b = "Male" \/ b = "Female") by (apply Hall; right; left).
    apply NoDup_cons in Hnd as [Hab _]. rewrite list_elem_of_singleton in Hab.
    destruct Ha as [-> | ->], Hb as [-> | ->]; auto; contradiction.
  - exfalso.
    assert (Ha : a = "Male" \/ a = "Female") by (apply Hall; left).
    assert (Hb : b = "Male" \/ b = "Female") by (apply Hall; right; left).
    assert (Hc : c = "Male" \/ c = "Female") by (apply Hall; right; right; left).
    apply NoDup_cons in Hnd as [Hna Hnd]. apply NoDup_cons in Hnd as [Hnb _].
    apply not_elem_of_cons in Hna as [Hab Hna].
    apply not_elem_of_cons in Hna as [Hac _].
    apply not_elem_of_cons in Hnb as [Hbc _].
    destruct Ha as [-> | ->], Hb as [-> | ->], Hc as [-> | ->]; congruence.
Qed.

(** The sexes of the disease files come back exchanged.
    [encode_categorical_columns] numbers the texts in alphabetical order
    ("Female" is 0, "Male" is 1), and main_pipeline.py reads the numbers
    with [{0: 'Male', 1: 'Female'}]: on a [Gender] column that holds both
    "Male" and "Female" and nothing else, every "Male" becomes "Female" and
    every "Female" becomes "Male". *)
Theorem gender_codes_exchanged (str_of_float : Q -> string) (genders : list value) :
  (forall v, v ∈ genders -> v = VStr "Male" \/ v = VStr "Female") ->
  VStr "Male" ∈ genders -> VStr "Female" ∈ genders ->
  map MainPipeline.map_gender (label_encode str_of_float genders) = map swapped genders.
Proof.
  intros Hall Hm Hf.
  assert (Hc : classes_of str_of_float genders = ["Female"; "Male"]).
  { unfold classes_of.
    destruct (two_classes (remove_dups (map (astype_str str_of_float) genders)))
      as [-> | ->]; try reflexivity.
    - apply NoDup_remove_dups.
    - intros t Ht. apply elem_of_remove_dups, list_elem_of_fmap in Ht as (v & -> & Hv).
      destruct (Hall v Hv) as [-> | ->]; auto.
    - apply elem_of_remove_dups, list_elem_of_fmap. exists (VStr "Male"). auto.
    - apply elem_of_remove_dups, list_elem_of_fmap. exists (VStr "Female"). auto. }
  unfold label_encode. fold (classes_of str_of_float genders). rewrite Hc.
  rewrite !map_map. apply map_ext_in. intros v Hv.
  destruct (Hall v) as [-> | ->]; [apply list_elem_of_In, Hv | reflexivity | reflexivity].
Qed.

Lemma gender_codes_exchanged_witness :
  map MainPipeline.map_gender
      (label_encode (fun _ => "") [VStr "Male"; VStr "Female"; VStr "Male"])
  = [VStr "Female"; VStr "Male"; VStr "Female"].
Proof.
  apply (gender_codes_exchanged (fun _ => "") [VStr "Male"; VStr "Female"; VStr "Male"]).
  - intros v Hv. apply list_elem_of_In in Hv. simpl in Hv.
    destruct Hv as [<-|[<-|[<-|[]]]]; auto.
  - left.
  - right. left.
Defined.

(** The sexes of the diabetes file are read back as they were written:
    [_diabetes_column_processing] writes 0 for "Men" and 1 for "Women", and
    main_pipeline.py reads 0 as "Male" and 1 as "Female"; any other cell is
    NaN in the end. *)
Theorem diabetes_sex_decoded (v : value) :
  MainPipeline.map_gender (ProcessDiabetesAlcohol.map_sex v)
  = match v with
    | VStr s => if String.eqb s "Men" then VStr "Male"
                else if String.eqb s "Women" then VStr "Female" else VNaN
    | _ => VNaN
    end.
Proof.
  destruct v as [| |q|s]; try reflexivity. simpl.
  destruct (String.eqb s "Men"); [reflexivity|].
  destruct (String.eqb s "Women"); reflexivity.
Qed.

End EncodingFacts.

(** ** Edge behaviour of the imputers *)

Module ImputerEdgeFacts.

Import FrameFacts KnnFacts ProcessDiseaseMetrics.

(** [_impute_with_polynomial_fit] at its edges.  A target label that is not
    a column, or a predictor label that is not one while a target cell is
    null, is a [ValueError].  When no row has all its predictors the frame
    comes back as it is.  When some row has, but none of these rows has a
    known target value, the regression receives no sample and the call is a
    [ValueError]: the check [df_valid.empty] does not cover this case. *)
Theorem impute_with_polynomial_fit_edges
    (regression : nat -> list (list Q * Q) -> list Q -> Q)
    (df : frame) (target_column : string) (predictor_columns : list string)
    (degree : nat) :
  let valid r := forallb (fun c => notnull (cell r c)) predictor_columns = true in
  let call := _impute_with_polynomial_fit regression df target_column
                                          predictor_columns degree in
  (target_column ∉ columns df -> call = Raise ValueError)
  /\ (target_column ∈ columns df ->
      (exists r, r ∈ rows df /\ isnull (cell r target_column) = true) ->
      (~ Forall (fun c => c ∈ columns df) predictor_columns -> call = Raise ValueError)
      /\ (Forall (fun c => c ∈ columns df) predictor_columns ->
          ((forall r, r ∈ rows df -> ~ valid r) -> call = Ok df)
          /\ ((exists r, r ∈ rows df /\ valid r) ->
              (forall r, r ∈ rows df -> valid r -> isnull (cell r target_column) = true) ->
              call = Raise ValueError))).
Proof.
  intros valid call. unfold call, _impute_with_polynomial_fit. split.
  - intros Hn. rewrite decide_False by exact Hn. reflexivity.
  - intros Ht (r0 & Hr0 & Hnull). rewrite decide_True by exact Ht.
    assert (Hsome : forallb notnull (column target_column df) = false).
    { apply not_true_iff_false. intros H. rewrite forallb_forall in H.
      specialize (H (cell r0 target_column)). unfold notnull in H. rewrite Hnull in H.
      discriminate H. unfold column.
      apply (in_map (fun r => cell r target_column)), list_elem_of_In, Hr0. }
    rewrite Hsome. split.
    + intros Hp. rewrite decide_False by exact Hp. reflexivity.
    + intros Hp. rewrite decide_True by exact Hp. split.
      * intros Hnone.
        destruct (filter _ (rows df)) as [|v0 vs] eqn:E; [reflexivity|].
        assert (H : v0 ∈ filter (fun r => forallb (fun c => notnull (cell r c))
                                                  predictor_columns = true) (rows df))
          by (rewrite E; left).
        apply list_elem_of_filter in H as [H Hv]. destruct (Hnone v0 Hv H).
      * intros (r1 & Hr1 & Hv1) Hall.
        destruct (filter _ (rows df)) as [|v0 vs] eqn:E.
        { assert (H : r1 ∈ filter (fun r => forallb (fun c => notnull (cell r c))
                                                     predictor_columns = true) (rows df))
            by (apply list_elem_of_filter; split; assumption).
          rewrite E in H. inversion H. }
        rewrite <- E.
        assert (Htrain : filter (fun r => notnull (cell r target_column) = true)
                           (filter (fun r => forallb (fun c => notnull (cell r c))
                                                     predictor_columns = true) (rows df))
                         = []).
        { destruct (filter _ (filter _ _)) as [|t0 ts] eqn:Et; [reflexivity|].
          assert (H : t0 ∈ filter (fun r => notnull (cell r target_column) = true)
                         (filter (fun r => forallb (fun c => notnull (cell r c))
                                                   predictor_columns = true) (rows df)))
            by (rewrite Et; left).
          apply list_elem_of_filter in H as [Hk H].
          apply list_elem_of_filter in H as [Hv H].
          unfold notnull in Hk. rewrite (Hall t0 H Hv) in Hk. discriminate. }
        rewrite Htrain. reflexivity.
Qed.

Section Knn.

Variable knn_estimate : nat -> list (list value) -> nat -> nat -> Q.


End Knn.

End ImputerEdgeFacts.

(** ** A target column without any value *)

Module KnnColumnFacts.

Import FrameFacts KnnFacts.

Lemma last_observed_column (P : nat -> bool) (j n : nat) :
  (j < n)%nat -> P j = true ->
  (forall k, (j < k < n)%nat -> P k = false) ->
  last (filter (fun i => P i = true) (seq 0 n)) = Some j.
Proof.
  intros Hj HP Hafter.
  replace n with (S j + (n - S j))%nat by lia.
  rewrite seq_app, filter_app.
  assert (E : filter (fun i => P i = true) (seq (0 + S j) (n - S j)) = []).
  { destruct (filter _ (seq (0 + S j) _)) as [|k ks] eqn:E; [reflexivity|].
    assert (H : k ∈ filter (fun i => P i = true) (seq (0 + S j) (n - S j)))
      by (rewrite E; left).
    apply list_elem_of_filter in H as [Hk H].
    apply list_elem_of_In, in_seq in H. rewrite Hafter in Hk by lia. discriminate. }
  rewrite E, app_nil_r. apply last_valid_column, HP.
Qed.

Lemma cell_at_feature (r : row) (pre post : list string) (c : string) :
  cell_at (map (cell r) (pre ++ c :: post)) (length pre) = cell r c.
Proof.
  unfold cell_at. rewrite map_app. rewrite app_nth2; rewrite length_map; [|lia].
  rewrite Nat.sub_diag. reflexivity.
Qed.

Lemma cell_at_after (r : row) (pre post : list string) (c : string) (k : nat) :
  (length pre < k)%nat ->
  (forall c', c' ∈ post -> isnull (cell r c') = true) ->
  isnull (cell_at (map (cell r) (pre ++ c :: post)) k) = true.
Proof.
  intros Hk Hnull. unfold cell_at.
  replace (pre ++ c :: post) with ((pre ++ [c]) ++ post) by (rewrite <- app_assoc; reflexivity).
  rewrite map_app. rewrite app_nth2; rewrite length_map, length_app; simpl; [|lia].
  destruct (nth_in_or_default (k - (length pre + 1)) (map (cell r) post) VNaN)
    as [Hin | ->]; [|reflexivity].
  apply in_map_iff in Hin as (c' & <- & Hc'). apply Hnull, list_elem_of_In, Hc'.
Qed.

(** When the target column holds no value at all, the imputer drops it from
    the matrix, and the last column of what it returns is the last feature
    column, in sorted order, that has a value: where that feature is known,
    the target cell receives the feature's value. *)
Theorem impute_with_knn_empty_target
    (knn_estimate : nat -> list (list value) -> nat -> nat -> Q)
    (df df' : frame) (target_col : string) (n_neighbors : nat)
    (pre post : list string) (c : string) :
  Index_difference (columns df)
    ["Country"; "Country_Code"; "Age_Group"; "Gender"; target_col] = pre ++ c :: post ->
  (exists r, r ∈ rows df /\ notnull (cell r c) = true) ->
  (forall r c', r ∈ rows df -> c' ∈ post -> isnull (cell r c') = true) ->
  (forall r, r ∈ rows df -> isnull (cell r target_col) = true) ->
  MainPipeline.impute_with_knn knn_estimate df target_col n_neighbors = Ok df' ->
  forall i r q, rows df !! i = Some r -> cell r c = VNum q ->
                rows df' !! i = Some (<[target_col := VNum q]> r).
Proof.
  intros Hfc (r0 & Hr0 & Hobs0) Hpost Htarget E i r q Hi Hc.
  apply impute_with_knn_unfold in E as (Ht & M & filled & EM & EF & ->).
  apply fit_transform_rows in EM as [Htext ->].
  assert (Hcols : impute_cols df target_col = pre ++ c :: (post ++ [target_col])).
  { unfold impute_cols. rewrite Hfc, <- app_assoc. reflexivity. }
  set (X := design_matrix df target_col) in *.
  assert (HX : X !! i = Some (map (cell r) (impute_cols df target_col))).
  { unfold X, design_matrix. rewrite list_lookup_fmap, Hi. reflexivity. }
  match type of EF with last_column (imap ?f X) = _ => set (F := f) in * end.
  assert (HM : imap F X !! i = Some (F i (map (cell r) (impute_cols df target_col)))).
  { rewrite list_lookup_imap, HX. reflexivity. }
  destruct (last_column_lookup _ _ _ _ EF HM) as (q' & Hq' & Hlast).
  assert (Hnull : forall r1 c', r1 ∈ rows df -> c' ∈ post ++ [target_col] ->
                                isnull (cell r1 c') = true).
  { intros r1 c' Hr1 Hc'. apply elem_of_app in Hc' as [Hc'|Hc'].
    - apply Hpost; assumption.
    - apply list_elem_of_singleton in Hc' as ->. apply Htarget, Hr1. }
  assert (Hvalid : last (filter (fun j => has_observed X j = true)
                                (seq 0 (length (impute_cols df target_col))))
                   = Some (length pre)).
  { apply last_observed_column.
    - rewrite Hcols, length_app. simpl. lia.
    - unfold has_observed. apply existsb_exists.
      exists (map (cell r0) (impute_cols df target_col)). split.
      + unfold X, design_matrix.
        apply (in_map (fun r => map (cell r) (impute_cols df target_col))).
        apply list_elem_of_In, Hr0.
      + rewrite Hcols, cell_at_feature. exact Hobs0.
    - intros k Hk. apply not_true_iff_false. intros H. unfold has_observed in H.
      apply existsb_exists in H as (x & Hx & H). unfold X, design_matrix in Hx.
      apply in_map_iff in Hx as (r1 & <- & Hr1). rewrite Hcols in H.
      unfold notnull in H. rewrite cell_at_after in H; [discriminate | lia |].
      intros c' Hc'. apply Hnull; [apply list_elem_of_In, Hr1 | exact Hc']. }
  unfold F in Hlast. rewrite fmap_last, Hvalid in Hlast. simpl in Hlast.
  rewrite Hcols, cell_at_feature, Hc in Hlast. injection Hlast as <-.
  simpl. rewrite lookup_zip_with, Hi. simpl.
  rewrite list_lookup_fmap, Hq'. reflexivity.
Qed.

(** Two countries whose GDP was never measured. *)
Definition gdp_never_measured : frame :=
  Frame ["Country"; "Year"; "GDP"]
        [ {[ "Country" := VStr "Ghana"; "Year" := VNum 2000; "GDP" := VNaN ]};
          {[ "Country" := VStr "Togo"; "Year" := VNum 2001; "GDP" := VNaN ]} ].

Lemma impute_with_knn_empty_target_witness :
  exists df',
    MainPipeline.impute_with_knn (fun _ _ _ _ => 0%Q) gdp_never_measured "GDP" 5 = Ok df'
    /\ rows df' !! 1%nat
       = Some (<["GDP" := VNum 2001]>
                 ({[ "Country" := VStr "Togo"; "Year" := VNum 2001; "GDP" := VNaN ]} : row)).
Proof.
  destruct (MainPipeline.impute_with_knn (fun _ _ _ _ => 0%Q) gdp_never_measured "GDP" 5)
    as [df'|] eqn:E; [|exfalso; revert E; vm_compute; discriminate].
  exists df'. split; [reflexivity|].
  apply (impute_with_knn_empty_target (fun _ _ _ _ => 0%Q) gdp_never_measured df' "GDP" 5
           [] [] "Year").
  - vm_compute. reflexivity.
  - eexists. split; [left|]. reflexivity.
  - intros r c' _ Hc'. inversion Hc'.
  - intros r Hr. apply list_elem_of_In in Hr. simpl in Hr.
    destruct Hr as [<-|[<-|[]]]; reflexivity.
  - exact E.
  - reflexivity.
  - reflexivity.
Defined.

End KnnColumnFacts.

(** ** The frame main_pipeline.py saves *)

Module SavedFrameFacts.

Import FrameFacts KnnFacts PipelineFacts MainPipeline.

Section Facts.

Variable knn_estimate : nat -> list (list value) -> nat -> nat -> Q.

Lemma impute_with_knn_numeric df target_col n df' :
  impute_with_knn knn_estimate df target_col n = Ok df' ->
  Forall (fun r' => is_numeric (cell r' target_col)) (rows df').
Proof.
  intros E. destruct (impute_with_knn_shape _ _ _ _ _ E) as [_ Hlen].
  apply Forall_lookup. intros i r' Hr'.
  destruct (lookup_lt_is_Some_2 (rows df) i) as [r Hr].
  { rewrite <- Hlen. apply lookup_lt_is_Some. eauto. }
  destruct (impute_with_knn_row _ _ _ _ _ _ _ E Hr) as (q & Hq & _).
  rewrite Hq in Hr'. injection Hr' as <-. rewrite cell_insert_eq. exact I.
Qed.

Lemma impute_columns_shape cols : forall df df',
  impute_columns knn_estimate cols df = Ok df' ->
  columns df' = columns df /\ length (rows df') = length (rows df)
  /\ Forall (fun c => c ∈ columns df) cols.
Proof.
  induction cols as [|col rest IH]; intros df df'; simpl.
  - intros [= <-]. auto.
  - intros E. apply bind_Ok_inv in E as (df1 & E1 & E).
    destruct (impute_with_knn_shape _ _ _ _ _ E1) as [Hc Hl].
    destruct (impute_with_knn_unfold _ _ _ _ _ E1) as [Ht _].
    destruct (IH _ _ E) as (Hc' & Hl' & Hall).
    rewrite Hc in Hc', Hall. rewrite Hl in Hl'. auto.
Qed.

Lemma impute_columns_numeric cols : forall df df',
  impute_columns knn_estimate cols df = Ok df' ->
  forall c, c ∈ cols -> Forall (fun r' => is_numeric (cell r' c)) (rows df').
Proof.
  induction cols as [|col rest IH]; intros df df' E c Hc; [inversion Hc|].
  simpl in E. apply bind_Ok_inv in E as (df1 & E1 & E).
  destruct (decide (c ∈ rest)) as [Hin|Hnin]; [exact (IH _ _ E c Hin)|].
  assert (c = col) as -> by (inversion Hc; subst; [reflexivity | contradiction]).
  pose proof (impute_with_knn_numeric _ _ _ _ E1) as H1.
  pose proof (impute_columns_keeps_known _ _ _ _ E) as Hk.
  apply Forall_lookup. intros i r' Hr'.
  destruct (Forall2_lookup_r _ _ _ _ _ Hk Hr') as (r1 & Hr1 & Hkeep).
  pose proof (proj1 (Forall_lookup _ _) H1 i r1 Hr1) as Hnum.
  simpl in Hnum. rewrite (Hkeep col); [exact Hnum|].
  destruct (cell r1 col); try contradiction; reflexivity.
Qed.

End Facts.

Lemma negative_to_nan_others col r r' c :
  negative_to_nan col r = Ok r' -> c <> col -> cell r' c = cell r c.
Proof.
  unfold negative_to_nan. intros E Hne.
  destruct (cell r col) as [| |q|s]; try discriminate; injection E as <-;
    try reflexivity.
  destruct (Qltb q 0); [|reflexivity]. apply cell_insert_ne. congruence.
Qed.

Lemma clamp_gdp_shape df df' :
  clamp_gdp df = Ok df' ->
  "GDP" ∈ columns df /\ columns df' = columns df
  /\ Forall2 (fun r r' => forall c, c <> "GDP" -> cell r' c = cell r c) (rows df) (rows df').
Proof.
  unfold clamp_gdp. destruct (decide ("GDP" ∈ columns df)) as [Hg|]; [|discriminate].
  intros E. apply bind_Ok_inv in E as (rs & E & [= <-]). simpl.
  split; [exact Hg|]. split; [reflexivity|].
  apply mapM_Ok_Forall2 in E. eapply Forall2_impl; [exact E|].
  intros r r' Hr c Hc. apply (negative_to_nan_others _ _ _ _ Hr Hc).
Qed.

Lemma filter_absent (x : string) (l : list string) :
  x ∉ l -> filter (fun c => c ≠ x) l = l.
Proof.
  induction l as [|a t IH]; intros H; [reflexivity|].
  apply not_elem_of_cons in H as [Hne Ht].
  rewrite filter_cons_True by congruence. rewrite IH by exact Ht. reflexivity.
Qed.

Lemma drop_bmi_shape df :
  columns (drop_bmi df) = filter (fun c => c ≠ "BMI") (columns df)
  /\ Forall2 (fun r r' => forall c, c <> "BMI" -> cell r' c = cell r c)
             (rows df) (rows (drop_bmi df)).
Proof.
  unfold drop_bmi. destruct (decide ("BMI" ∈ columns df)) as [Hb|Hb]; simpl.
  - split; [reflexivity|].
    apply Forall2_fmap_r, Forall_Forall2_diag, Forall_forall. intros r _ c Hc.
    unfold cell. rewrite lookup_delete_ne by congruence. reflexivity.
  - split; [symmetry; apply filter_absent, Hb|].
    apply Forall_Forall2_diag, Forall_forall. intros r _ c _. reflexivity.
Qed.

(** When the script of main_pipeline.py runs to its end, every label of
    [columns_to_impute] is a column of the merged frame; the saved frame has
    the columns of the merged frame without [BMI], in the same order, and as
    many rows; and every imputed column other than [GDP] holds a number in
    every row of the saved frame. *)
Theorem pipeline_saved_frame
    (knn_estimate : nat -> list (list value) -> nat -> nat -> Q)
    (raw : sources) (merged final : frame) :
  pipeline knn_estimate raw = Ok (merged, final) ->
  Forall (fun c => c ∈ columns merged) columns_to_impute
  /\ columns final = filter (fun c => c ≠ "BMI") (columns merged)
  /\ length (rows final) = length (rows merged)
  /\ forall c, c ∈ columns_to_impute -> c <> "GDP" ->
               Forall (fun r' => is_numeric (cell r' c)) (rows final).
Proof.
  unfold pipeline. intros E.
  apply bind_Ok_inv in E as (cleaned & Es & E).
  apply bind_Ok_inv in E as (m & Em & E).
  apply bind_Ok_inv in E as (imputed & Ei & E).
  apply bind_Ok_inv in E as (clamped & Ec & E).
  injection E as <- <-.
  destruct (impute_columns_shape _ _ _ _ Ei) as (Hci & Hli & Hall).
  destruct (clamp_gdp_shape _ _ Ec) as (_ & Hcc & Hrc).
  destruct (drop_bmi_shape clamped) as (Hcd & Hrd).
  split; [exact Hall|]. split; [rewrite Hcd, Hcc, Hci; reflexivity|]. split.
  - rewrite <- (Forall2_length _ _ _ Hrd), <- (Forall2_length _ _ _ Hrc). exact Hli.
  - intros c Hc Hgdp.
    assert (Hbmi : c <> "BMI").
    { intros ->. revert Hc. unfold columns_to_impute.
      rewrite !elem_of_cons, elem_of_nil. intros H.
      repeat (destruct H as [H|H]; [discriminate H|]). exact H. }
    pose proof (impute_columns_numeric _ _ _ _ Ei c Hc) as Hnum.
    apply Forall_lookup. intros i r' Hr'.
    destruct (Forall2_lookup_r _ _ _ _ _ Hrd Hr') as (r2 & Hr2 & H2).
    destruct (Forall2_lookup_r _ _ _ _ _ Hrc Hr2) as (r1 & Hr1 & H1).
    rewrite (H2 c Hbmi), (H1 c Hgdp).
    exact (proj1 (Forall_lookup _ _) Hnum i r1 Hr1).
Qed.

Lemma pipeline_saved_frame_witness :
  exists merged final,
    pipeline (fun _ _ _ _ => 1%Q) example_raw = Ok (merged, final)
    /\ length (rows final) = length (rows merged).
Proof.
  pose proof example_gdp_columns as H.
  destruct (pipeline (fun _ _ _ _ => 1%Q) example_raw) as [[merged final]|] eqn:E;
    [|discriminate].
  exists merged, final. split; [reflexivity|].
  apply (pipeline_saved_frame (fun _ _ _ _ => 1%Q) example_raw merged final E).
Defined.

End SavedFrameFacts.

(** ** The placeholder years: edges, row counts and row order *)

Module PlaceholderYearsFacts.

Import FrameFacts SortFacts MissingYearsFacts.

Lemma value_leb_total a b : value_leb a b = true \/ value_leb b a = true.
Proof.
  destruct a as [| |p|s], b as [| |q|t]; simpl; auto.
  - destruct (Qle_bool p q) eqn:E; [auto|]. right.
    apply Qle_bool_iff. apply Qlt_le_weak, Qnot_le_lt. intros H.
    apply Qle_bool_iff in H. congruence.
  - unfold String.leb. rewrite (String.compare_antisym t s).
    destruct (String.compare s t); simpl; auto.
Qed.

Lemma value_leb_trans a b c :
  value_leb a b = true -> value_leb b c = true -> value_leb a c = true.
Proof.
  destruct a as [| |p|s], b as [| |q|t], c as [| |r|u]; simpl;
    try reflexivity; try discriminate.
  - intros H1 H2. apply Qle_bool_iff in H1, H2. apply Qle_bool_iff.
    eapply Qle_trans; eassumption.
  - apply string_leb_trans.
Qed.

Lemma lex_leb_total by_cols r1 r2 :
  lex_leb by_cols r1 r2 = true \/ lex_leb by_cols r2 r1 = true.
Proof.
  induction by_cols as [|c t IH]; simpl; [auto|].
  destruct (value_leb (cell r1 c) (cell r2 c)) eqn:E12,
           (value_leb (cell r2 c) (cell r1 c)) eqn:E21; auto.
  destruct (value_leb_total (cell r1 c) (cell r2 c)); congruence.
Qed.

Lemma lex_leb_trans by_cols r1 r2 r3 :
  lex_leb by_cols r1 r2 = true -> lex_leb by_cols r2 r3 = true ->
  lex_leb by_cols r1 r3 = true.
Proof.
  induction by_cols as [|c t IH]; simpl; [auto|].
  destruct (value_leb (cell r1 c) (cell r2 c)) eqn:E12; [|discriminate].
  destruct (value_leb (cell r2 c) (cell r3 c)) eqn:E23; [|intros _; discriminate].
  rewrite (value_leb_trans _ _ _ E12 E23).
  destruct (value_leb (cell r3 c) (cell r1 c)) eqn:E31; [|reflexivity].
  rewrite (value_leb_trans _ _ _ E23 E31), (value_leb_trans _ _ _ E31 E12).
  exact IH.
Qed.

Lemma country_years_length countries :
  length (country_years countries) = (30 * length countries)%nat.
Proof.
  unfold country_years. induction countries as [|c t IH]; [reflexivity|].
  cbn [flat_map]. rewrite length_app, IH, length_map.
  change (length years_1960_to_1989) with 30%nat. simpl length. lia.
Qed.

(** A null in the column is a null among its distinct values. *)
Lemma unique_keeps_null vs v :
  v ∈ vs -> isnull v = true -> exists w, w ∈ unique vs /\ isnull w = true.
Proof.
  induction vs as [|a t IH]; intros Hv Hn; [inversion Hv|].
  simpl. destruct (isnull a) eqn:Ea.
  - exists a. split; [left | exact Ea].
  - assert (Ht : v ∈ t) by (inversion Hv; subst; [congruence | assumption]).
    destruct (IH Ht Hn) as (w & Hw & Hwn). exists w. split; [|exact Hwn].
    right. apply list_elem_of_filter. split; [|exact Hw].
    destruct a, w; try discriminate; reflexivity.
Qed.

Lemma first_code_null df name_col code_col w :
  isnull w = true -> first_code df name_col code_col w = Raise IndexError.
Proof.
  intros Hw. unfold first_code.
  assert (E : filter (fun r => value_cmp_eq (cell r name_col) w = true) (rows df) = []).
  { induction (rows df) as [|r t IH]; [reflexivity|].
    rewrite filter_cons_False; [exact IH|].
    destruct (cell r name_col), w; simpl; discriminate. }
  rewrite E. reflexivity.
Qed.

Lemma first_country_year c t :
  (c, 1960%Z) ∈ country_years (c :: t).
Proof. unfold country_years. cbn [flat_map]. apply elem_of_app. left. left. Qed.

Lemma country_year_enumerated countries w :
  w ∈ countries -> (w, 1960%Z) ∈ country_years countries.
Proof.
  intros Hw. unfold country_years. apply list_elem_of_In, in_flat_map.
  exists w. split; [apply list_elem_of_In, Hw|]. left. reflexivity.
Qed.

Lemma sort_values_sorted by_cols df out :
  sort_values by_cols df = Ok out -> StronglySorted (le (lex_leb by_cols)) (rows out).
Proof.
  unfold sort_values.
  destruct (decide (Forall _ _)); [|discriminate].
  destruct (forallb _ _); [|discriminate].
  intros [= <-]. cbn [rows].
  apply stable_sort_sorted; [apply lex_leb_total | apply lex_leb_trans].
Qed.

(** [add_missing_years] at its edges.  Without a [Country] column the call
    is a [KeyError]; a frame without rows gives a frame without rows and
    without columns; with rows but no [Country_Code] column the call is a
    [KeyError]; a null country name is an [IndexError], because no row is
    equal to it; and a result has thirty rows for each distinct country
    name. *)
Theorem add_missing_years_edges (df : frame) :
  let call := MainPipeline.add_missing_years df in
  ("Country" ∉ columns df -> call = Raise KeyError)
  /\ ("Country" ∈ columns df ->
      (rows df = [] -> call = Ok (Frame [] []))
      /\ (rows df <> [] -> "Country_Code" ∉ columns df -> call = Raise KeyError)
      /\ ("Country_Code" ∈ columns df ->
          (exists r, r ∈ rows df /\ isnull (cell r "Country") = true) ->
          call = Raise IndexError)
      /\ (forall out, call = Ok out ->
            length (rows out) = (30 * length (unique (column "Country" df)))%nat)).
Proof.
  intros call. unfold call. split.
  - intros Hn. unfold MainPipeline.add_missing_years.
    rewrite decide_False by exact Hn. reflexivity.
  - intros Hc. repeat split.
    + intros E. unfold MainPipeline.add_missing_years, column.
      rewrite decide_True by exact Hc. rewrite E. reflexivity.
    + intros Hne Hcc. unfold MainPipeline.add_missing_years.
      rewrite decide_True by exact Hc.
      fold (country_years (unique (column "Country" df))).
      destruct (rows df) as [|r t] eqn:Er; [contradiction|].
      match goal with |- (mapM ?f ?l ≫= _) = _ =>
        rewrite (mapM_Raise f l (cell r "Country", 1960%Z) KeyError) end;
        [reflexivity | | |].
      * unfold column. rewrite Er. apply first_country_year.
      * intros cy e. cbn beta. rewrite decide_False by exact Hcc. simpl. congruence.
      * cbn beta. rewrite decide_False by exact Hcc. reflexivity.
    + intros Hcc (r & Hr & Hnull). unfold MainPipeline.add_missing_years.
      rewrite decide_True by exact Hc.
      destruct (unique_keeps_null (column "Country" df) (cell r "Country"))
        as (w & Hw & Hwn); [unfold column; apply list_elem_of_fmap; eauto | exact Hnull|].
      fold (country_years (unique (column "Country" df))).
      match goal with |- (mapM ?f ?l ≫= _) = _ =>
        rewrite (mapM_Raise f l (w, 1960%Z) IndexError) end; [reflexivity | | |].
      * apply country_year_enumerated, Hw.
      * intros cy e. cbn beta. rewrite decide_True by exact Hcc. unfold first_code.
        destruct (filter _ (rows df)); simpl; [congruence | discriminate].
      * cbn beta. rewrite decide_True by exact Hcc. simpl.
        rewrite (first_code_null _ _ _ _ Hwn). reflexivity.
    + intros out E. apply main_rows, Forall2_length in E.
      rewrite <- E. apply country_years_length.
Qed.

(** When [_adding_missing_years] returns, the result has the rows of the
    input and thirty more for each distinct location, and its rows are in
    ascending order of location and, within a location, of year. *)
Theorem adding_missing_years_sorted (df out : frame) :
  ProcessDiabetesAlcohol._adding_missing_years df = Ok out ->
  length (rows out)
    = (length (rows df) + 30 * length (unique (column "Location" df)))%nat
  /\ forall i j r1 r2,
       (i < j)%nat -> rows out !! i = Some r1 -> rows out !! j = Some r2 ->
       lex_leb ["Location"; "Year"] r1 r2 = true.
Proof.
  intros E. split.
  - destruct (da_rows _ _ E) as (new_rows & En & Hperm).
    rewrite (Permutation_length Hperm), length_app.
    apply da_new_rows, Forall2_length in En.
    rewrite <- En, country_years_length. reflexivity.
  - revert E. unfold ProcessDiabetesAlcohol._adding_missing_years.
    destruct (decide ("Location" ∈ columns df)); [|discriminate].
    intros E. apply bind_Ok_inv in E as (new_rows & _ & E).
    apply sort_values_sorted in E. intros i j r1 r2 Hij H1 H2.
    exact (sorted_lookup _ _ i j r1 r2 E Hij H1 H2).
Qed.

Lemma adding_missing_years_sorted_witness :
  exists out,
    ProcessDiabetesAlcohol._adding_missing_years from_1990 = Ok out
    /\ length (rows out) = 31%nat.
Proof.
  destruct (ProcessDiabetesAlcohol._adding_missing_years from_1990) as [out|] eqn:E;
    [|exfalso; revert E; vm_compute; discriminate].
  exists out. split; [reflexivity|].
  destruct (adding_missing_years_sorted from_1990 out E) as [H _].
  rewrite H. vm_compute. reflexivity.
Defined.

End PlaceholderYearsFacts.

(** ** The diabetes column of process_diabetes_alcohol.py *)

Module DiabetesImputationFacts.

Import FrameFacts PolynomialFacts ProcessDiabetesAlcohol.

Definition prevalence : string := "Prevalence of diabetes (18+ years)".

Section Facts.

Variable lstsq : nat -> list (Q * Q) -> Q -> Q.

Lemma impute_diabetes_no_known df :
  prevalence ∈ columns df -> "Year" ∈ columns df -> known_rows prevalence df = [] ->
  _impute_diabetes_data lstsq df = Raise ValueError.
Proof.
  intros Ht Hy Hk. unfold _impute_diabetes_data. fold prevalence.
  rewrite decide_True by exact Ht. rewrite decide_True by exact Hy.
  rewrite Hk. reflexivity.
Qed.

Lemma impute_diabetes_some_known df :
  year_target_frame "Year" prevalence df -> known_rows prevalence df <> [] ->
  _impute_diabetes_data lstsq df
    = Ok (Frame (columns df)
            (map (overwritten (fitted_curve lstsq 2 "Year" prevalence df)
                              "Year" prevalence) (rows df))).
Proof.
  intros Hwf Hk. pose proof Hwf as (Ht & Hy & _).
  unfold _impute_diabetes_data. fold prevalence.
  rewrite decide_True by exact Ht. rewrite decide_True by exact Hy.
  rewrite (known_rows_samples _ _ _ Hwf). simpl.
  destruct (sample_points "Year" prevalence df) as [|p ps] eqn:Es.
  { apply sample_points_nil in Es. congruence. }
  simpl. rewrite <- Es.
  rewrite (poly_call_years _ _ _ _ Hwf). simpl.
  rewrite (set_column_present _ _ _ Ht), zip_with_map_self. reflexivity.
Qed.

Lemma known_rows_full target_col rs :
  Forall (fun r => notnull (cell r target_col) = true) rs ->
  filter (fun r => notnull (cell r target_col) = true) rs = rs.
Proof.
  induction 1 as [|r t Hr _ IH]; [reflexivity|].
  rewrite filter_cons_True by exact Hr. rewrite IH. reflexivity.
Qed.

Lemma gap_filled_full curve year_col target_col rs :
  Forall (fun r => notnull (cell r target_col) = true) rs ->
  map (gap_filled curve year_col target_col) rs = rs.
Proof.
  induction 1 as [|r t Hr _ IH]; [reflexivity|].
  simpl. rewrite gap_filled_known by exact Hr. rewrite IH. reflexivity.
Qed.

(** A column without a gap is left as it is by the gap-filling imputer. *)
Lemma impute_with_polynomial_complete df year_col target_col degree :
  year_target_frame year_col target_col df -> rows df <> [] ->
  Forall (fun r => notnull (cell r target_col) = true) (rows df) ->
  impute_with_polynomial lstsq df year_col target_col degree = Ok df.
Proof.
  intros Hwf Hne Hall.
  rewrite (da_some_known lstsq _ _ _ _ Hwf).
  - rewrite (gap_filled_full _ _ _ _ Hall), frame_eta. reflexivity.
  - unfold known_rows. rewrite (known_rows_full _ _ Hall). exact Hne.
Qed.

End Facts.

(** On a frame with a numeric [Year] column and a numeric prevalence
    column, [_impute_diabetes_data] raises [ValueError] when no prevalence
    is known: it has no guard for the empty sample.  When one is known it
    returns what [impute_with_polynomial] of main_pipeline.py returns at
    degree 2: the fitted curve in every row.  The later call of
    [impute_with_polynomial] of process_diabetes_alcohol.py on this column
    then has no gap to fill and returns that frame as it is. *)
Theorem impute_diabetes_data_cases (lstsq : nat -> list (Q * Q) -> Q -> Q) (df : frame) :
  year_target_frame "Year" prevalence df ->
  (known_rows prevalence df = [] -> _impute_diabetes_data lstsq df = Raise ValueError)
  /\ (known_rows prevalence df <> [] ->
      exists df',
        _impute_diabetes_data lstsq df = Ok df'
        /\ MainPipeline.impute_with_polynomial lstsq df prevalence 2 = Ok df'
        /\ Forall (fun r' => notnull (cell r' prevalence) = true) (rows df')
        /\ impute_with_polynomial lstsq df' "Year" prevalence 2 = Ok df').
Proof.
  intros Hwf. pose proof Hwf as (Ht & Hy & Hrows). split.
  - apply impute_diabetes_no_known; assumption.
  - intros Hk. eexists. split; [apply impute_diabetes_some_known; assumption|].
    split; [apply main_some_known; assumption|].
    assert (Hfull : Forall (fun r' => notnull (cell r' prevalence) = true)
                      (map (overwritten (fitted_curve lstsq 2 "Year" prevalence df)
                                        "Year" prevalence) (rows df))).
    { apply Forall_forall. intros r' Hr'. apply list_elem_of_fmap in Hr' as (r & -> & _).
      apply overwritten_notnull. }
    split; [exact Hfull|].
    apply impute_with_polynomial_complete; [| |exact Hfull].
    + split; [exact Ht|]. split; [exact Hy|]. cbn [rows].
      apply Forall_forall. intros r' Hr'. apply list_elem_of_fmap in Hr' as (r & -> & Hr).
      rewrite Forall_forall in Hrows. destruct (Hrows r Hr) as [Hyr _].
      unfold overwritten. rewrite cell_insert_eq.
      rewrite cell_insert_ne by discriminate. split; [exact Hyr | exact I].
    + cbn [rows]. intros E. apply map_eq_nil in E.
      unfold known_rows in Hk. rewrite E in Hk. apply Hk. reflexivity.
Qed.

Definition three_surveys : frame :=
  Frame ["Year"; prevalence]
        [ {[ "Year" := VNum 1990; prevalence := VNum 5 ]};
          {[ "Year" := VNum 1991; prevalence := VNaN ]};
          {[ "Year" := VNum 1992; prevalence := VNum 7 ]} ].

Lemma impute_diabetes_data_cases_witness :
  exists df',
    _impute_diabetes_data (fun _ _ x => x) three_surveys = Ok df'
    /\ impute_with_polynomial (fun _ _ x => x) df' "Year" prevalence 2 = Ok df'.
Proof.
  assert (Hwf : year_target_frame "Year" prevalence three_surveys).
  { split; [|split].
    - apply list_elem_of_In. simpl. tauto.
    - apply list_elem_of_In. simpl. tauto.
    - repeat constructor. }
  destruct (impute_diabetes_data_cases (fun _ _ x => x) three_surveys Hwf) as [_ H].
  destruct H as (df' & E1 & _ & _ & E2); [vm_compute; discriminate|].
  exists df'. split; assumption.
Defined.

End DiabetesImputationFacts.

(** ** The region of a country code *)

Module RegionColumnFacts.

Import FrameFacts App.

Lemma manual_region_known code region :
  manual_region_mapping !! code = Some region ->
  region ∈ region_names /\ region <> "Unknown Region".
Proof.
  unfold manual_region_mapping. simpl. rewrite !lookup_insert, lookup_empty.
  repeat case_decide; intros [= <-]; (split; [|discriminate]);
    apply list_elem_of_In; simpl; tauto.
Qed.

Lemma continent_known k region :
  continent_map !! k = Some region ->
  region ∈ region_names /\ region <> "Unknown Region".
Proof.
  unfold continent_map. simpl. rewrite !lookup_insert, lookup_empty.
  repeat case_decide; intros [= <-]; (split; [|discriminate]);
    apply list_elem_of_In; simpl; tauto.
Qed.

Section Facts.

Variable pycountry_alpha_2 : string -> option string.
Variable COUNTRY_ALPHA2_TO_CONTINENT_CODE : gmap string string.

(** The code handed to [pycountry_convert]. *)
Definition two_letter (country_code : string) : option string :=
  if Nat.eqb (String.length country_code) 3
  then pycountry_alpha_2 country_code else Some country_code.

(** The continent code [pycountry_convert] has for a country code. *)
Definition continent_of (country_code : string) : option string :=
  a2 ← two_letter country_code; COUNTRY_ALPHA2_TO_CONTINENT_CODE !! a2.

Lemma get_region_unfold country_code :
  get_region pycountry_alpha_2 COUNTRY_ALPHA2_TO_CONTINENT_CODE country_code
  = match manual_region_mapping !! country_code with
    | Some region => Ok region
    | None => match continent_of country_code with
              | Some k => Ok (default "Unknown Region" (continent_map !! k))
              | None => Raise KeyError
              end
    end.
Proof.
  unfold get_region, continent_of, two_letter, alpha3_to_alpha2,
    country_alpha2_to_continent_code.
  destruct (manual_region_mapping !! country_code); [reflexivity|].
  destruct (if Nat.eqb _ 3 then _ else _) as [a2|]; simpl; [|reflexivity].
  destruct (COUNTRY_ALPHA2_TO_CONTINENT_CODE !! a2); reflexivity.
Qed.

End Facts.

(** Every outcome of [get_region].  A returned name is one of the seven of
    the docstring, and it is "Unknown Region" exactly when the code is not
    in [manual_region_mapping] and [pycountry_convert] has a continent code
    for it that [continent_map] lacks.  The only error is a [KeyError], for
    a code outside [manual_region_mapping] for which the libraries have no
    continent. *)
Theorem get_region_outcomes (pycountry_alpha_2 : string -> option string)
    (COUNTRY_ALPHA2_TO_CONTINENT_CODE : gmap string string) (country_code : string) :
  match get_region pycountry_alpha_2 COUNTRY_ALPHA2_TO_CONTINENT_CODE country_code with
  | Ok region =>
      region ∈ region_names
      /\ (region = "Unknown Region" <->
          manual_region_mapping !! country_code = None
          /\ exists k, continent_of pycountry_alpha_2 COUNTRY_ALPHA2_TO_CONTINENT_CODE
                                    country_code = Some k
                       /\ continent_map !! k = None)
  | Raise e =>
      e = KeyError
      /\ manual_region_mapping !! country_code = None
      /\ continent_of pycountry_alpha_2 COUNTRY_ALPHA2_TO_CONTINENT_CODE country_code = None
  end.
Proof.
  rewrite get_region_unfold.
  destruct (manual_region_mapping !! country_code) as [region|] eqn:Hm.
  - destruct (manual_region_known _ _ Hm) as [Hin Hne]. split; [exact Hin|].
    split; [intros ->; contradiction | intros [H _]; discriminate].
  - destruct (continent_of _ _ country_code) as [k|]; [|auto].
    destruct (continent_map !! k) as [region|] eqn:Hk; simpl.
    + destruct (continent_known _ _ Hk) as [Hin Hne]. split; [exact Hin|].
      split; [intros ->; contradiction|].
      intros (_ & k' & [= <-] & Hk'). congruence.
    + split; [apply list_elem_of_In; simpl; tauto|].
      split; [|reflexivity]. intros _. split; [reflexivity|]. eauto.
Qed.

Section Column.

Variable pycountry_alpha_2 : string -> option string.
Variable COUNTRY_ALPHA2_TO_CONTINENT_CODE : gmap string string.

(** What the [Region] assignment makes of one row. *)
Definition with_region (r r' : row) : Prop :=
  exists country_code region,
    cell r "Country_Code" = VStr country_code
    /\ get_region pycountry_alpha_2 COUNTRY_ALPHA2_TO_CONTINENT_CODE country_code = Ok region
    /\ r' = <["Region" := VStr region]> r.

Lemma add_region_rows df out :
  add_region pycountry_alpha_2 COUNTRY_ALPHA2_TO_CONTINENT_CODE df = Ok out ->
  Forall2 with_region (rows df) (rows out).
Proof.
  unfold add_region. destruct (decide ("Country_Code" ∈ columns df)); [|discriminate].
  intros E. apply bind_Ok_inv in E as (regions & E & [= <-]).
  apply mapM_Ok_Forall2 in E. unfold column in E. apply Forall2_fmap_l in E.
  unfold set_column. cbn [rows]. clear -E.
  induction E as [|r region rs regions Hr _ IH]; [constructor|].
  simpl. constructor; [|exact IH].
  simpl in Hr. unfold get_region_of_cell in Hr.
  destruct (cell r "Country_Code") as [| |q|code] eqn:Ec; try discriminate.
  exists code, region. auto.
Qed.

End Column.

(** The [Region] column of app.py.  Without a [Country_Code] column the
    assignment is a [KeyError], and a code that is not a string makes it
    fail.  When it succeeds, no row is added or lost, every row is the old
    row with the region of its code under [Region], one of the seven names,
    and [Region] is the last column unless the frame had one. *)
Theorem add_region_outcomes (pycountry_alpha_2 : string -> option string)
    (COUNTRY_ALPHA2_TO_CONTINENT_CODE : gmap string string) (df : frame) :
  let call := add_region pycountry_alpha_2 COUNTRY_ALPHA2_TO_CONTINENT_CODE df in
  ("Country_Code" ∉ columns df -> call = Raise KeyError)
  /\ ((exists r, r ∈ rows df /\ is_text_cell (cell r "Country_Code") = false) ->
      forall out, call <> Ok out)
  /\ (forall out, call = Ok out ->
        columns out = (if decide ("Region" ∈ columns df)
                       then columns df else columns df ++ ["Region"])
        /\ Forall2 (with_region pycountry_alpha_2 COUNTRY_ALPHA2_TO_CONTINENT_CODE)
                   (rows df) (rows out)
        /\ Forall (fun r' => exists region, cell r' "Region" = VStr region
                                            /\ region ∈ region_names) (rows out)).
Proof.
  intros call. unfold call. split; [|split].
  - intros Hn. unfold add_region. rewrite decide_False by exact Hn. reflexivity.
  - intros (r & Hr & Hnt) out E. apply add_region_rows in E.
    apply list_elem_of_lookup in Hr as (i & Hi).
    destruct (Forall2_lookup_l _ _ _ _ _ E Hi) as (r' & _ & code & region & Hc & _).
    rewrite Hc in Hnt. discriminate.
  - intros out E. pose proof (add_region_rows _ _ _ _ E) as HF. split; [|split].
    + revert E. unfold add_region.
      destruct (decide ("Country_Code" ∈ columns df)); [|discriminate].
      intros E. apply bind_Ok_inv in E as (regions & _ & [= <-]). reflexivity.
    + exact HF.
    + apply Forall_lookup. intros i r' Hr'.
      destruct (Forall2_lookup_r _ _ _ _ _ HF Hr') as (r & _ & code & region & _ & Hg & ->).
      exists region. split; [apply cell_insert_eq|].
      eapply RegionFacts.get_region_in_names, Hg.
Qed.

End RegionColumnFacts.

(** ** The frame process_disease_metrics returns *)

Module DiseaseSchemaFacts.

Import FrameFacts MergeFacts DiseaseImputationFacts EncodingFacts ProcessDiseaseMetrics.

Lemma processed_columns df rate_col p :
  processed df rate_col = Ok p ->
  columns p = ["Country"; "Gender"; "Year"; "Age_Group"; rate_col].
Proof.
  unfold processed, select. destruct (decide (Forall _ _)); [|discriminate].
  intros [= <-]. reflexivity.
Qed.

Section Facts.

Variable unicode : PyStr.unicode_data.
Variable country_code_dict : gmap string string.
Variable pycountry_lookup : string -> option string.
Variable regression : nat -> list (list Q * Q) -> list Q -> Q.
Variable str_of_float : Q -> string.

(** One encoded column: every row has a code under the label. *)
Lemma encoded_rows col df :
  col ∈ columns df ->
  Forall2 (fun r r' => exists n, r' = <[col := code_value n]> r)
          (rows df)
          (rows (set_column col (label_encode str_of_float (column col df)) df)).
Proof.
  intros Hc. rewrite (set_column_present _ _ _ Hc). cbn [rows].
  pose proof (label_encode_order str_of_float (column col df)) as [Hlen _].
  unfold column in Hlen. rewrite length_map in Hlen.
  apply Forall2_same_length_lookup_2.
  { rewrite length_zip_with. unfold column. lia. }
  intros i r r' Hr Hr'. rewrite lookup_zip_with, Hr in Hr'. simpl in Hr'.
  destruct (label_encode_lookup str_of_float (column col df) i (cell r col))
    as (n & Hn & _).
  { unfold column. rewrite list_lookup_fmap, Hr. reflexivity. }
  rewrite Hn in Hr'. simpl in Hr'. injection Hr' as <-. eauto.
Qed.

Lemma encode_categorical_columns_rows cols : forall df df',
  encode_categorical_columns str_of_float df cols = Ok df' ->
  columns df' = columns df
  /\ Forall2 (fun r r' => (forall c, c ∈ cols -> is_numeric (cell r' c))
                          /\ (forall c, c ∉ cols -> cell r' c = cell r c))
             (rows df) (rows df').
Proof.
  induction cols as [|col rest IH]; intros df df'; simpl.
  - intros [= <-]. split; [reflexivity|].
    apply Forall_Forall2_diag, Forall_forall. intros r _.
    split; [intros c Hc; inversion Hc | reflexivity].
  - destruct (decide (col ∈ columns df)) as [Hc|]; [|discriminate].
    intros E. destruct (IH _ _ E) as [Hcols HF].
    split; [rewrite Hcols, (set_column_present _ _ _ Hc); reflexivity|].
    eapply PipelineFacts.Forall2_chain; [|apply (encoded_rows col df Hc)|exact HF].
    intros r r1 r' (n & ->) [Hnum Hsame]. split.
    + intros c Hin. destruct (decide (c ∈ rest)) as [Hr|Hr]; [apply Hnum, Hr|].
      assert (c = col) as -> by (inversion Hin; subst; [reflexivity | contradiction]).
      rewrite (Hsame col Hr), cell_insert_eq. exact I.
    + intros c Hnin. apply not_elem_of_cons in Hnin as [Hne Hr].
      rewrite (Hsame c Hr). apply cell_insert_ne. congruence.
Qed.

(** When the fit is made, no target cell is left null. *)
Lemma impute_fit_fills df target_column predictor_columns degree df' :
  _impute_with_polynomial_fit regression df target_column predictor_columns degree = Ok df' ->
  (exists r, r ∈ rows df
             /\ forallb (fun c => notnull (cell r c)) predictor_columns = true) ->
  Forall (fun r' => notnull (cell r' target_column) = true) (rows df').
Proof.
  unfold _impute_with_polynomial_fit. intros E (r0 & Hr0 & Hv0).
  destruct (decide (target_column ∈ columns df)); [|discriminate].
  destruct (forallb notnull (column target_column df)) eqn:Hall.
  { injection E as <-. apply Forall_forall. intros r Hr.
    rewrite forallb_forall in Hall. apply Hall. unfold column.
    apply (in_map (fun r => cell r target_column)), list_elem_of_In, Hr. }
  destruct (decide (Forall _ predictor_columns)); [|discriminate].
  destruct (filter _ (rows df)) as [|v0 valid] eqn:Ev.
  { assert (H : r0 ∈ filter (fun r => forallb (fun c => notnull (cell r c))
                                              predictor_columns = true) (rows df))
      by (apply list_elem_of_filter; split; assumption).
    rewrite Ev in H. inversion H. }
  apply bind_Ok_inv in E as (training & _ & E).
  destruct training as [|t0 training]; [discriminate|].
  apply bind_Ok_inv in E as (rs & Ers & [= <-]). cbn [rows].
  apply mapM_Ok_Forall2 in Ers. eapply Forall2_Forall_r; [exact Ers|].
  apply Forall_forall. intros r _ r'. unfold predict_missing.
  destruct (isnull (cell r target_column)) eqn:En.
  - intros H. apply bind_Ok_inv in H as (xs & _ & [= <-]).
    rewrite cell_insert_eq. reflexivity.
  - intros [= <-]. unfold notnull. rewrite En. reflexivity.
Qed.

(** A rate other than the target is not touched by the fit. *)
Lemma impute_fit_others df target_column predictor_columns degree df' :
  _impute_with_polynomial_fit regression df target_column predictor_columns degree = Ok df' ->
  Forall2 (fun r r' => forall c, c <> target_column -> cell r' c = cell r c)
          (rows df) (rows df').
Proof.
  intros E. destruct (impute_fit_rows _ _ _ _ _ _ E) as [_ HF].
  eapply Forall2_impl; [exact HF|]. intros r r' [Hk Hn] c Hc.
  destruct (isnull (cell r target_column)) eqn:En.
  - destruct (Hn eq_refl) as [-> | (v & -> & _)]; [reflexivity|].
    apply cell_insert_ne. congruence.
  - rewrite Hk; [reflexivity|]. unfold notnull. rewrite En. reflexivity.
Qed.

(** The cells outside [cs] are the same in both rows. *)
Definition same_except (cs : list string) (r r' : row) : Prop :=
  forall c, c ∉ cs -> cell r' c = cell r c.

Lemma same_except_cell (P : value -> Prop) cs c (l l' : list row) :
  c ∉ cs -> Forall2 (same_except cs) l l' ->
  Forall (fun r => P (cell r c)) l -> Forall (fun r' => P (cell r' c)) l'.
Proof.
  intros Hc HF Hall. apply Forall_lookup. intros i r' Hr'.
  destruct (Forall2_lookup_r _ _ _ _ _ HF Hr') as (r & Hr & Hs).
  rewrite (Hs c Hc). exact (proj1 (Forall_lookup _ _) Hall i r Hr).
Qed.

Lemma same_except_exists (P : value -> Prop) cs c (l l' : list row) :
  c ∉ cs -> Forall2 (same_except cs) l l' ->
  (exists r', r' ∈ l' /\ P (cell r' c)) -> exists r, r ∈ l /\ P (cell r c).
Proof.
  intros Hc HF (r' & Hr' & HP). apply list_elem_of_lookup in Hr' as (i & Hi).
  destruct (Forall2_lookup_r _ _ _ _ _ HF Hi) as (r & Hr & Hs).
  exists r. split; [apply list_elem_of_lookup; eauto|]. rewrite <- (Hs c Hc). exact HP.
Qed.

Lemma impute_fit_same_except df target_column predictor_columns degree df' :
  _impute_with_polynomial_fit regression df target_column predictor_columns degree = Ok df' ->
  Forall2 (same_except [target_column]) (rows df) (rows df').
Proof.
  intros E. eapply Forall2_impl; [apply (impute_fit_others _ _ _ _ _ E)|].
  intros r r' H c Hc. apply H. intros ->. apply Hc. left.
Qed.

Lemma add_country_codes_same_except df out :
  add_country_codes unicode country_code_dict pycountry_lookup str_of_float df = Ok out ->
  columns out = (if decide ("Country_Code" ∈ columns df)
                 then columns df else columns df ++ ["Country_Code"])
  /\ Forall2 (same_except ["Country"; "Country_Code"]) (rows df) (rows out).
Proof.
  unfold add_country_codes.
  destruct (decide ("Country" ∈ columns df)) as [Hc|]; [|discriminate].
  intros [= <-]. split.
  - match goal with |- context [set_column "Country_Code" _ ?s] => set (stripped := s) end.
    assert (Hs : columns stripped = columns df).
    { unfold stripped, set_column. cbn [columns]. rewrite decide_True by exact Hc.
      reflexivity. }
    unfold set_column at 1. cbn [columns]. rewrite Hs. reflexivity.
  - unfold column. rewrite !map_map.
    set (stripped := set_column "Country" _ df).
    rewrite (DiseaseMetricsFacts.set_column_rows "Country_Code"
               (fun r => code_cell unicode country_code_dict pycountry_lookup str_of_float
                                   (cell r "Country")) stripped).
    unfold stripped.
    rewrite (DiseaseMetricsFacts.set_column_rows "Country"
               (fun r => VStr (PyStr.strip unicode (astype_str str_of_float (cell r "Country"))))
               df).
    rewrite map_map.
    apply Forall2_fmap_r, Forall_Forall2_diag, Forall_forall. intros r _ c Hn.
    apply not_elem_of_cons in Hn as [H1 Hn]. apply not_elem_of_cons in Hn as [H2 _].
    rewrite !cell_insert_ne by congruence. reflexivity.
Qed.

End Facts.

Lemma merged_rate_columns (left right M : frame) (rates : list string) (rate : string) :
  columns left = ["Country"; "Gender"; "Year"; "Age_Group"] ++ rates ->
  columns right = ["Country"; "Gender"; "Year"; "Age_Group"; rate] ->
  rate ∉ ["Country"; "Gender"; "Year"; "Age_Group"] ++ rates ->
  merge_outer left right ["Country"; "Year"; "Gender"; "Age_Group"] = Ok M ->
  columns M = ["Country"; "Gender"; "Year"; "Age_Group"] ++ rates ++ [rate].
Proof.
  intros Hl Hr Hn E. apply merge_outer_unfold in E as (_ & _ & -> & _).
  assert (Hrc : rcols_of right ["Country"; "Year"; "Gender"; "Age_Group"] = [rate]).
  { unfold rcols_of. rewrite Hr.
    rewrite !filter_cons_False by (intros H; apply H; apply list_elem_of_In; simpl; tauto).
    rewrite filter_cons_True, filter_nil; [reflexivity|].
    intros H. apply Hn. apply elem_of_app. left.
    apply list_elem_of_In. apply list_elem_of_In in H. simpl in *. tauto. }
  assert (Ho : overlap_of left right ["Country"; "Year"; "Gender"; "Age_Group"] = []).
  { unfold overlap_of. rewrite Hrc, Hl.
    destruct (filter _ _) as [|c t] eqn:Ef; [reflexivity|].
    assert (H : c ∈ filter (fun c => c ∈ [rate])
                           (["Country"; "Gender"; "Year"; "Age_Group"] ++ rates))
      by (rewrite Ef; left).
    apply list_elem_of_filter in H as [H1 H2]. apply list_elem_of_singleton in H1 as ->.
    contradiction. }
  unfold lren_of, rren_of. rewrite Ho, Hrc.
  rewrite (map_pointwise_id (suffixed [] "_x")), (map_pointwise_id (suffixed [] "_y"));
    try (intros a; unfold suffixed; rewrite decide_False by apply not_elem_of_nil;
         reflexivity).
  rewrite Hl, <- app_assoc. reflexivity.
Qed.

Definition rates : list string := ["IncidenceRate"; "PrevalenceRate"; "MortalityRate"].

Lemma not_listed (c : string) (cs : list string) :
  forallb (fun c' => negb (String.eqb c c')) cs = true -> c ∉ cs.
Proof.
  intros H Hin. rewrite forallb_forall in H.
  specialize (H c (proj1 (list_elem_of_In _ _) Hin)).
  rewrite String.eqb_refl in H. discriminate.
Qed.

(** When [process_disease_metrics] returns, the frame has the columns
    [Country], [Gender], [Year], [Age_Group], the three rates and
    [Country_Code], in this order; [Gender] and [Age_Group] hold numbers,
    [Country] a text, and [Country_Code] a text or [None]; and if any row
    has a year, no rate is missing in any row. *)
Theorem process_disease_metrics_schema
    (unicode : PyStr.unicode_data)
    (country_code_dict : gmap string string) (pycountry_lookup : string -> option string)
    (regression : nat -> list (list Q * Q) -> list Q -> Q) (str_of_float : Q -> string)
    (incidence_data mortality_data prevalence_data out : frame) :
  process_disease_metrics unicode country_code_dict pycountry_lookup regression str_of_float
                          incidence_data mortality_data prevalence_data = Ok out ->
  columns out = ["Country"; "Gender"; "Year"; "Age_Group"; "IncidenceRate";
                 "MortalityRate"; "PrevalenceRate"; "Country_Code"]
  /\ Forall (fun r => is_numeric (cell r "Gender") /\ is_numeric (cell r "Age_Group")
                       /\ is_text_cell (cell r "Country") = true
                       /\ (cell r "Country_Code" = VNone
                           \/ is_text_cell (cell r "Country_Code") = true)) (rows out)
  /\ ((exists r, r ∈ rows out /\ notnull (cell r "Year") = true) ->
      forall rate, rate ∈ rates ->
                   Forall (fun r => notnull (cell r rate) = true) (rows out)).
Proof.
  unfold process_disease_metrics. intros E.
  apply bind_Ok_inv in E as (p0 & E0 & E).
  apply bind_Ok_inv in E as (p1 & E1 & E).
  apply bind_Ok_inv in E as (p2 & E2 & E).
  apply bind_Ok_inv in E as (c1 & Ec1 & E).
  apply bind_Ok_inv in E as (c2 & Ec2 & E).
  apply bind_Ok_inv in E as (encoded & Ee & E).
  apply bind_Ok_inv in E as (imputed & Ei & E).
  simpl in Ei.
  apply bind_Ok_inv in Ei as (i1 & Ei1 & Ei).
  apply bind_Ok_inv in Ei as (i2 & Ei2 & Ei).
  apply bind_Ok_inv in Ei as (i3 & Ei3 & [= ->]).
  apply processed_columns in E0, E1, E2.
  assert (Hc1 : columns c1 = ["Country"; "Gender"; "Year"; "Age_Group"]
                             ++ ["IncidenceRate"] ++ ["MortalityRate"]).
  { apply (merged_rate_columns p0 p1 c1 ["IncidenceRate"] "MortalityRate");
      try assumption. apply not_listed. reflexivity. }
  assert (Hc2 : columns c2 = ["Country"; "Gender"; "Year"; "Age_Group"]
                             ++ ["IncidenceRate"; "MortalityRate"] ++ ["PrevalenceRate"]).
  { apply (merged_rate_columns c1 p2 c2 ["IncidenceRate"; "MortalityRate"]
                               "PrevalenceRate"); try assumption.
    apply not_listed. reflexivity. }
  destruct (encode_categorical_columns_rows _ _ _ _ Ee) as [Hce Hre].
  destruct (impute_fit_rows _ _ _ _ _ _ Ei1) as [Hci1 _].
  destruct (impute_fit_rows _ _ _ _ _ _ Ei2) as [Hci2 _].
  destruct (impute_fit_rows _ _ _ _ _ _ Ei3) as [Hci3 _].
  pose proof (impute_fit_same_except _ _ _ _ _ _ Ei1) as Hr1.
  pose proof (impute_fit_same_except _ _ _ _ _ _ Ei2) as Hr2.
  pose proof (impute_fit_same_except _ _ _ _ _ _ Ei3) as Hr3.
  destruct (add_country_codes_same_except _ _ _ _ _ _ E) as [Hco Hro].
  pose proof (DiseaseMetricsFacts.add_country_codes_rows _ _ _ _ _ _ E) as Hcoded.
  assert (Hcols : columns imputed = ["Country"; "Gender"; "Year"; "Age_Group";
                                     "IncidenceRate"; "MortalityRate"; "PrevalenceRate"]).
  { rewrite Hci3, Hci2, Hci1, Hce, Hc2. reflexivity. }
  split; [rewrite Hco, Hcols; reflexivity|]. split.
  - assert (Hnum : forall c, c ∈ ["Gender"; "Age_Group"] ->
                     Forall (fun r => is_numeric (cell r c)) (rows out)).
    { intros c Hc.
      assert (H0 : Forall (fun r => is_numeric (cell r c)) (rows encoded)).
      { eapply Forall2_Forall_r; [exact Hre|]. apply Forall_forall.
        intros r _ r' [H _]. apply H, Hc. }
      assert (Hne : forall cs, forallb (fun c' => negb (String.eqb "Gender" c')
                                             && negb (String.eqb "Age_Group" c')) cs = true ->
                               c ∉ cs).
      { intros cs Hcs Hin. rewrite forallb_forall in Hcs.
        specialize (Hcs c (proj1 (list_elem_of_In _ _) Hin)).
        apply list_elem_of_In in Hc. simpl in Hc.
        destruct Hc as [<-|[<-|[]]]; simpl in Hcs; discriminate. }
      eapply (same_except_cell is_numeric); [| exact Hro |]; [apply Hne; reflexivity|].
      eapply (same_except_cell is_numeric); [| exact Hr3 |]; [apply Hne; reflexivity|].
      eapply (same_except_cell is_numeric); [| exact Hr2 |]; [apply Hne; reflexivity|].
      eapply (same_except_cell is_numeric); [| exact Hr1 |]; [apply Hne; reflexivity|]. exact H0. }
    apply Forall_lookup. intros i r Hr.
    pose proof (proj1 (Forall_lookup _ _) (Hnum "Gender" ltac:(left)) i r Hr) as Hg.
    pose proof (proj1 (Forall_lookup _ _)
                  (Hnum "Age_Group" ltac:(right; left)) i r Hr) as Ha.
    destruct (Forall2_lookup_r _ _ _ _ _ Hcoded Hr) as (r0 & _ & Hname & Hcode).
    split; [exact Hg|]. split; [exact Ha|]. split; [rewrite Hname; reflexivity|].
    rewrite Hcode. destruct (get_country_code _ _ _ _); [right; reflexivity | left; reflexivity].
  - intros Hyear rate Hrate.
    assert (Hy3 : exists r, r ∈ rows imputed /\ notnull (cell r "Year") = true).
    { eapply (same_except_exists (fun v => notnull v = true));
        [| exact Hro | exact Hyear]; apply not_listed; reflexivity. }
    assert (Hy2 : exists r, r ∈ rows i2 /\ notnull (cell r "Year") = true).
    { eapply (same_except_exists (fun v => notnull v = true));
        [| exact Hr3 | exact Hy3]; apply not_listed; reflexivity. }
    assert (Hy1 : exists r, r ∈ rows i1 /\ notnull (cell r "Year") = true).
    { eapply (same_except_exists (fun v => notnull v = true));
        [| exact Hr2 | exact Hy2]; apply not_listed; reflexivity. }
    assert (Hy0 : exists r, r ∈ rows encoded /\ notnull (cell r "Year") = true).
    { eapply (same_except_exists (fun v => notnull v = true));
        [| exact Hr1 | exact Hy1]; apply not_listed; reflexivity. }
    assert (Hvalid : forall l : list row,
              (exists r, r ∈ l /\ notnull (cell r "Year") = true) ->
              exists r, r ∈ l /\ forallb (fun c => notnull (cell r c)) ["Year"] = true).
    { intros l (r & Hr & Hn). exists r. split; [exact Hr|]. simpl. rewrite Hn. reflexivity. }
    pose proof (impute_fit_fills _ _ _ _ _ _ Ei1 (Hvalid _ Hy0)) as F1.
    pose proof (impute_fit_fills _ _ _ _ _ _ Ei2 (Hvalid _ Hy1)) as F2.
    pose proof (impute_fit_fills _ _ _ _ _ _ Ei3 (Hvalid _ Hy2)) as F3.
    apply list_elem_of_In in Hrate. simpl in Hrate.
    destruct Hrate as [<-|[<-|[<-|[]]]].
    + eapply (same_except_cell (fun v => notnull v = true));
        [| exact Hro |]; [apply not_listed; reflexivity|].
      eapply (same_except_cell (fun v => notnull v = true));
        [| exact Hr3 |]; [apply not_listed; reflexivity|].
      eapply (same_except_cell (fun v => notnull v = true));
        [| exact Hr2 |]; [apply not_listed; reflexivity|]. exact F1.
    + eapply (same_except_cell (fun v => notnull v = true));
        [| exact Hro |]; [apply not_listed; reflexivity|].
      eapply (same_except_cell (fun v => notnull v = true));
        [| exact Hr3 |]; [apply not_listed; reflexivity|]. exact F2.
    + eapply (same_except_cell (fun v => notnull v = true));
        [| exact Hro |]; [apply not_listed; reflexivity|]. exact F3.
Qed.

Lemma process_disease_metrics_schema_witness :
  exists out,
    process_disease_metrics PyStrFacts.latin_excerpt ∅ DiseaseMetricsFacts.registry_excerpt
                            (fun _ _ _ => 0%Q) (fun _ => String.EmptyString)
                            (DiseaseMetricsFacts.gbd_file 12)
                            (DiseaseMetricsFacts.gbd_file 3)
                            (DiseaseMetricsFacts.gbd_file 40) = Ok out
    /\ columns out = ["Country"; "Gender"; "Year"; "Age_Group"; "IncidenceRate";
                      "MortalityRate"; "PrevalenceRate"; "Country_Code"].
Proof.
  pose proof DiseaseMetricsFacts.atlantis_run as H.
  destruct (process_disease_metrics PyStrFacts.latin_excerpt ∅ DiseaseMetricsFacts.registry_excerpt
              (fun _ _ _ => 0%Q) (fun _ => String.EmptyString)
              (DiseaseMetricsFacts.gbd_file 12) (DiseaseMetricsFacts.gbd_file 3)
              (DiseaseMetricsFacts.gbd_file 40)) as [out|] eqn:E; [|discriminate].
  exists out. split; [reflexivity|].
  apply (process_disease_metrics_schema _ _ _ _ _ _ _ _ _ E).
Defined.

End DiseaseSchemaFacts.

(** ** The joint imputation of process_activity_obesity_gdp.py *)

Module ActivityObesityFacts.

Import FrameFacts KnnFacts ProcessActivityObesityGdp.

Lemma filter_full {A : Type} (P : A -> Prop) `{forall x, Decision (P x)} (l : list A) :
  length (filter P l) = length l -> filter P l = l.
Proof.
  induction l as [|a t IH]; [reflexivity|].
  destruct (decide (P a)) as [Ha|Ha].
  - rewrite filter_cons_True by exact Ha. simpl. intros E. f_equal. apply IH. lia.
  - rewrite filter_cons_False by exact Ha. simpl. intros E.
    pose proof (length_filter P t). lia.
Qed.

(** The cells of a row after the assignment of a list of numbers. *)
Lemma assign_cells (l : list (string * Q)) : forall (r : row) c,
  (c ∉ l.*1 -> cell (foldl (fun acc cv => <[cv.1 := VNum cv.2]> acc) r l) c = cell r c)
  /\ (forall q, NoDup l.*1 -> (c, q) ∈ l ->
                cell (foldl (fun acc cv => <[cv.1 := VNum cv.2]> acc) r l) c = VNum q).
Proof.
  induction l as [|[c0 q0] t IH]; intros r c; simpl.
  - split; [reflexivity|]. intros q _ H. inversion H.
  - split.
    + intros Hn. apply not_elem_of_cons in Hn as [Hne Hn].
      rewrite (proj1 (IH _ c) Hn). apply cell_insert_ne. congruence.
    + intros q Hnd Hin. apply NoDup_cons in Hnd as [Hc0 Hnd].
      apply elem_of_cons in Hin as [[= -> ->]|Hin].
      * rewrite (proj1 (IH _ c0) Hc0). apply cell_insert_eq.
      * apply (proj2 (IH _ c) q Hnd Hin).
Qed.

Lemma zip_seq_fst (labels : list string) (g : nat -> Q) : forall k,
  (zip labels (map g (seq k (length labels)))).*1 = labels.
Proof.
  induction labels as [|c t IH]; intros k; simpl; [reflexivity|].
  f_equal. apply IH.
Qed.

Lemma zip_seq_elem (labels : list string) (g : nat -> Q) : forall k j c,
  labels !! j = Some c -> (c, g (k + j)%nat) ∈ zip labels (map g (seq k (length labels))).
Proof.
  induction labels as [|c0 t IH]; intros k j c Hj; [discriminate|].
  destruct j as [|j]; simpl in *.
  - injection Hj as ->. rewrite Nat.add_0_r. left.
  - right. replace (k + S j)%nat with (S k + j)%nat by lia. apply IH, Hj.
Qed.

Section Facts.

Variable knn_estimate : nat -> list (list value) -> nat -> nat -> Q.

(** What the joint assignment makes of one row. *)
Definition imputed_row (labels : list string) (r r' : row) : Prop :=
  (forall c, c ∈ labels ->
     exists q, cell r' c = VNum q /\ (notnull (cell r c) = true -> cell r c = VNum q))
  /\ (forall c, c ∉ labels -> cell r' c = cell r c).

Lemma impute_together_rows labels df out :
  NoDup labels ->
  impute_together knn_estimate labels df = Ok out ->
  columns out = columns df
  /\ Forall2 (imputed_row labels) (rows df) (rows out)
  /\ (forall c, c ∈ labels -> exists r, r ∈ rows df /\ notnull (cell r c) = true).
Proof.
  intros Hnd. unfold impute_together.
  destruct (decide (Forall _ labels)); [|discriminate].
  intros E. apply bind_Ok_inv in E as (M & EM & E).
  destruct (forallb _ M) eqn:Hlen; [|discriminate]. injection E as <-.
  assert (Htext0 : rows df = [] -> False).
  { intros E0. rewrite E0 in EM. discriminate EM. }
  apply fit_transform_rows in EM as [Htext ->].
  set (X := map (fun r => map (cell r) labels) (rows df)) in *.
  set (valid := filter (fun j => has_observed X j = true) (seq 0 (length labels))) in *.
  assert (Hrow : forall i r, rows df !! i = Some r ->
                   X !! i = Some (map (cell r) labels)).
  { intros i r Hi. unfold X. rewrite list_lookup_fmap, Hi. reflexivity. }
  assert (Hcell : forall r j c, labels !! j = Some c ->
                    cell_at (map (cell r) labels) j = cell r c).
  { intros r j c Hj. unfold cell_at.
    apply nth_lookup_Some with (d := VNaN). rewrite list_lookup_fmap, Hj. reflexivity. }
  assert (Hall : rows df <> [] -> valid = seq 0 (length labels)).
  { intros Hne. destruct (rows df) as [|r0 t] eqn:Er; [contradiction|].
    unfold X in Hlen. try rewrite Er in Hlen. simpl in Hlen.
    apply andb_true_iff in Hlen as [Hlen _]. apply Nat.eqb_eq in Hlen.
    rewrite length_map in Hlen. unfold valid, X. try rewrite Er.
    apply filter_full. rewrite length_seq. exact Hlen. }
  split; [reflexivity|]. split.
  - cbn [rows]. apply Forall2_same_length_lookup_2.
    { rewrite length_zip_with, length_imap. unfold X. rewrite length_map. lia. }
    intros i r r' Hi Hr'.
    assert (Hne : rows df <> []) by (intros E0; rewrite E0 in Hi; discriminate).
    rewrite (Hall Hne) in Hr'.
    rewrite lookup_zip_with, Hi in Hr'. simpl in Hr'.
    rewrite list_lookup_imap, (Hrow i r Hi) in Hr'. simpl in Hr'. injection Hr' as <-.
    unfold assign_row.
    set (g := fun j => match cell_at (map (cell r) labels) j with
                       | VNum q => q
                       | _ => knn_estimate 5 X i j
                       end).
    split.
    + intros c Hc. apply list_elem_of_lookup in Hc as (j & Hj).
      exists (g j). split.
      * apply assign_cells; [rewrite zip_seq_fst; exact Hnd|].
        apply (zip_seq_elem labels g 0 j c Hj).
      * intros Hn. unfold g. rewrite (Hcell r j c Hj).
        destruct (cell r c) as [| |q|s] eqn:Ec; try discriminate Hn; [reflexivity|].
        exfalso. apply not_true_iff_false in Htext. apply Htext.
        apply existsb_exists. exists (map (cell r) labels). split.
        -- apply list_elem_of_In, list_elem_of_lookup. eauto.
        -- apply existsb_exists. exists (VStr s). split; [|reflexivity].
           apply in_map_iff. exists c. split; [exact Ec|].
           apply list_elem_of_In, list_elem_of_lookup. eauto.
    + intros c Hc. apply assign_cells. rewrite zip_seq_fst. exact Hc.
  - intros c Hc. apply list_elem_of_lookup in Hc as (j & Hj).
    destruct (rows df) as [|r0 t] eqn:Er.
    { exfalso. apply Htext0. reflexivity. }
    assert (Hin : j ∈ valid).
    { rewrite Hall by discriminate. apply list_elem_of_In, in_seq.
      apply lookup_lt_Some in Hj. lia. }
    apply list_elem_of_filter in Hin as [Hobs _]. unfold has_observed in Hobs.
    apply existsb_exists in Hobs as (x & Hx & Hobs). unfold X in Hx.
    apply in_map_iff in Hx as (r & <- & Hr). rewrite (Hcell r j c Hj) in Hobs.
    exists r. split; [apply list_elem_of_In, Hr | exact Hobs].
Qed.

End Facts.

(** When [_merge_and_impute_activity_obesity] returns, the frame has the
    columns of the merge; no row is a [World] row; in every row the three
    imputed columns hold numbers, the known ones as they were, and every
    other cell is as in the merge; and each of the three columns had an
    observed value outside the [World] rows, since a column without one
    makes the assignment fail. *)
Theorem merge_and_impute_activity_obesity_rows
    (knn_estimate : nat -> list (list value) -> nat -> nat -> Q)
    (df1 df2 df3 out : frame) :
  _merge_and_impute_activity_obesity knn_estimate df1 df2 df3 = Ok out ->
  exists merged_df,
    merged_without_world df1 df2 df3 = Ok merged_df
    /\ columns out = columns merged_df
    /\ Forall2 (imputed_row columns_to_impute) (rows merged_df) (rows out)
    /\ Forall (fun r' => cell r' "Country" <> VStr "World") (rows out)
    /\ (forall c, c ∈ columns_to_impute ->
          exists r, r ∈ rows merged_df /\ notnull (cell r c) = true).
Proof.
  unfold _merge_and_impute_activity_obesity. intros E.
  apply bind_Ok_inv in E as (merged_df & Em & E). exists merged_df.
  assert (Hnd : NoDup columns_to_impute).
  { apply (bool_decide_unpack _). vm_compute. exact I. }
  destruct (impute_together_rows _ _ _ _ Hnd E) as (Hc & HF & Hobs).
  split; [exact Em|]. split; [exact Hc|]. split; [exact HF|]. split; [|exact Hobs].
  assert (Hw : Forall (fun r => cell r "Country" <> VStr "World") (rows merged_df)).
  { revert Em. unfold merged_without_world. intros Em.
    apply bind_Ok_inv in Em as (m1 & _ & Em). apply bind_Ok_inv in Em as (m2 & _ & Em).
    injection Em as <-. cbn [rows]. apply Forall_forall. intros r Hr.
    apply list_elem_of_filter in Hr as [Hr _]. intros Heq. rewrite Heq in Hr.
    discriminate. }
  apply Forall_lookup. intros i r' Hr'.
  destruct (Forall2_lookup_r _ _ _ _ _ HF Hr') as (r & Hr & _ & Hsame).
  rewrite Hsame.
  - exact (proj1 (Forall_lookup _ _) Hw i r Hr).
  - unfold columns_to_impute. rewrite !not_elem_of_cons.
    repeat split; try discriminate. apply not_elem_of_nil.
Qed.

(** Activity of Ghana and of the world, obesity of Ghana, and the GDP of
    Ghana and Togo, Togo's being unknown. *)
Definition activity_file : frame :=
  Frame ["Country"; "Code"; "Year"; "Prevalence_Rate"]
        [ {[ "Country" := VStr "Ghana"; "Code" := VStr "GHA"; "Year" := VNum 2000;
             "Prevalence_Rate" := VNum 20 ]};
          {[ "Country" := VStr "World"; "Code" := VStr "WLD"; "Year" := VNum 2000;
             "Prevalence_Rate" := VNum 30 ]} ].

Definition obesity_file : frame :=
  Frame ["Country"; "Code"; "Year"; "Prevalence_Rate"]
        [ {[ "Country" := VStr "Ghana"; "Code" := VStr "GHA"; "Year" := VNum 2000;
             "Prevalence_Rate" := VNum 10 ]} ].

Definition gdp_file : frame :=
  Frame ["Country"; "Code"; "Year"; "GDP"]
        [ {[ "Country" := VStr "Ghana"; "Code" := VStr "GHA"; "Year" := VNum 2000;
             "GDP" := VNum 5000 ]};
          {[ "Country" := VStr "Togo"; "Code" := VStr "TGO"; "Year" := VNum 2000;
             "GDP" := VNaN ]} ].

Lemma merge_and_impute_activity_obesity_rows_witness :
  exists out,
    _merge_and_impute_activity_obesity (fun _ _ _ _ => 1%Q)
                                       activity_file obesity_file gdp_file = Ok out
    /\ Forall (fun r' => cell r' "Country" <> VStr "World") (rows out).
Proof.
  destruct (_merge_and_impute_activity_obesity (fun _ _ _ _ => 1%Q)
              activity_file obesity_file gdp_file) as [out|] eqn:E;
    [|exfalso; revert E; vm_compute; discriminate].
  exists out. split; [reflexivity|].
  destruct (merge_and_impute_activity_obesity_rows _ _ _ _ _ E)
    as (merged_df & _ & _ & _ & H & _).
  exact H.
Defined.

End ActivityObesityFacts.

(** ** The duplicate rows of process_activity_obesity_gdp.py *)

Module DuplicateFacts.

Import FrameFacts SortFacts MissingYearsFacts ProcessActivityObesityGdp.

Lemma keys_match_refl labels r : keys_match labels r r = true.
Proof. apply forallb_forall. intros k _. apply value_eqb_refl. Qed.

Lemma keys_match_trans labels a b c :
  keys_match labels a b = true -> keys_match labels b c = true ->
  keys_match labels a c = true.
Proof.
  unfold keys_match. rewrite !forallb_forall. intros H1 H2 k Hk.
  eapply value_eqb_trans; [apply H1, Hk | apply H2, Hk].
Qed.

(** Two rows that differ in some column. *)
Definition differ (labels : list string) (a b : row) : bool :=
  negb (keys_match labels a b).

Lemma strongly_sorted_filter {A : Type} (R : A -> A -> Prop) (P : A -> Prop)
    `{forall x, Decision (P x)} (l : list A) :
  StronglySorted R l -> StronglySorted R (filter P l).
Proof.
  induction 1 as [|a t Hs IH Ha]; [constructor|].
  destruct (decide (P a)) as [Hp|Hp].
  - rewrite filter_cons_True by exact Hp. constructor; [exact IH|].
    apply Forall_forall. intros x Hx. apply list_elem_of_filter in Hx as [_ Hx].
    rewrite Forall_forall in Ha. apply Ha, Hx.
  - rewrite filter_cons_False by exact Hp. exact IH.
Qed.

Lemma drop_duplicates_rows_distinct labels rs :
  StronglySorted (le (differ labels)) (drop_duplicates_rows labels rs).
Proof.
  induction rs as [|r t IH]; simpl; [constructor|].
  constructor; [apply strongly_sorted_filter, IH|].
  apply Forall_forall. intros x Hx. apply list_elem_of_filter in Hx as [Hx _].
  unfold le, differ. rewrite Hx. reflexivity.
Qed.

Lemma drop_duplicates_rows_complete labels rs r :
  r ∈ rs -> exists r', r' ∈ drop_duplicates_rows labels rs
                     /\ keys_match labels r' r = true.
Proof.
  induction rs as [|r0 t IH]; intros Hr; [inversion Hr|]. simpl.
  apply elem_of_cons in Hr as [->|Hr].
  - exists r0. split; [left | apply keys_match_refl].
  - destruct (IH Hr) as (r' & Hin & Hm).
    destruct (keys_match labels r0 r') eqn:E.
    + exists r0. split; [left|]. eapply keys_match_trans; eassumption.
    + exists r'. split; [|exact Hm]. right. apply list_elem_of_filter. split; assumption.
Qed.

Lemma drop_duplicates_rows_sublist labels rs :
  drop_duplicates_rows labels rs `sublist_of` rs.
Proof.
  induction rs as [|r t IH]; simpl; [constructor|].
  apply sublist_skip. etransitivity; [apply sublist_filter | exact IH].
Qed.

Section Facts.

Variable astype_int : value -> result value.
Variable astype_float : value -> result value.

(** The row with its year and its rate converted. *)
Definition converted (year_column rate_column : string) (r c : row) : Prop :=
  exists y v,
    astype_int (cell r year_column) = Ok y
    /\ astype_float (cell (<[year_column := y]> r) rate_column) = Ok v
    /\ c = <[rate_column := v]> (<[year_column := y]> r).

Lemma conversions df year_column rate_column out :
  clean_and_transform astype_int astype_float df year_column rate_column = Ok out ->
  exists cs, Forall2 (converted year_column rate_column) (rows df) cs
             /\ out = Frame (columns df) (drop_duplicates_rows (columns df) cs).
Proof.
  unfold clean_and_transform.
  destruct (decide (year_column ∈ columns df)) as [Hy|]; [|discriminate].
  intros E. apply bind_Ok_inv in E as (ys & Eys & E).
  rewrite (set_column_present _ _ _ Hy) in E. cbn [columns] in E.
  destruct (decide (rate_column ∈ columns df)) as [Hr|]; [|discriminate].
  apply bind_Ok_inv in E as (vs & Evs & [= <-]).
  rewrite set_column_present by exact Hr. unfold drop_duplicates. cbn [columns rows].
  eexists. split; [|reflexivity].
  apply mapM_Ok_Forall2 in Eys, Evs. unfold column in Eys, Evs. cbn [rows] in Evs.
  apply Forall2_fmap_l in Eys, Evs. simpl in Eys, Evs.
  clear Hy Hr. revert vs Evs. induction Eys as [|r y rs ys Hy _ IH]; intros vs Evs.
  - simpl in Evs. inversion Evs. constructor.
  - simpl in Evs. inversion Evs as [|r1 v rs1 vs1 Hv Hvs]; subst. simpl.
    constructor; [|apply IH, Hvs]. exists y, v. auto.
Qed.

End Facts.

(** When [clean_and_transform] returns, the frame has the columns of the
    input; its rows are rows of the input with the year and the rate
    converted, in their order; no two of them agree in every column; and
    every converted row of the input agrees in every column with a row that
    was kept. *)
Theorem clean_and_transform_rows (astype_int astype_float : value -> result value)
    (df out : frame) (year_column rate_column : string) :
  clean_and_transform astype_int astype_float df year_column rate_column = Ok out ->
  columns out = columns df
  /\ exists cs,
       Forall2 (converted astype_int astype_float year_column rate_column) (rows df) cs
       /\ rows out `sublist_of` cs
       /\ (forall i j r1 r2, (i < j)%nat -> rows out !! i = Some r1 ->
                             rows out !! j = Some r2 ->
                             keys_match (columns df) r1 r2 = false)
       /\ (forall c, c ∈ cs ->
             exists r', r' ∈ rows out /\ keys_match (columns df) r' c = true).
Proof.
  intros E. apply conversions in E as (cs & Hcs & ->). split; [reflexivity|].
  exists cs. cbn [rows]. split; [exact Hcs|].
  split; [apply drop_duplicates_rows_sublist|]. split.
  - intros i j r1 r2 Hij H1 H2.
    pose proof (sorted_lookup (differ (columns df)) _ i j r1 r2
                  (drop_duplicates_rows_distinct (columns df) cs) Hij H1 H2) as H.
    unfold le, differ in H. apply negb_true_iff in H. exact H.
  - intros c Hc. apply drop_duplicates_rows_complete, Hc.
Qed.

(** The same survey entered twice, and another one. *)
Definition entered_twice : frame :=
  Frame ["Country"; "Year"; "Prevalence_Rate"]
        [ {[ "Country" := VStr "Ghana"; "Year" := VNum 2000; "Prevalence_Rate" := VNum 20 ]};
          {[ "Country" := VStr "Togo"; "Year" := VNum 2000; "Prevalence_Rate" := VNaN ]};
          {[ "Country" := VStr "Ghana"; "Year" := VNum 2000; "Prevalence_Rate" := VNum 20 ]};
          {[ "Country" := VStr "Togo"; "Year" := VNum 2000; "Prevalence_Rate" := VNaN ]} ].

Lemma clean_and_transform_rows_witness :
  exists out,
    clean_and_transform Ok Ok entered_twice "Year" "Prevalence_Rate" = Ok out
    /\ length (rows out) = 2%nat
    /\ columns out = columns entered_twice.
Proof.
  destruct (clean_and_transform Ok Ok entered_twice "Year" "Prevalence_Rate")
    as [out|] eqn:E; [|exfalso; revert E; vm_compute; discriminate].
  exists out. split; [reflexivity|]. split.
  - apply (f_equal (fun res => match res with
                               | Ok d => length (rows d)
                               | Raise _ => 0%nat
                               end)) in E.
    vm_compute in E. symmetry. exact E.
  - apply (clean_and_transform_rows Ok Ok entered_twice out "Year" "Prevalence_Rate" E).
Defined.

End DuplicateFacts.

(** ** The fills of the world health data *)

Module FillFacts.

Import FrameFacts ProcessOverweightHealth.

Lemma value_cmp_eq_notnull a b :
  value_cmp_eq a b = true -> isnull a = false /\ isnull b = false.
Proof. destruct a, b; simpl; try discriminate; auto. Qed.

Lemma value_cmp_eq_refl a : isnull a = false -> value_cmp_eq a a = true.
Proof.
  destruct a; simpl; try discriminate; intros _.
  - apply Qeq_bool_iff. reflexivity.
  - apply String.eqb_refl.
Qed.

Lemma value_cmp_eq_trans a b c :
  value_cmp_eq a b = true -> value_cmp_eq b c = true -> value_cmp_eq a c = true.
Proof.
  destruct a, b, c; simpl; try discriminate.
  - rewrite !Qeq_bool_iff. intros H1 H2. rewrite H1. exact H2.
  - rewrite !String.eqb_eq. congruence.
Qed.

Lemma last_seen_Some last k w :
  last_seen last k = Some w -> exists k', (k', w) ∈ last /\ value_cmp_eq k' k = true.
Proof.
  unfold last_seen. destruct (list_find _ last) as [[i [k' w']]|] eqn:E; [|discriminate].
  intros [= <-]. apply list_find_Some in E as (Hi & Hk & _).
  exists k'. split; [apply list_elem_of_lookup; eauto | exact Hk].
Qed.

Lemma last_seen_None last k k' w :
  last_seen last k = None -> (k', w) ∈ last -> value_cmp_eq k' k = false.
Proof.
  unfold last_seen. destruct (list_find _ last) as [[i kv]|] eqn:E; [discriminate|].
  intros _ Hin. apply list_find_None in E. rewrite Forall_forall in E.
  specialize (E _ Hin). simpl in E. destruct (value_cmp_eq k' k); [contradiction|reflexivity].
Qed.

Lemma ffill_pairs_length kvs : forall last,
  length (ffill_pairs last kvs) = length kvs.
Proof.
  induction kvs as [|[k v] t IH]; intros last; simpl; [reflexivity|].
  destruct (isnull k); [simpl; f_equal; apply IH|].
  destruct (notnull v); simpl; f_equal; apply IH.
Qed.

(** The value a forward fill leaves at one position. *)
Lemma ffill_pairs_lookup kvs : forall last i k v,
  Forall (fun kv => notnull kv.2 = true) last ->
  kvs !! i = Some (k, v) -> isnull k = false ->
  exists w,
    ffill_pairs last kvs !! i = Some w
    /\ (notnull v = true -> w = v)
    /\ (notnull w = true ->
        (exists j k', (j <= i)%nat /\ kvs !! j = Some (k', w) /\ value_cmp_eq k' k = true)
        \/ (exists k', (k', w) ∈ last /\ value_cmp_eq k' k = true))
    /\ (isnull w = true ->
        (forall j k' v', (j <= i)%nat -> kvs !! j = Some (k', v') ->
                         value_cmp_eq k' k = true -> isnull v' = true)
        /\ (forall k' v', (k', v') ∈ last -> value_cmp_eq k' k = false)).
Proof.
  induction kvs as [|[k0 v0] t IH]; intros last i k v Hinv Hi Hk; [discriminate|].
  destruct i as [|i].
  - injection Hi as -> ->. simpl. rewrite Hk.
    destruct (notnull v) eqn:Hv.
    + exists v. split; [reflexivity|]. split; [reflexivity|]. split.
      * intros _. left. exists 0%nat, k. split; [lia|]. split; [reflexivity|].
        apply value_cmp_eq_refl, Hk.
      * intros Hn. unfold notnull in Hv. rewrite Hn in Hv. discriminate.
    + destruct (last_seen last k) as [w|] eqn:El; simpl.
      * exists w. split; [reflexivity|]. split; [discriminate|].
        destruct (last_seen_Some _ _ _ El) as (k' & Hin & Hc).
        rewrite Forall_forall in Hinv. pose proof (Hinv _ Hin) as Hw. simpl in Hw.
        split; [intros _; right; eauto|].
        intros Hn. unfold notnull in Hw. rewrite Hn in Hw. discriminate.
      * exists v. split; [reflexivity|]. split; [reflexivity|]. split.
        -- intros Hn. congruence.
        -- intros Hn. split.
           ++ intros j k' v' Hj Hl _. destruct j; [|lia]. injection Hl as _ <-. exact Hn.
           ++ intros k' v' Hin. eapply last_seen_None; eassumption.
  - simpl in Hi.
    set (last' := if isnull k0 then last
                  else if notnull v0 then (k0, v0) :: last else last).
    assert (Hinv' : Forall (fun kv => notnull kv.2 = true) last').
    { unfold last'. destruct (isnull k0); [exact Hinv|].
      destruct (notnull v0) eqn:Hv0; [constructor; assumption | exact Hinv]. }
    assert (Hsub : forall kv, kv ∈ last -> kv ∈ last').
    { unfold last'. intros kv Hin. destruct (isnull k0); [exact Hin|].
      destruct (notnull v0); [right|]; exact Hin. }
    assert (Hnew : forall kv, kv ∈ last' -> kv ∈ last \/ (kv = (k0, v0) /\ isnull k0 = false
                                                          /\ notnull v0 = true)).
    { unfold last'. intros kv Hin. destruct (isnull k0); [left; exact Hin|].
      destruct (notnull v0); [|left; exact Hin].
      apply elem_of_cons in Hin as [->|Hin]; auto. }
    assert (Hout : ffill_pairs last ((k0, v0) :: t) !! S i = ffill_pairs last' t !! i).
    { unfold last'. simpl. destruct (isnull k0); [reflexivity|].
      destruct (notnull v0); reflexivity. }
    destruct (IH last' i k v Hinv' Hi Hk) as (w & Hw & Hkeep & Hfrom & Hnull).
    exists w. rewrite Hout. split; [exact Hw|]. split; [exact Hkeep|]. split.
    + intros Hn. destruct (Hfrom Hn) as [(j & k' & Hj & Hl & Hc)|(k' & Hin & Hc)].
      * left. exists (S j), k'. split; [lia|]. split; [exact Hl | exact Hc].
      * destruct (Hnew _ Hin) as [Hl|([= -> ->] & _ & _)].
        -- right. eauto.
        -- left. exists 0%nat, k0. split; [lia|]. split; [reflexivity | exact Hc].
    + intros Hn. destruct (Hnull Hn) as [Hrows Hlast]. split.
      * intros j k' v' Hj Hl Hc. destruct j as [|j].
        -- injection Hl as -> ->.
           destruct (value_cmp_eq_notnull _ _ Hc) as [Hk0 _].
           destruct (notnull v') eqn:Hv'.
           ++ assert (Hin : (k', v') ∈ last').
              { unfold last'. rewrite Hk0. left. }
              rewrite (Hlast _ _ Hin) in Hc. discriminate.
           ++ unfold notnull in Hv'. apply negb_false_iff in Hv'. exact Hv'.
        -- apply (Hrows j k' v'); [lia | exact Hl | exact Hc].
      * intros k' v' Hin. apply (Hlast k' v'), Hsub, Hin.
Qed.

(** The same for the backward fill. *)
Lemma bfill_pairs_lookup kvs i k v :
  kvs !! i = Some (k, v) -> isnull k = false ->
  exists w,
    reverse (ffill_pairs [] (reverse kvs)) !! i = Some w
    /\ (notnull v = true -> w = v)
    /\ (notnull w = true ->
        exists j k', (i <= j)%nat /\ kvs !! j = Some (k', w) /\ value_cmp_eq k' k = true)
    /\ (isnull w = true ->
        forall j k' v', (i <= j)%nat -> kvs !! j = Some (k', v') ->
                        value_cmp_eq k' k = true -> isnull v' = true).
Proof.
  intros Hi Hk. pose proof (lookup_lt_Some _ _ _ Hi) as Hlt.
  assert (Hrev : forall j, (j < length kvs)%nat ->
                   reverse kvs !! (length kvs - S j)%nat = kvs !! j).
  { intros j Hj. rewrite reverse_lookup by lia. f_equal. lia. }
  destruct (ffill_pairs_lookup (reverse kvs) [] (length kvs - S i) k v)
    as (w & Hw & Hkeep & Hfrom & Hnull);
    [constructor | rewrite Hrev by lia; exact Hi | exact Hk|].
  exists w. split.
  { rewrite reverse_lookup by (rewrite ffill_pairs_length, length_reverse; lia).
    rewrite ffill_pairs_length, length_reverse. exact Hw. }
  split; [exact Hkeep|]. split.
  - intros Hn. destruct (Hfrom Hn) as [(j & k' & Hj & Hl & Hc)|(k' & Hin & _)];
      [|inversion Hin].
    pose proof (lookup_lt_Some _ _ _ Hl) as Hjlt. rewrite length_reverse in Hjlt.
    exists (length kvs - S j)%nat, k'. split; [lia|]. split; [|exact Hc].
    rewrite <- Hl. rewrite reverse_lookup by lia. reflexivity.
  - intros Hn j k' v' Hj Hl Hc. destruct (Hnull Hn) as [Hrows _].
    pose proof (lookup_lt_Some _ _ _ Hl) as Hjlt.
    apply (Hrows (length kvs - S j)%nat k' v'); [lia | | exact Hc].
    rewrite Hrev by lia. exact Hl.
Qed.

(** Forward fill, then backward fill of the result. *)
Definition fill_pairs (kvs : list (value * value)) : list value :=
  reverse (ffill_pairs [] (reverse (zip kvs.*1 (ffill_pairs [] kvs)))).

Lemma fill_pairs_length kvs : length (fill_pairs kvs) = length kvs.
Proof.
  unfold fill_pairs.
  rewrite length_reverse, ffill_pairs_length, length_reverse, length_zip,
    length_fmap, ffill_pairs_length. lia.
Qed.

Lemma fill_pairs_lookup kvs i k v :
  kvs !! i = Some (k, v) -> isnull k = false ->
  exists u,
    fill_pairs kvs !! i = Some u
    /\ (notnull v = true -> u = v)
    /\ (notnull u = true ->
        exists j k', kvs !! j = Some (k', u) /\ value_cmp_eq k' k = true)
    /\ (isnull u = true ->
        forall j k' v', kvs !! j = Some (k', v') -> value_cmp_eq k' k = true ->
                        isnull v' = true).
Proof.
  intros Hi Hk.
  set (ws := ffill_pairs [] kvs).
  assert (Hzip : forall j k' v', kvs !! j = Some (k', v') ->
            exists w, ws !! j = Some w /\ zip kvs.*1 ws !! j = Some (k', w)).
  { intros j k' v' Hj.
    destruct (lookup_lt_is_Some_2 ws j) as [w Hw].
    { unfold ws. rewrite ffill_pairs_length. apply lookup_lt_Some in Hj. exact Hj. }
    exists w. split; [exact Hw|].
    apply lookup_zip_with_Some. exists k', w.
    rewrite list_lookup_fmap, Hj. auto. }
  assert (Hunzip : forall j k' w, zip kvs.*1 ws !! j = Some (k', w) ->
            ws !! j = Some w /\ exists v', kvs !! j = Some (k', v')).
  { intros j k' w Hj. apply lookup_zip_with_Some in Hj as (a & b & [= <- <-] & Ha & Hb).
    split; [exact Hb|]. rewrite list_lookup_fmap in Ha.
    destruct (kvs !! j) as [[k0 v0]|]; [|discriminate]. injection Ha as <-. eauto. }
  destruct (Hzip i k v Hi) as (w & Hw & Hzi).
  destruct (ffill_pairs_lookup kvs [] i k v) as (w0 & Hw0 & Hkeep & Hfrom & Hnull);
    [constructor | exact Hi | exact Hk|].
  fold ws in Hw0. rewrite Hw in Hw0. injection Hw0 as <-.
  destruct (bfill_pairs_lookup _ i k w Hzi Hk) as (u & Hu & Hkeep' & Hfrom' & Hnull').
  exists u. split; [exact Hu|]. split; [|split].
  - intros Hv. rewrite <- (Hkeep Hv). apply Hkeep'. rewrite (Hkeep Hv). exact Hv.
  - intros Hn. destruct (Hfrom' Hn) as (j & k' & _ & Hj & Hc).
    destruct (Hunzip _ _ _ Hj) as (Hwj & v' & Hkj).
    destruct (value_cmp_eq_notnull _ _ Hc) as [Hk' _].
    destruct (ffill_pairs_lookup kvs [] j k' v') as (w1 & Hw1 & _ & Hfrom1 & _);
      [constructor | exact Hkj | exact Hk'|].
    fold ws in Hw1. rewrite Hwj in Hw1. injection Hw1 as <-.
    destruct (Hfrom1 Hn) as [(j' & k'' & _ & Hj' & Hc')|(k'' & Hin & _)];
      [|inversion Hin].
    exists j', k''. split; [exact Hj'|]. eapply value_cmp_eq_trans; eassumption.
  - intros Hn j k' v' Hj Hc.
    destruct (value_cmp_eq_notnull _ _ Hc) as [Hk' _].
    destruct (Nat.le_gt_cases j i) as [Hle|Hgt].
    + assert (Hwn : isnull w = true).
      { apply (Hnull' Hn i k w); [lia | exact Hzi | apply value_cmp_eq_refl, Hk]. }
      destruct (Hnull Hwn) as [Hrows _]. apply (Hrows j k' v' Hle Hj Hc).
    + destruct (Hzip j k' v' Hj) as (wj & Hwj & Hzj).
      assert (Hwn : isnull wj = true).
      { apply (Hnull' Hn j k' wj); [lia | exact Hzj | exact Hc]. }
      destruct (ffill_pairs_lookup kvs [] j k' v') as (w1 & Hw1 & _ & _ & Hnull1);
        [constructor | exact Hj | exact Hk'|].
      fold ws in Hw1. rewrite Hwj in Hw1. injection Hw1 as <-.
      destruct (Hnull1 Hwn) as [Hrows _].
      apply (Hrows j k' v'); [lia | exact Hj | apply value_cmp_eq_refl, Hk'].
Qed.

(** What the two fills make of the cell of one row: a known value is kept;
    a value written comes from a row of the same group; and the cell stays
    null only when the whole group is null. *)
Definition filled_cell (group : list row) (key col : string) (r r' : row) : Prop :=
  (notnull (cell r col) = true -> cell r' col = cell r col)
  /\ (notnull (cell r' col) = true ->
      exists g, g ∈ group /\ value_cmp_eq (cell g key) (cell r key) = true
                /\ cell g col = cell r' col)
  /\ (isnull (cell r' col) = true ->
      forall g, g ∈ group -> value_cmp_eq (cell g key) (cell r key) = true ->
                isnull (cell g col) = true).

Lemma pairs_of_lookup key col df i r :
  rows df !! i = Some r -> pairs_of key col df !! i = Some (cell r key, cell r col).
Proof. intros Hi. unfold pairs_of. rewrite list_lookup_fmap, Hi. reflexivity. Qed.

Lemma pairs_after_ffill key col df :
  key <> col -> col ∈ columns df ->
  pairs_of key col (set_column col (groupby_ffill key col df) df)
  = zip (pairs_of key col df).*1 (ffill_pairs [] (pairs_of key col df)).
Proof.
  intros Hne Hc. rewrite (set_column_present _ _ _ Hc).
  unfold groupby_ffill, pairs_of at 1. cbn [rows].
  assert (Hlen : length (ffill_pairs [] (pairs_of key col df)) = length (rows df)).
  { rewrite ffill_pairs_length. unfold pairs_of. apply length_map. }
  revert Hlen. generalize (ffill_pairs [] (pairs_of key col df)). unfold pairs_of.
  induction (rows df) as [|r t IH]; intros ws Hlen; destruct ws as [|w ws];
    try discriminate; [reflexivity|].
  simpl. rewrite cell_insert_eq, cell_insert_ne by congruence.
  f_equal. apply IH. simpl in Hlen. lia.
Qed.

Lemma fill_within_filled key col df out :
  key <> col -> fill_within key col df = Ok out ->
  (forall r, r ∈ rows df -> isnull (cell r key) = false) ->
  columns out = columns df
  /\ Forall2 (fun r r' => filled_cell (rows df) key col r r'
                          /\ forall c, c <> col -> cell r' c = cell r c)
             (rows df) (rows out).
Proof.
  intros Hne. unfold fill_within.
  destruct (decide (key ∈ columns df /\ col ∈ columns df)) as [[Hk Hc]|]; [|discriminate].
  intros [= <-] Hkeys.
  set (df1 := set_column col (groupby_ffill key col df) df).
  assert (Hc1 : columns df1 = columns df).
  { unfold df1. rewrite (set_column_present _ _ _ Hc). reflexivity. }
  assert (Hr1 : rows df1 = zip_with (fun r v => <[col := v]> r) (rows df)
                                    (ffill_pairs [] (pairs_of key col df))).
  { unfold df1. rewrite (set_column_present _ _ _ Hc). reflexivity. }
  rewrite set_column_present by (rewrite Hc1; exact Hc).
  split; [cbn [columns]; exact Hc1|]. cbn [rows].
  unfold groupby_bfill. unfold df1 at 2. rewrite (pairs_after_ffill key col df Hne Hc).
  fold (fill_pairs (pairs_of key col df)).
  assert (Hl1 : length (rows df1) = length (rows df)).
  { rewrite Hr1, length_zip_with, ffill_pairs_length. unfold pairs_of.
    rewrite length_map. lia. }
  apply Forall2_same_length_lookup_2.
  { rewrite length_zip_with, fill_pairs_length, Hl1. unfold pairs_of.
    rewrite length_map. lia. }
  intros i r r' Hi Hr'.
  apply lookup_zip_with_Some in Hr' as (r1 & u & -> & Hi1 & Hu).
  rewrite Hr1 in Hi1. apply lookup_zip_with_Some in Hi1 as (r0 & w & -> & Hi0 & _).
  rewrite Hi in Hi0. injection Hi0 as <-.
  assert (Hkr : isnull (cell r key) = false).
  { apply Hkeys, list_elem_of_lookup. eauto. }
  destruct (fill_pairs_lookup _ i _ _ (pairs_of_lookup key col df i r Hi) Hkr)
    as (u0 & Hu0 & Hkeep & Hfrom & Hnull).
  rewrite Hu in Hu0. injection Hu0 as <-.
  split; [|intros c Hcne; rewrite !cell_insert_ne by congruence; reflexivity].
  unfold filled_cell. rewrite cell_insert_eq. split; [|split].
  - intros Hn. apply Hkeep, Hn.
  - intros Hn. destruct (Hfrom Hn) as (j & k' & Hj & Hcmp).
    unfold pairs_of in Hj. rewrite list_lookup_fmap in Hj.
    destruct (rows df !! j) as [g|] eqn:Hg; [|discriminate]. injection Hj as <- Hgu.
    exists g. split; [apply list_elem_of_lookup; eauto|]. auto.
  - intros Hn g Hg Hcmp. apply list_elem_of_lookup in Hg as (j & Hj).
    apply (Hnull Hn j _ _ (pairs_of_lookup key col df j g Hj) Hcmp).
Qed.

Lemma where_cell_rows label mask df out :
  where_cell label mask df = Ok out ->
  columns out = columns df
  /\ rows out = filter (fun r => mask (cell r label) = true) (rows df).
Proof.
  unfold where_cell. destruct (decide (label ∈ columns df)); [|discriminate].
  intros [= <-]. split; reflexivity.
Qed.

(** The test a row has to pass to stay in the world health data. *)
Definition kept_row (valid_country_codes : list string) (r : row) : bool :=
  negb (isin_numbers years_to_drop (cell r "year"))
  && negb (isin_texts countries_to_remove (cell r "country"))
  && isin_texts valid_country_codes (cell r "country_code").

Lemma filtered_world_health_rows valid_country_codes df kept :
  filtered_world_health valid_country_codes df = Ok kept ->
  columns kept = columns df
  /\ rows kept `sublist_of` rows df
  /\ (forall r, r ∈ rows kept <-> r ∈ rows df /\ kept_row valid_country_codes r = true).
Proof.
  unfold filtered_world_health. intros E.
  apply bind_Ok_inv in E as (d1 & E1 & E). apply bind_Ok_inv in E as (d2 & E2 & E3).
  apply where_cell_rows in E1 as [C1 R1], E2 as [C2 R2], E3 as [C3 R3].
  split; [congruence|]. split.
  - rewrite R3, R2, R1.
    etransitivity; [apply sublist_filter|].
    etransitivity; [apply sublist_filter|]. apply sublist_filter.
  - intros r. rewrite R3, R2, R1. rewrite !list_elem_of_filter.
    unfold kept_row. rewrite !andb_true_iff. tauto.
Qed.

(** When [_clean_world_health_data] returns: the rows kept are the rows of
    the input, in their order, whose year is not one of the three dropped
    years, whose country is not one of the removed names and whose code is a
    valid code; in the health expenditure and the life expectancy of a kept
    row a known value is kept, a value written comes from a kept row with
    the same country code, and a cell stays null only when no kept row of
    that country code has a value; the result is the first five columns of
    this frame, renamed. *)
Theorem clean_world_health_data_rows (valid_country_codes : list string)
    (df out : frame) :
  _clean_world_health_data valid_country_codes df = Ok out ->
  exists kept filled,
    filtered_world_health valid_country_codes df = Ok kept
    /\ rows kept `sublist_of` rows df
    /\ (forall r, r ∈ rows kept <-> r ∈ rows df /\ kept_row valid_country_codes r = true)
    /\ columns filled = columns df
    /\ Forall2 (fun r r' =>
                  filled_cell (rows kept) "country_code" "health_exp" r r'
                  /\ filled_cell (rows kept) "country_code" "life_expect" r r'
                  /\ forall c, c <> "health_exp" -> c <> "life_expect" ->
                               cell r' c = cell r c)
               (rows kept) (rows filled)
    /\ out = rename [("country_code", "Country_code"); ("country", "Country");
                     ("year", "Year"); ("health_exp", "Health_Expenditure");
                     ("life_expect", "Life_Expectancy")] (iloc_columns 5 filled).
Proof.
  unfold _clean_world_health_data. intros E.
  apply bind_Ok_inv in E as (kept & Ek & E).
  apply bind_Ok_inv in E as (d1 & E1 & E).
  apply bind_Ok_inv in E as (d2 & E2 & [= <-]).
  destruct (filtered_world_health_rows _ _ _ Ek) as (Ck & Hsub & Hkept).
  exists kept, d2. split; [exact Ek|]. split; [exact Hsub|]. split; [exact Hkept|].
  assert (Hkey : forall r, r ∈ rows kept -> isnull (cell r "country_code") = false).
  { intros r Hr. apply Hkept in Hr as [_ Hr]. unfold kept_row in Hr.
    apply andb_true_iff in Hr as [_ Hr].
    destruct (cell r "country_code"); try discriminate. reflexivity. }
  destruct (fill_within_filled "country_code" "health_exp" kept d1) as [C1 F1];
    [discriminate | exact E1 | exact Hkey|].
  assert (Hkey1 : forall r, r ∈ rows d1 -> isnull (cell r "country_code") = false).
  { intros r1 Hr1. apply list_elem_of_lookup in Hr1 as (i & Hi).
    destruct (Forall2_lookup_r _ _ _ _ _ F1 Hi) as (r & Hr & _ & Hsame).
    rewrite Hsame by discriminate. apply Hkey, list_elem_of_lookup. eauto. }
  destruct (fill_within_filled "country_code" "life_expect" d1 d2) as [C2 F2];
    [discriminate | exact E2 | exact Hkey1|].
  split; [congruence|]. split; [|reflexivity].
  apply Forall2_same_length_lookup_2.
  { rewrite (Forall2_length _ _ _ F1). apply (Forall2_length _ _ _ F2). }
  intros i r r2 Hr Hr2.
  destruct (Forall2_lookup_l _ _ _ _ _ F1 Hr) as (r1 & Hr1 & (K1 & G1 & N1) & S1).
  destruct (Forall2_lookup_l _ _ _ _ _ F2 Hr1) as (r2' & Hr2' & (K2 & G2 & N2) & S2).
  rewrite Hr2 in Hr2'. injection Hr2' as <-.
  split; [|split].
  - unfold filled_cell. rewrite (S2 "health_exp") by discriminate.
    split; [exact K1|]. split; [exact G1 | exact N1].
  - unfold filled_cell.
    rewrite <- (S1 "life_expect") by discriminate.
    rewrite <- (S1 "country_code") by discriminate.
    split; [exact K2|]. split.
    + intros Hn. destruct (G2 Hn) as (g1 & Hg1 & Hc & Hv).
      apply list_elem_of_lookup in Hg1 as (j & Hj).
      destruct (Forall2_lookup_r _ _ _ _ _ F1 Hj) as (g & Hg & _ & Sg).
      exists g. split; [apply list_elem_of_lookup; eauto|].
      rewrite <- (Sg "country_code"), <- (Sg "life_expect") by discriminate. auto.
    + intros Hn g Hg Hc. apply list_elem_of_lookup in Hg as (j & Hj).
      destruct (Forall2_lookup_l _ _ _ _ _ F1 Hj) as (g1 & Hg1 & _ & Sg).
      rewrite <- (Sg "life_expect") by discriminate.
      apply (N2 Hn g1); [apply list_elem_of_lookup; eauto|].
      rewrite (Sg "country_code") by discriminate. exact Hc.
  - intros c Hc1 Hc2. rewrite (S2 c Hc2). apply (S1 c Hc1).
Qed.

(** Ghana with a gap on each side, one of the dropped years, a removed
    territory and an aggregate without a country code. *)
Definition world_health_file : frame :=
  Frame ["country"; "country_code"; "year"; "health_exp"; "life_expect"; "source"]
        [ {[ "country" := VStr "Ghana"; "country_code" := VStr "GHA"; "year" := VNum 2000;
             "health_exp" := VNaN; "life_expect" := VNum 58; "source" := VStr "WB" ]};
          {[ "country" := VStr "Ghana"; "country_code" := VStr "GHA"; "year" := VNum 2001;
             "health_exp" := VNum 3; "life_expect" := VNaN; "source" := VStr "WB" ]};
          {[ "country" := VStr "Ghana"; "country_code" := VStr "GHA"; "year" := VNum 2022;
             "health_exp" := VNum 4; "life_expect" := VNum 64; "source" := VStr "WB" ]};
          {[ "country" := VStr "Aruba"; "country_code" := VStr "ABW"; "year" := VNum 2000;
             "health_exp" := VNum 9; "life_expect" := VNum 73; "source" := VStr "WB" ]};
          {[ "country" := VStr "World"; "country_code" := VStr "WLD"; "year" := VNum 2000;
             "health_exp" := VNum 9; "life_expect" := VNum 67; "source" := VStr "WB" ]} ].

Definition cleaned_world_health : frame :=
  Frame ["Country"; "Country_code"; "Year"; "Health_Expenditure"; "Life_Expectancy"]
        [ {[ "Country" := VStr "Ghana"; "Country_code" := VStr "GHA"; "Year" := VNum 2000;
             "Health_Expenditure" := VNum 3; "Life_Expectancy" := VNum 58 ]};
          {[ "Country" := VStr "Ghana"; "Country_code" := VStr "GHA"; "Year" := VNum 2001;
             "Health_Expenditure" := VNum 3; "Life_Expectancy" := VNum 58 ]} ].

Lemma clean_world_health_data_rows_witness :
  _clean_world_health_data ["GHA"; "ABW"] world_health_file = Ok cleaned_world_health
  /\ exists kept, filtered_world_health ["GHA"; "ABW"] world_health_file = Ok kept
                  /\ rows kept `sublist_of` rows world_health_file.
Proof.
  assert (E : _clean_world_health_data ["GHA"; "ABW"] world_health_file
              = Ok cleaned_world_health) by (vm_compute; reflexivity).
  split; [exact E|].
  destruct (clean_world_health_data_rows _ _ _ E) as (kept & filled & Hk & Hs & _).
  exists kept. split; assumption.
Defined.

End FillFacts.

(** ** The interpolation of process_overweight_health.py *)

Module InterpolationFacts.

Import FrameFacts ProcessOverweightHealth.

Lemma interpolate_from_length vs : forall prev,
  length (interpolate_from prev vs) = length vs.
Proof.
  induction vs as [|v t IH]; intros prev; [reflexivity|].
  destruct v, prev; simpl; f_equal; apply IH.
Qed.

Lemma interpolate_from_known vs : forall prev i x,
  vs !! i = Some (VNum x) -> interpolate_from prev vs !! i = Some (VNum x).
Proof.
  induction vs as [|v t IH]; intros prev i x Hi; [discriminate|].
  destruct i as [|i].
  - injection Hi as ->. reflexivity.
  - simpl in Hi. destruct v, prev; simpl; apply IH, Hi.
Qed.

(** After a number the fill does not depend on what came before it. *)
Lemma interpolate_from_prefix pre : forall prev a tail,
  exists out_pre,
    length out_pre = length pre
    /\ interpolate_from prev (pre ++ VNum a :: tail)
       = out_pre ++ VNum a :: interpolate_from (Some a) tail.
Proof.
  induction pre as [|v t IH]; intros prev a tail.
  - exists []. split; reflexivity.
  - destruct v as [| |q|s], prev as [p|]; simpl;
      match goal with
      | |- context [interpolate_from ?p' (t ++ VNum a :: tail)] =>
          destruct (IH p' a tail) as (out & Hl & ->)
      end;
      eexists (_ :: out); (split; [simpl; f_equal; exact Hl | reflexivity]).
Qed.

Lemma next_known_gap gap b post :
  Forall (fun v => isnull v = true) gap ->
  next_known (gap ++ VNum b :: post) = Some (length gap, b).
Proof.
  induction 1 as [|v t Hv _ IH]; [reflexivity|].
  simpl. rewrite IH. destruct v; try discriminate; reflexivity.
Qed.

Lemma next_known_none gap :
  Forall (fun v => isnull v = true) gap -> next_known gap = None.
Proof.
  induction 1 as [|v t Hv _ IH]; [reflexivity|].
  simpl. rewrite IH. destruct v; try discriminate; reflexivity.
Qed.

(** The point at step [k + 1] of the [n + 1] steps from [a] to [b]. *)
Definition straight_line (a b : Q) (n k : nat) : Q :=
  (a + (b - a) * inject_Z (Z.of_nat (S k)) / inject_Z (Z.of_nat (S n)))%Q.

Lemma inject_S (n : nat) :
  (inject_Z (Z.of_nat (S n)) == inject_Z (Z.of_nat n) + 1)%Q.
Proof. rewrite Nat2Z.inj_succ, <- Z.add_1_r, inject_Z_plus. reflexivity. Qed.

Lemma inject_nat_nonneg (n : nat) : (0 <= inject_Z (Z.of_nat n))%Q.
Proof. change 0%Q with (inject_Z 0). rewrite <- Zle_Qle. lia. Qed.

Lemma straight_line_first a b n :
  (a + (b - a) / inject_Z (Z.of_nat (n + 2)%nat) == straight_line a b (S n) 0)%Q.
Proof.
  unfold straight_line. replace (n + 2)%nat with (S (S n)) by lia.
  simpl (Z.of_nat 1). field.
  rewrite inject_S. pose proof (inject_nat_nonneg (S n)). lra.
Qed.

Lemma straight_line_next a b n k :
  (straight_line (straight_line a b (S n) 0) b n k == straight_line a b (S n) (S k))%Q.
Proof.
  unfold straight_line. rewrite !(inject_S (S n)), !(inject_S n), !(inject_S (S k)),
    !(inject_S k). simpl (inject_Z (Z.of_nat 1)).
  pose proof (inject_nat_nonneg n). pose proof (inject_nat_nonneg k).
  field. split; lra.
Qed.

(** A run of nulls between [a] and [b]. *)
Lemma interpolate_from_gap gap : forall a b post,
  Forall (fun v => isnull v = true) gap ->
  exists ys,
    length ys = length gap
    /\ interpolate_from (Some a) (gap ++ VNum b :: post)
       = map VNum ys ++ VNum b :: interpolate_from (Some b) post
    /\ forall k y, ys !! k = Some y -> (y == straight_line a b (length gap) k)%Q.
Proof.
  induction gap as [|v g IH]; intros a b post Hgap.
  - exists []. split; [reflexivity|]. split; [reflexivity|]. intros k y Hk. discriminate.
  - apply Forall_cons in Hgap as [Hv Hg].
    set (x := (a + (b - a) / inject_Z (Z.of_nat (length g + 2)%nat))%Q).
    destruct (IH x b post Hg) as (ys & Hlen & Heq & Hys).
    exists (x :: ys). split; [simpl; f_equal; exact Hlen|]. split.
    + simpl. rewrite (next_known_gap g b post Hg). fold x. rewrite Heq.
      destruct v; try discriminate Hv; reflexivity.
    + intros k y Hk. destruct k as [|k]; simpl in Hk.
      * injection Hk as <-. unfold x. simpl length. apply straight_line_first.
      * rewrite (Hys k y Hk). simpl length.
        rewrite <- straight_line_next. unfold straight_line at 1 3.
        unfold x. rewrite straight_line_first. reflexivity.
Qed.

(** A run of nulls after the last number. *)
Lemma interpolate_from_tail gap a :
  Forall (fun v => isnull v = true) gap ->
  interpolate_from (Some a) gap = map (fun _ => VNum a) gap.
Proof.
  induction 1 as [|v g Hv Hg IH]; [reflexivity|].
  simpl. rewrite (next_known_none g Hg), IH.
  destruct v; try discriminate Hv; reflexivity.
Qed.

(** A run of nulls before the first number. *)
Lemma interpolate_from_head gap rest :
  Forall (fun v => isnull v = true) gap ->
  interpolate_from None (gap ++ rest) = gap ++ interpolate_from None rest.
Proof.
  induction 1 as [|v g Hv Hg IH]; [reflexivity|].
  simpl. rewrite IH. destruct v; try discriminate Hv; reflexivity.
Qed.

(** What a linear interpolation makes of a column: the numbers are kept;
    the nulls before the first number are left; between two numbers the
    nulls are filled along the straight line from one to the other; and
    after the last number they are filled with that number. *)
Definition interpolated (vs us : list value) : Prop :=
  length us = length vs
  /\ (forall i x, vs !! i = Some (VNum x) -> us !! i = Some (VNum x))
  /\ (forall gap rest k v,
        vs = gap ++ rest -> Forall (fun v => isnull v = true) gap ->
        gap !! k = Some v -> us !! k = Some v)
  /\ (forall pre a gap b post k,
        vs = pre ++ VNum a :: gap ++ VNum b :: post ->
        Forall (fun v => isnull v = true) gap -> (k < length gap)%nat ->
        exists y, us !! (length pre + 1 + k)%nat = Some (VNum y)
                  /\ (y == straight_line a b (length gap) k)%Q)
  /\ (forall pre a gap k,
        vs = pre ++ VNum a :: gap ->
        Forall (fun v => isnull v = true) gap -> (k < length gap)%nat ->
        us !! (length pre + 1 + k)%nat = Some (VNum a)).

Lemma interpolate_from_interpolated vs : interpolated vs (interpolate_from None vs).
Proof.
  split; [apply interpolate_from_length|].
  split; [intros i x; apply interpolate_from_known|]. split; [|split].
  - intros gap rest k v -> Hgap Hk.
    rewrite (interpolate_from_head gap rest Hgap).
    rewrite lookup_app_l by (apply lookup_lt_Some in Hk; exact Hk). exact Hk.
  - intros pre a gap b post k -> Hgap Hk.
    destruct (interpolate_from_prefix pre None a (gap ++ VNum b :: post))
      as (out_pre & Hl & ->).
    destruct (interpolate_from_gap gap a b post Hgap) as (ys & Hlen & -> & Hys).
    destruct (lookup_lt_is_Some_2 ys k) as [y Hy]; [lia|].
    exists y. split; [|apply (Hys k y Hy)].
    rewrite lookup_app_r by lia. replace (length pre + 1 + k - length out_pre)%nat
      with (S k) by lia.
    simpl. rewrite lookup_app_l by (rewrite length_map; lia).
    rewrite list_lookup_fmap, Hy. reflexivity.
  - intros pre a gap k -> Hgap Hk.
    destruct (interpolate_from_prefix pre None a gap) as (out_pre & Hl & ->).
    rewrite (interpolate_from_tail gap a Hgap).
    rewrite lookup_app_r by lia. replace (length pre + 1 + k - length out_pre)%nat
      with (S k) by lia.
    simpl. rewrite list_lookup_fmap.
    destruct (lookup_lt_is_Some_2 gap k Hk) as [v ->]. reflexivity.
Qed.

Lemma column_set_column col vs df :
  length vs = length (rows df) -> col ∈ columns df ->
  column col (set_column col vs df) = vs.
Proof.
  intros Hlen Hc. rewrite (set_column_present _ _ _ Hc). unfold column. cbn [rows].
  revert vs Hlen. induction (rows df) as [|r t IH]; intros [|v vs] Hlen;
    try discriminate; [reflexivity|].
  simpl. rewrite cell_insert_eq. f_equal. apply IH. simpl in Hlen. lia.
Qed.

Lemma same_column c (l l' : list row) :
  Forall2 (fun r r' => cell r' c = cell r c) l l' ->
  map (fun r => cell r c) l' = map (fun r => cell r c) l.
Proof. induction 1 as [|r r' l l' H _ IH]; simpl; [reflexivity|]. rewrite H, IH. reflexivity. Qed.

Lemma interpolate_column_rows col df out :
  interpolate_column col df = Ok out ->
  columns out = columns df
  /\ interpolated (column col df) (column col out)
  /\ Forall2 (fun r r' => forall c, c <> col -> cell r' c = cell r c) (rows df) (rows out).
Proof.
  unfold interpolate_column. destruct (decide (col ∈ columns df)) as [Hc|]; [|discriminate].
  intros E. apply bind_Ok_inv in E as (vs & Evs & [= <-]).
  unfold interpolate in Evs. destruct (existsb _ _); [discriminate|]. injection Evs as <-.
  assert (Hlen : length (interpolate_from None (column col df)) = length (rows df)).
  { rewrite interpolate_from_length. unfold column. apply length_map. }
  split; [rewrite (set_column_present _ _ _ Hc); reflexivity|]. split.
  - rewrite (column_set_column _ _ _ Hlen Hc). apply interpolate_from_interpolated.
  - rewrite (set_column_present _ _ _ Hc). cbn [rows].
    apply Forall2_same_length_lookup_2; [rewrite length_zip_with; lia|].
    intros i r r' Hi Hr'. apply lookup_zip_with_Some in Hr' as (r0 & v & -> & Hi0 & _).
    rewrite Hi in Hi0. injection Hi0 as <-. intros c Hne.
    apply cell_insert_ne. congruence.
Qed.

(** When [_merge_and_clean_datasets] returns, the life expectancy and the
    health expenditure of the result are the linear interpolations of the
    columns of the merged and supplemented frame, taken over the rows in
    their order, whatever the country of a row; every other cell is as in
    that frame. *)
Theorem merge_and_clean_datasets_interpolated (astype_int : value -> result value)
    (overweight_df world_df life_expectancy_df out : frame) :
  _merge_and_clean_datasets astype_int overweight_df world_df life_expectancy_df = Ok out ->
  exists merged_df,
    supplemented astype_int overweight_df world_df life_expectancy_df = Ok merged_df
    /\ columns out = columns merged_df
    /\ interpolated (column "Life_Expectancy" merged_df) (column "Life_Expectancy" out)
    /\ interpolated (column "Health_Expenditure" merged_df)
                    (column "Health_Expenditure" out)
    /\ Forall2 (fun r r' => forall c, c <> "Life_Expectancy" -> c <> "Health_Expenditure" ->
                                      cell r' c = cell r c)
               (rows merged_df) (rows out).
Proof.
  unfold _merge_and_clean_datasets. intros E.
  apply bind_Ok_inv in E as (merged_df & Em & E).
  apply bind_Ok_inv in E as (d1 & E1 & E2).
  destruct (interpolate_column_rows _ _ _ E1) as (C1 & I1 & S1).
  destruct (interpolate_column_rows _ _ _ E2) as (C2 & I2 & S2).
  exists merged_df. split; [exact Em|]. split; [congruence|].
  assert (L : column "Life_Expectancy" out = column "Life_Expectancy" d1).
  { apply same_column. eapply Forall2_impl; [exact S2|].
    intros r r' H. apply H. discriminate. }
  assert (H : column "Health_Expenditure" d1 = column "Health_Expenditure" merged_df).
  { apply same_column. eapply Forall2_impl; [exact S1|].
    intros r r' H. apply H. discriminate. }
  split; [rewrite L; exact I1|]. split; [rewrite <- H; exact I2|].
  eapply PipelineFacts.Forall2_chain; [|exact S1|exact S2].
  intros a b c Hab Hbc col Hl Hh. rewrite (Hbc col Hh). apply (Hab col Hl).
Qed.

(** Three years of Ghana and one of Togo; the world data have Ghana in 2000
    and 2002 and nothing for Togo; the supplement has Ghana in 2001. *)
Definition overweight_file : frame :=
  Frame ["Country_code"; "Country"; "Year"; "Overweight_Prevalence"]
        [ {[ "Country_code" := VStr "GHA"; "Country" := VStr "Ghana"; "Year" := VNum 2000;
             "Overweight_Prevalence" := VNum 20 ]};
          {[ "Country_code" := VStr "GHA"; "Country" := VStr "Ghana"; "Year" := VNum 2001;
             "Overweight_Prevalence" := VNum 21 ]};
          {[ "Country_code" := VStr "GHA"; "Country" := VStr "Ghana"; "Year" := VNum 2002;
             "Overweight_Prevalence" := VNum 22 ]};
          {[ "Country_code" := VStr "TGO"; "Country" := VStr "Togo"; "Year" := VNum 2000;
             "Overweight_Prevalence" := VNum 15 ]} ].

Definition world_file : frame :=
  Frame ["Country_code"; "Country"; "Year"; "Health_Expenditure"; "Life_Expectancy"]
        [ {[ "Country_code" := VStr "GHA"; "Country" := VStr "Ghana"; "Year" := VNum 2000;
             "Health_Expenditure" := VNum 3; "Life_Expectancy" := VNum 58 ]};
          {[ "Country_code" := VStr "GHA"; "Country" := VStr "Ghana"; "Year" := VNum 2002;
             "Health_Expenditure" := VNum 5; "Life_Expectancy" := VNum 62 ]} ].

Definition supplement_file : frame :=
  Frame ["Country_code"; "Imputed_Life_Expectancy"; "Year"]
        [ {[ "Country_code" := VStr "GHA"; "Imputed_Life_Expectancy" := VNum 61;
             "Year" := VNum 2001 ]} ].

(** The two columns of a result. *)
Definition life_and_health (res : result frame) : list value * list value :=
  match res with
  | Ok out => (column "Life_Expectancy" out, column "Health_Expenditure" out)
  | Raise _ => ([], [])
  end.

Lemma togo_from_ghana :
  life_and_health (_merge_and_clean_datasets Ok overweight_file world_file supplement_file)
  = ([VNum 58; VNum 61; VNum 62; VNum 62], [VNum 3; VNum (8 # 2); VNum 5; VNum 5]).
Proof. vm_compute. reflexivity. Qed.

Lemma merge_and_clean_datasets_interpolated_witness :
  exists out merged_df,
    _merge_and_clean_datasets Ok overweight_file world_file supplement_file = Ok out
    /\ supplemented Ok overweight_file world_file supplement_file = Ok merged_df
    /\ interpolated (column "Life_Expectancy" merged_df) (column "Life_Expectancy" out).
Proof.
  pose proof togo_from_ghana as H.
  destruct (_merge_and_clean_datasets Ok overweight_file world_file supplement_file)
    as [out|] eqn:E; [|discriminate].
  destruct (merge_and_clean_datasets_interpolated _ _ _ _ _ E)
    as (merged_df & Em & _ & Hl & _).
  exists out, merged_df. split; [reflexivity|]. split; assumption.
Defined.

End InterpolationFacts.

(** ** The supplemental life expectancies *)

Module SupplementFacts.

Import FrameFacts ProcessOverweightHealth.

(** The supplemental row is for the country code and the year of [r]. *)
Definition is_for (supplemental r : row) : bool :=
  value_cmp_eq (cell r "Country_code") (cell supplemental "Country_code")
  && value_cmp_eq (cell r "Year") (cell supplemental "Year").

Definition supplement_all (supplementals : list row) (r : row) : row :=
  foldl (fun r supplemental => supplement supplemental r) r supplementals.

Lemma supplement_others s r c :
  c <> "Life_Expectancy" -> cell (supplement s r) c = cell r c.
Proof.
  intros Hc. unfold supplement. destruct (_ && _); [|reflexivity].
  apply cell_insert_ne. congruence.
Qed.

Lemma supplement_is_for s s' r : is_for s' (supplement s r) = is_for s' r.
Proof. unfold is_for. rewrite !supplement_others by discriminate. reflexivity. Qed.

Lemma supplement_all_others ss : forall r c,
  c <> "Life_Expectancy" -> cell (supplement_all ss r) c = cell r c.
Proof.
  induction ss as [|s t IH]; intros r c Hc; [reflexivity|].
  simpl. rewrite (IH _ c Hc). apply supplement_others, Hc.
Qed.

Lemma supplement_all_known ss : forall r,
  notnull (cell r "Life_Expectancy") = true -> supplement_all ss r = r.
Proof.
  induction ss as [|s t IH]; intros r Hn; [reflexivity|].
  simpl. assert (E : supplement s r = r).
  { unfold supplement. unfold notnull in Hn. apply negb_true_iff in Hn. rewrite Hn.
    rewrite andb_false_r. reflexivity. }
  rewrite E. apply IH, Hn.
Qed.

Lemma supplement_all_unmatched ss : forall r,
  Forall (fun s => is_for s r = false) ss -> supplement_all ss r = r.
Proof.
  induction ss as [|s t IH]; intros r Hall; [reflexivity|].
  apply Forall_cons in Hall as [Hs Ht]. simpl.
  assert (E : supplement s r = r).
  { unfold supplement. fold (is_for s r). rewrite Hs. reflexivity. }
  rewrite E. apply IH, Ht.
Qed.

(** The first supplemental row for the code and the year that has a value
    gives the value. *)
Lemma supplement_all_first pre : forall r s post,
  isnull (cell r "Life_Expectancy") = true ->
  Forall (fun p => is_for p r = false
                   \/ isnull (cell p "Imputed_Life_Expectancy") = true) pre ->
  is_for s r = true -> notnull (cell s "Imputed_Life_Expectancy") = true ->
  cell (supplement_all (pre ++ s :: post) r) "Life_Expectancy"
  = cell s "Imputed_Life_Expectancy".
Proof.
  induction pre as [|p t IH]; intros r s post Hn Hpre Hs Hv.
  - simpl. fold (supplement_all post (supplement s r)).
    assert (E : supplement s r = <["Life_Expectancy" := cell s "Imputed_Life_Expectancy"]> r).
    { unfold supplement. fold (is_for s r). rewrite Hs, Hn. reflexivity. }
    rewrite supplement_all_known; rewrite E, cell_insert_eq; [reflexivity | exact Hv].
  - apply Forall_cons in Hpre as [Hp Ht]. simpl.
    fold (supplement_all (t ++ s :: post) (supplement p r)).
    apply IH.
    + unfold supplement. fold (is_for p r). rewrite Hn, andb_true_r.
      destruct (is_for p r) eqn:Ep; [|exact Hn].
      rewrite cell_insert_eq. destruct Hp as [Hp|Hp]; [discriminate | exact Hp].
    + eapply Forall_impl; [exact Ht|]. intros q Hq. simpl in Hq.
      rewrite supplement_is_for. exact Hq.
    + rewrite supplement_is_for. exact Hs.
    + exact Hv.
Qed.

(** The loop over the supplemental rows.  It changes nothing but life
    expectancies; a known life expectancy is kept; a row for which the
    supplement has no row of its code and year is left as it is; and a
    missing life expectancy takes the value of the first supplemental row
    of its code and year that has one. *)
Theorem fill_from_supplement_rows (life_expectancy_df merged_df out : frame) :
  fill_from_supplement life_expectancy_df merged_df = Ok out ->
  columns out = columns merged_df
  /\ Forall2 (fun r r' =>
       (forall c, c <> "Life_Expectancy" -> cell r' c = cell r c)
       /\ (notnull (cell r "Life_Expectancy") = true -> r' = r)
       /\ (Forall (fun s => is_for s r = false) (rows life_expectancy_df) -> r' = r)
       /\ (forall pre s post,
             rows life_expectancy_df = pre ++ s :: post ->
             isnull (cell r "Life_Expectancy") = true ->
             Forall (fun p => is_for p r = false
                              \/ isnull (cell p "Imputed_Life_Expectancy") = true) pre ->
             is_for s r = true ->
             notnull (cell s "Imputed_Life_Expectancy") = true ->
             cell r' "Life_Expectancy" = cell s "Imputed_Life_Expectancy"))
     (rows merged_df) (rows out).
Proof.
  unfold fill_from_supplement.
  destruct (rows life_expectancy_df) as [|s0 ss] eqn:Es.
  - intros [= <-]. split; [reflexivity|].
    apply Forall_Forall2_diag, Forall_forall. intros r _.
    repeat split; try reflexivity. intros pre s post H. destruct pre; discriminate.
  - destruct (decide _); [|discriminate]. intros [= <-]. split; [reflexivity|].
    cbn [rows]. apply Forall2_fmap_r, Forall_Forall2_diag, Forall_forall. intros r _.
    unfold compose. cbv beta.
    match goal with
    | |- context [foldl ?f ?a ss] =>
        change (foldl f a ss) with (supplement_all (s0 :: ss) r)
    end.
    split; [|split; [|split]].
    + intros c Hc. apply supplement_all_others, Hc.
    + apply supplement_all_known.
    + apply supplement_all_unmatched.
    + intros pre s post -> Hn Hpre Hs Hv. apply supplement_all_first; assumption.
Qed.

(** Ghana without a life expectancy in 2001, and a supplement that has one. *)
Definition merged_gap : frame :=
  Frame ["Country_code"; "Country"; "Year"; "Life_Expectancy"]
        [ {[ "Country_code" := VStr "GHA"; "Country" := VStr "Ghana"; "Year" := VNum 2000;
             "Life_Expectancy" := VNum 58 ]};
          {[ "Country_code" := VStr "GHA"; "Country" := VStr "Ghana"; "Year" := VNum 2001;
             "Life_Expectancy" := VNaN ]} ].

Definition who_supplement : frame :=
  Frame ["Country_code"; "Imputed_Life_Expectancy"; "Year"]
        [ {[ "Country_code" := VStr "GHA"; "Imputed_Life_Expectancy" := VNum 57;
             "Year" := VNum 2000 ]};
          {[ "Country_code" := VStr "GHA"; "Imputed_Life_Expectancy" := VNum 61;
             "Year" := VNum 2001 ]} ].

Lemma fill_from_supplement_rows_witness :
  exists out,
    fill_from_supplement who_supplement merged_gap = Ok out
    /\ column "Life_Expectancy" out = [VNum 58; VNum 61]
    /\ columns out = columns merged_gap.
Proof.
  destruct (fill_from_supplement who_supplement merged_gap) as [out|] eqn:E;
    [|exfalso; revert E; vm_compute; discriminate].
  exists out. split; [reflexivity|]. split.
  - apply (f_equal (fun res => match res with
                               | Ok d => column "Life_Expectancy" d
                               | Raise _ => []
                               end)) in E.
    vm_compute in E. symmetry. exact E.
  - apply (fill_from_supplement_rows who_supplement merged_gap out E).
Defined.

End SupplementFacts.

(** ** The columns of the diabetes file *)

Module DiabetesColumnsFacts.

Import FrameFacts MergeFacts ProcessDiabetesAlcohol.

(** The renames of [_diabetes_column_processing]. *)
Definition new_label : string -> string :=
  rename_label [("Country/Region/World", "Location"); ("ISO", "Code"); ("Sex", "Gender")].

(** What main_pipeline.py reads in the [Gender] column written for a cell
    of the file. *)
Definition read_back (sex : value) : value :=
  match sex with
  | VStr s => if String.eqb s "Men" then VStr "Male"
              else if String.eqb s "Women" then VStr "Female" else VNaN
  | _ => VNaN
  end.

Lemma selected_cell (g : string -> value) (labels : list string) (c : string) :
  cell (list_to_map (map (fun c => (c, g c)) labels)) c
  = if decide (c ∈ labels) then g c else VNaN.
Proof.
  unfold cell. induction labels as [|a t IH]; simpl.
  - rewrite lookup_empty. reflexivity.
  - destruct (decide (a = c)) as [->|Hne].
    + rewrite lookup_insert_eq. rewrite decide_True by left. reflexivity.
    + rewrite lookup_insert_ne by exact Hne. rewrite IH.
      destruct (decide (c ∈ t)) as [Ht|Ht].
      * rewrite decide_True by (right; exact Ht). reflexivity.
      * rewrite decide_False; [reflexivity|].
        intros H. apply elem_of_cons in H as [->|H]; [congruence | contradiction].
Qed.

(** When [_diabetes_column_processing] returns on a frame whose labels stay
    distinct under the renames: the columns are the renamed columns without
    the six dropped ones, in their order; the [Gender] cell of a row is 0
    for "Men", 1 for "Women" and NaN for anything else, which main_pipeline.py
    reads back as "Male", "Female" and NaN; every other cell that is kept is
    the cell of the file; and a dropped label reads as NaN. *)
Theorem diabetes_column_processing_rows (df out : frame) :
  NoDup (map new_label (columns df)) ->
  _diabetes_column_processing df = Ok out ->
  columns out = filter (fun c => c ∉ columns_to_drop) (map new_label (columns df))
  /\ Forall2 (fun r r' =>
       (forall c, c ∈ columns df -> new_label c = "Gender" ->
                  cell r' "Gender" = map_sex (cell r c)
                  /\ MainPipeline.map_gender (cell r' "Gender") = read_back (cell r c))
       /\ (forall c, c ∈ columns df -> new_label c <> "Gender" ->
                     new_label c ∉ columns_to_drop -> cell r' (new_label c) = cell r c)
       /\ (forall c, c ∈ columns_to_drop -> cell r' c = VNaN))
     (rows df) (rows out).
Proof.
  intros Hnd. unfold _diabetes_column_processing. fold new_label.
  set (df1 := rename _ df).
  assert (Hc1 : columns df1 = map new_label (columns df)) by reflexivity.
  assert (Hr1 : rows df1 = map (fun r => list_to_map
                 (relabel new_label (fun c r => cell r c) (columns df) r)) (rows df))
    by reflexivity.
  destruct (decide ("Gender" ∈ columns df1)) as [Hg|]; [|discriminate].
  unfold column. rewrite map_map.
  set (df2 := set_column "Gender" _ df1).
  assert (Hc2 : columns df2 = columns df1).
  { unfold df2. rewrite (set_column_present _ _ _ Hg). reflexivity. }
  assert (Hr2 : rows df2 = map (fun r => <["Gender" := map_sex (cell r "Gender")]> r)
                               (rows df1)).
  { unfold df2. apply (DiseaseMetricsFacts.set_column_rows "Gender"
                         (fun r => map_sex (cell r "Gender")) df1). }
  unfold drop_columns. destruct (decide (Forall _ columns_to_drop)); [|discriminate].
  intros E. assert (Eo : Frame (filter (fun c => c ∉ columns_to_drop) (columns df2))
            (map (fun r => list_to_map (map (fun c => (c, cell r c))
               (filter (fun c => c ∉ columns_to_drop) (columns df2)))) (rows df2)) = out)
    by congruence.
  clear E. subst out. cbn [columns rows]. rewrite Hc2, Hc1. split; [reflexivity|].
  rewrite Hr2, Hr1, !map_map.
  apply Forall2_fmap_r, Forall_Forall2_diag, Forall_forall. intros r _.
  set (kept := filter (fun c => c ∉ columns_to_drop) (map new_label (columns df))).
  assert (Hcell : forall c, c ∈ columns df ->
            cell (list_to_map (relabel new_label (fun c r => cell r c) (columns df) r))
                 (new_label c) = cell r c).
  { intros c Hc.
    pose proof (left_label_lookup new_label (fun c r => cell r c) (columns df) r [] c
                  Hnd Hc) as H.
    rewrite app_nil_r in H. exact H. }
  assert (Hkept : forall c, c ∈ columns df -> new_label c ∉ columns_to_drop ->
                            new_label c ∈ kept).
  { intros c Hc Hn. apply list_elem_of_filter. split; [exact Hn|].
    apply list_elem_of_fmap. eauto. }
  split; [|split].
  - intros c Hc Hgender.
    assert (Hv : cell (list_to_map (map (fun c0 => (c0,
                   cell (<["Gender" := map_sex (cell (list_to_map
                     (relabel new_label (fun c r => cell r c) (columns df) r)) "Gender")]>
                     (list_to_map (relabel new_label (fun c r => cell r c) (columns df) r)))
                     c0)) kept)) "Gender" = map_sex (cell r c)).
    { rewrite selected_cell. rewrite decide_True.
      - rewrite cell_insert_eq. rewrite <- Hgender at 1. rewrite (Hcell c Hc). reflexivity.
      - rewrite <- Hgender. apply Hkept; [exact Hc|]. rewrite Hgender.
        apply (bool_decide_unpack _). vm_compute. exact I. }
    simpl. rewrite Hv. split; [reflexivity|].
    destruct (cell r c) as [| |q|s]; try reflexivity. simpl.
    destruct (String.eqb s "Men"); [reflexivity|].
    destruct (String.eqb s "Women"); reflexivity.
  - intros c Hc Hng Hnd'. simpl. rewrite selected_cell.
    rewrite decide_True by (apply Hkept; assumption).
    rewrite cell_insert_ne by congruence. apply Hcell, Hc.
  - intros c Hc. simpl. rewrite selected_cell. rewrite decide_False; [reflexivity|].
    intros H. apply list_elem_of_filter in H as [H _]. contradiction.
Qed.

(** The diabetes file as it is read: two rows of Ghana. *)
Definition ncd_file : frame :=
  Frame ["Country/Region/World"; "ISO"; "Sex"; "Year"; "Age";
         "Prevalence of diabetes (18+ years)";
         "Prevalence of diabetes (18+ years) lower 95% uncertainty interval";
         "Prevalence of diabetes (18+ years) upper 95% uncertainty interval";
         "Proportion of people with diabetes who were treated (30+ years)";
         "Proportion of people with diabetes who were treated (30+ years) lower 95% uncertainty interval";
         "Proportion of people with diabetes who were treated (30+ years) upper 95% uncertainty interval"]
        [ {[ "Country/Region/World" := VStr "Ghana"; "ISO" := VStr "GHA";
             "Sex" := VStr "Men"; "Year" := VNum 1990;
             "Prevalence of diabetes (18+ years)" := VNum 5 ]};
          {[ "Country/Region/World" := VStr "Ghana"; "ISO" := VStr "GHA";
             "Sex" := VStr "Women"; "Year" := VNum 1990;
             "Prevalence of diabetes (18+ years)" := VNum 6 ]} ].

Lemma diabetes_column_processing_rows_witness :
  exists out,
    _diabetes_column_processing ncd_file = Ok out
    /\ columns out = ["Location"; "Code"; "Gender"; "Year";
                      "Prevalence of diabetes (18+ years)"].
Proof.
  destruct (_diabetes_column_processing ncd_file) as [out|] eqn:E;
    [|exfalso; revert E; vm_compute; discriminate].
  exists out. split; [reflexivity|].
  destruct (diabetes_column_processing_rows ncd_file out) as [Hc _];
    [apply (bool_decide_unpack _); vm_compute; exact I | exact E|].
  rewrite Hc. vm_compute. reflexivity.
Defined.

End DiabetesColumnsFacts.

(** ** The sidebar *)

Module SidebarFacts.

Import App.

(** The click counter decides by its parity alone: an odd count hides the
    sidebar, an even count or no click shows it; so one more click changes
    the three styles and two more clicks give the same styles.  The three
    styles go together: the sidebar is moved out to the left exactly when
    the content has the narrow margin and the button is at the left edge;
    and hiding changes nothing of the sidebar but [left]. *)
Theorem toggle_sidebar_alternates (k : Z) :
  toggle_sidebar (Some k)
  = (if Z.odd k then (SIDEBAR_HIDDEN, CONTENT_STYLE2, TOGGLE_STYLE_HIDDEN)
     else (SIDEBAR_STYLE, CONTENT_STYLE1, TOGGLE_STYLE))
  /\ toggle_sidebar None = toggle_sidebar (Some 0%Z)
  /\ toggle_sidebar (Some (k + 1)%Z) <> toggle_sidebar (Some k)
  /\ toggle_sidebar (Some (k + 2)%Z) = toggle_sidebar (Some k)
  /\ (forall c, c <> "left" -> SIDEBAR_HIDDEN !! c = SIDEBAR_STYLE !! c)
  /\ (cell (toggle_sidebar (Some k)).1.1 "left" = VStr "-280px"
      <-> cell (toggle_sidebar (Some k)).1.2 "marginLeft" = VStr "50px")
  /\ (cell (toggle_sidebar (Some k)).1.1 "left" = VStr "-280px"
      <-> cell (toggle_sidebar (Some k)).2 "left" = VStr "20px").
Proof.
  assert (Hodd : forall z, negb (Z.eqb z 0) && Z.eqb (z mod 2) 1 = Z.odd z).
  { intros z. rewrite Zmod_odd. destruct (Z.odd z) eqn:Ez.
    - rewrite andb_true_r. destruct (Z.eqb_spec z 0) as [->|]; [discriminate|reflexivity].
    - apply andb_false_r. }
  assert (Hcase : forall z, toggle_sidebar (Some z)
            = (if Z.odd z then (SIDEBAR_HIDDEN, CONTENT_STYLE2, TOGGLE_STYLE_HIDDEN)
               else (SIDEBAR_STYLE, CONTENT_STYLE1, TOGGLE_STYLE))).
  { intros z. unfold toggle_sidebar. rewrite Hodd. reflexivity. }
  assert (Hdiff : (SIDEBAR_HIDDEN, CONTENT_STYLE2, TOGGLE_STYLE_HIDDEN)
                  <> (SIDEBAR_STYLE, CONTENT_STYLE1, TOGGLE_STYLE)).
  { intros H. apply (f_equal (fun t => cell t.1.2 "marginLeft")) in H.
    vm_compute in H. discriminate. }
  split; [apply Hcase|]. split; [reflexivity|]. split; [|split; [|split; [|split]]].
  - rewrite !Hcase. rewrite Z.odd_add. simpl (Z.odd 1).
    destruct (Z.odd k); simpl; [intros H; apply Hdiff; symmetry; exact H | exact Hdiff].
  - rewrite !Hcase. rewrite Z.odd_add. simpl (Z.odd 2). rewrite xorb_false_r. reflexivity.
  - intros c Hc. unfold SIDEBAR_HIDDEN. apply lookup_insert_ne. congruence.
  - rewrite Hcase. destruct (Z.odd k); vm_compute; split; intros H; try reflexivity;
      discriminate H.
  - rewrite Hcase. destruct (Z.odd k); vm_compute; split; intros H; try reflexivity;
      discriminate H.
Qed.

End SidebarFacts.
